(** * Excel Cleaner Pro: the cleaning pipeline of [excel_cleaner_pro.py]

    A shallow embedding of class [ExcelCleaner] (the six transformations,
    the file naming helpers and [clean_excel_file]) together with the
    properties its specification states about them.

    Scope of the embedding.
    - Text is modelled as [string]; the character tables below are those of
      Python's [str] methods on ASCII text (code points below 128).  Bytes
      from 128 on are carried along as caseless, non-blank symbols.
    - A cell is a text, an integer or the missing-value marker [NaN] that
      the workbook reader produces for an empty cell.
    - The data-frame library, the file system, the clock and the progress
      callback are collaborators of the pipeline: their documented
      behaviour is modelled where the pipeline depends on it, and what they
      may do freely (parse results, write faults, callback behaviour) is a
      parameter.
    - Log records are kept in the trace of a run.  The log file
      [excel_cleaner.log], to which the logger appends them as well, is
      not part of the file store.
    - Of class [ExcelCleanerGUI] the handlers that reach the pipeline are
      embedded: the option variables, [select_all_options],
      [clear_all_options], [get_cleaning_config], [update_progress] and
      [select_and_clean_file].  Widgets are a record of what they show;
      calls into the toolkit are taken to succeed. *)

From Stdlib Require Import ZArith Ascii String DecimalString.
From Stdlib Require Import PrimFloat Uint63 SpecFloat FloatOps.
From stdpp Require Import gmap strings list.

(* ===================================================================== *)
(** ** Text: the [str] methods the pipeline calls *)
(* ===================================================================== *)

Module Text.

(** [str.isspace] on ASCII: TAB, LF, VT, FF, CR, FS, GS, RS, US, SPACE. *)
Definition isspace (c : ascii) : bool :=
  let n := nat_of_ascii c in
  ((9 <=? n) && (n <=? 13)) || ((28 <=? n) && (n <=? 32)).

Definition isupper (c : ascii) : bool :=
  let n := nat_of_ascii c in (65 <=? n) && (n <=? 90).

Definition islower (c : ascii) : bool :=
  let n := nat_of_ascii c in (97 <=? n) && (n <=? 122).

(** A cased character is a letter. *)
Definition is_cased (c : ascii) : bool := isupper c || islower c.

Definition to_lower (c : ascii) : ascii :=
  if isupper c then ascii_of_nat (nat_of_ascii c + 32) else c.

Definition to_upper (c : ascii) : ascii :=
  if islower c then ascii_of_nat (nat_of_ascii c - 32) else c.

(** [s.lstrip()], [s.rstrip()], [s.strip()] without argument. *)
Fixpoint lstrip (s : string) : string :=
  match s with
  | EmptyString => EmptyString
  | String c s' => if isspace c then lstrip s' else s
  end.

Fixpoint rstrip (s : string) : string :=
  match s with
  | EmptyString => EmptyString
  | String c s' =>
      match rstrip s' with
      | EmptyString => if isspace c then EmptyString else String c EmptyString
      | r => String c r
      end
  end.

Definition strip (s : string) : string := rstrip (lstrip s).

(** [s.title()]: one pass over the text that remembers whether the
    previous character was cased; a character after a cased one is
    lowercased, any other is titlecased. *)
Fixpoint title_from (previous_is_cased : bool) (s : string) : string :=
  match s with
  | EmptyString => EmptyString
  | String c s' =>
      String (if previous_is_cased then to_lower c else to_upper c)
             (title_from (is_cased c) s')
  end.

Definition title (s : string) : string := title_from false s.

(** [s.replace(old, new)] for a non-empty [old] (both call sites pass a
    literal): scan from the left; at a position where [old] starts, emit
    [new] and jump over the occurrence, otherwise copy one character.
    [skip] counts the characters of a matched occurrence still to be
    jumped over. *)
Fixpoint replace_from (old new : string) (skip : nat) (s : string) : string :=
  match s with
  | EmptyString => EmptyString
  | String c s' =>
      match skip with
      | S k => replace_from old new k s'
      | O =>
          if String.prefix old s
          then new +:+ replace_from old new (String.length old - 1) s'
          else String c (replace_from old new 0 s')
      end
  end.

Definition replace (old new : string) (s : string) : string :=
  replace_from old new 0 s.

(** [old in s]: some position of [s] starts an occurrence of [old]. *)
Fixpoint contains (old s : string) : bool :=
  String.prefix old s ||
  match s with
  | EmptyString => false
  | String _ s' => contains old s'
  end.

(** The text before the first occurrence of [old] (all of [s] if none). *)
Fixpoint before_first (old s : string) : string :=
  match s with
  | EmptyString => EmptyString
  | String c s' =>
      if String.prefix old s then EmptyString
      else String c (before_first old s')
  end.

Fixpoint drop (n : nat) (s : string) : string :=
  match n, s with
  | S k, String _ s' => drop k s'
  | _, _ => s
  end.

Fixpoint map_chars (f : ascii -> ascii) (s : string) : string :=
  match s with
  | EmptyString => EmptyString
  | String c s' => String (f c) (map_chars f s')
  end.

Fixpoint all_chars (p : ascii -> bool) (s : string) : bool :=
  match s with
  | EmptyString => true
  | String c s' => p c && all_chars p s'
  end.

Definition first_char (s : string) : option ascii :=
  match s with
  | EmptyString => None
  | String c _ => Some c
  end.

Fixpoint last_char (s : string) : option ascii :=
  match s with
  | EmptyString => None
  | String c EmptyString => Some c
  | String _ s' => last_char s'
  end.

(** A text is trimmed when it neither starts nor ends with a blank. *)
Definition blank_at (o : option ascii) : bool :=
  match o with
  | Some c => isspace c
  | None => false
  end.

Definition trimmed (s : string) : bool :=
  negb (blank_at (first_char s)) && negb (blank_at (last_char s)).

(** [s.isascii()]: every code point is below 128.  The tables above are
    Python's on such text. *)
Definition isascii (s : string) : bool :=
  all_chars (fun c => nat_of_ascii c <? 128) s.

(** [str(n)] for an integer. *)
Definition str_of_Z (z : Z) : string := NilZero.string_of_int (Z.to_int z).

End Text.

(* ===================================================================== *)
(** ** Column labels and [normalize_column_names] on one label *)
(* ===================================================================== *)

(** A header cell of the sheet is a text or a number; [str(col)] turns
    either into text. *)
Inductive label : Type :=
  | LStr (s : string)
  | LInt (z : Z).

Definition str_label (col : label) : string :=
  match col with
  | LStr s => s
  | LInt z => Text.str_of_Z z
  end.

(** [str(col).strip().title().replace('_', ' ')] *)
Definition normalize_column_name (col : label) : string :=
  Text.replace "_" " " (Text.title (Text.strip (str_label col))).

(** The specification's wording of title case: "the first letter of each
    whitespace-delimited word is capitalized and the rest lowercased".
    Kept apart from [Text.title], which is what the code calls. *)
Fixpoint spec_title_from (at_word_start : bool) (s : string) : string :=
  match s with
  | EmptyString => EmptyString
  | String c s' =>
      String (if at_word_start then Text.to_upper c else Text.to_lower c)
             (spec_title_from (Text.isspace c) s')
  end.

Definition spec_title (s : string) : string := spec_title_from true s.

Definition spec_normalize_column_name (col : label) : string :=
  Text.replace "_" " " (spec_title (Text.strip (str_label col))).


(** The two file names the pipeline derives from the input path, given
    what the clock showed: [file_path.replace(".xlsx",
    f"_backup_{timestamp}.xlsx")] and its [_cleaned_] sibling. *)
Definition backup_name (timestamp file_path : string) : string :=
  Text.replace ".xlsx" ("_backup_" +:+ timestamp +:+ ".xlsx") file_path.

Definition cleaned_name (timestamp file_path : string) : string :=
  Text.replace ".xlsx" ("_cleaned_" +:+ timestamp +:+ ".xlsx") file_path.

(** What [replace('_', ' ')] does to one character. *)
Definition underscore_to_space (c : ascii) : ascii :=
  if Ascii.eqb c "_" then " "%char else c.

(** Whether position [i] of [s] comes right after a letter. *)
Definition after_letter (s : string) (i : nat) : bool :=
  match i with
  | O => false
  | S j =>
      match String.get j s with
      | Some c => Text.is_cased c
      | None => false
      end
  end.

(** A text that neither starts nor ends with an underscore. *)
Definition underscore_at (o : option ascii) : bool :=
  match o with
  | Some c => Ascii.eqb c "_"
  | None => false
  end.

Definition no_outer_underscore (s : string) : bool :=
  negb (underscore_at (Text.first_char s)) &&
  negb (underscore_at (Text.last_char s)).

(* ===================================================================== *)
(** ** Cells, columns and data frames *)
(* ===================================================================== *)

(** A cell holds a text, a number, or the missing-value marker. *)
Inductive cell : Type :=
  | NaN
  | Str (s : string)
  | Num (z : Z).

Global Instance label_eq_dec : EqDecision label.
Proof. solve_decision. Defined.

Global Instance cell_eq_dec : EqDecision cell.
Proof. solve_decision. Defined.

(** [isnull] / [notna] on one cell: the empty text is not missing. *)
Definition isnull (v : cell) : bool :=
  match v with
  | NaN => true
  | _ => false
  end.

Definition notna (v : cell) : bool := negb (isnull v).

(** [str(v)], which [astype(str)] applies to every element. *)
Definition str_cell (v : cell) : string :=
  match v with
  | NaN => "nan"
  | Str s => s
  | Num z => Text.str_of_Z z
  end.

(** The storage type tag of a column; ['object'] is the text-typed one. *)
Inductive storage : Type :=
  | Object
  | Int64
  | Float64.

Global Instance storage_eq_dec : EqDecision storage.
Proof. solve_decision. Defined.

Record Series : Type := mkSeries {
  name : label;
  dtype : storage;
  values : list cell
}.

(** A frame: the length of its row index ([len(df)]) and its columns, in
    order.  Every column of a well-formed frame has [nrows] cells. *)
Record DataFrame : Type := mkFrame {
  nrows : nat;
  columns : list Series
}.

Definition well_formed (df : DataFrame) : Prop :=
  Forall (fun c => length (values c) = nrows df) (columns df).

Definition row := list cell.

(** Row [i] holds the [i]-th cell of every column. *)
Definition row_at (df : DataFrame) (i : nat) : row :=
  (fun c => nth i (values c) NaN) <$> columns df.

Definition rows (df : DataFrame) : list row :=
  row_at df <$> seq 0 (nrows df).

(** Boolean indexing: the elements at the positions the mask marks. *)
Fixpoint keep_by {A : Type} (mask : list bool) (l : list A) : list A :=
  match mask, l with
  | b :: mask', x :: l' =>
      if b then x :: keep_by mask' l' else keep_by mask' l'
  | _, _ => []
  end.

Fixpoint count_true (mask : list bool) : nat :=
  match mask with
  | [] => 0
  | b :: mask' => (if b then 1 else 0) + count_true mask'
  end.

(** [df[mask]], for a mask with one entry per row. *)
Definition select_rows (mask : list bool) (df : DataFrame) : DataFrame :=
  {| nrows := count_true mask;
     columns :=
       (fun c => mkSeries (name c) (dtype c) (keep_by mask (values c)))
         <$> columns df |}.

(** [df.empty]: some axis has length zero. *)
Definition frame_empty (df : DataFrame) : bool :=
  (nrows df =? 0) || (length (columns df) =? 0).

(** [df.duplicated()] with [keep='first']: a row is marked when an equal
    row stands before it; missing values compare equal to each other. *)
Fixpoint duplicated_from (seen : list row) (rs : list row) : list bool :=
  match rs with
  | [] => []
  | r :: rs' => bool_decide (r ∈ seen) :: duplicated_from (r :: seen) rs'
  end.

Definition duplicated (df : DataFrame) : list bool :=
  duplicated_from [] (rows df).

(** [df.drop_duplicates()]: an empty frame is returned as it is, any other
    frame is indexed by the negated [duplicated] mask. *)
Definition drop_duplicates (df : DataFrame) : DataFrame :=
  if frame_empty df then df
  else select_rows (negb <$> duplicated df) df.

(** [df.dropna(how="all")]: keep the rows with at least one present cell. *)
Definition dropna_rows (df : DataFrame) : DataFrame :=
  select_rows (existsb notna <$> rows df) df.

(** [df.dropna(axis=1, how="all")]: the same test on every column. *)
Definition dropna_columns (df : DataFrame) : DataFrame :=
  {| nrows := nrows df;
     columns := filter (fun c => existsb notna (values c) = true) (columns df) |}.

(** Exceptions.  Those a collaborator raises (file system, workbook reader
    and writer, progress callback) carry its description and are kept
    apart from the ones the pipeline's own expressions raise. *)
Inductive exn : Type :=
  | AttributeError
  | ZeroDivisionError
  | ValueError
  | OverflowError
  | FileNotFoundError
  | SameFileError
  | External (what : string).

Inductive result (A : Type) : Type :=
  | Ok (a : A)
  | Raise (e : exn).
Arguments Ok {A} a.
Arguments Raise {A} e.

(** [df[col]] selects every column carrying the label. *)
Definition getitem (df : DataFrame) (col : label) : list Series :=
  filter (fun c => name c = col) (columns df).

(** [df[col] = s] for a label the frame has: the column keeps its place. *)
Definition setitem (df : DataFrame) (col : label) (vs : list cell) : DataFrame :=
  {| nrows := nrows df;
     columns :=
       (fun c => if decide (name c = col) then mkSeries col Object vs else c)
         <$> columns df |}.

(** [s.astype(str).str.<f>()] *)
Definition astype_str_then (f : string -> string) (vs : list cell) : list cell :=
  (fun v => Str (f (str_cell v))) <$> vs.

(** The loop shared by [trim_spaces] and [title_case_cells]:
<<
    for col in df_cleaned.columns:
        if df_cleaned[col].dtype == 'object':
            df_cleaned[col] = df_cleaned[col].astype(str).str.<f>()
>>
    When a label is carried by several columns, [df_cleaned[col]] is a
    frame, which has no [dtype] attribute. *)
Fixpoint text_columns_loop (f : string -> string) (labels : list label)
    (df_cleaned : DataFrame) : result DataFrame :=
  match labels with
  | [] => Ok df_cleaned
  | col :: rest =>
      match getitem df_cleaned col with
      | [c] =>
          text_columns_loop f rest
            (if decide (dtype c = Object)
             then setitem df_cleaned col (astype_str_then f (values c))
             else df_cleaned)
      | _ => Raise AttributeError
      end
  end.

Definition map_text_columns (f : string -> string) (df : DataFrame)
    : result DataFrame :=
  text_columns_loop f (name <$> columns df) df.

(** [df.columns = [str(col).strip().title().replace('_', ' ') ...]] *)
Definition rename_normalized (df : DataFrame) : DataFrame :=
  {| nrows := nrows df;
     columns :=
       (fun c => mkSeries (LStr (normalize_column_name (name c))) (dtype c) (values c))
         <$> columns df |}.

(** Vocabulary of the specification. *)

(** Every cell is the missing-value marker. *)
Definition all_null (vs : list cell) : bool := forallb isnull vs.

(** Rows [i] and [j] agree in every column, a missing value being equal
    to a missing value. *)
Definition same_in_every_column (df : DataFrame) (i j : nat) : Prop :=
  forall c, c ∈ columns df -> nth i (values c) NaN = nth j (values c) NaN.

Definition duplicate_of_earlier (df : DataFrame) (i : nat) : Prop :=
  exists j, j < i /\ same_in_every_column df i j.

(** No row, no column of missing values only. *)
Definition no_empty_row (df : DataFrame) : Prop :=
  Forall (fun r => all_null r = false) (rows df).

Definition no_empty_column (df : DataFrame) : Prop :=
  Forall (fun c => all_null (values c) = false) (columns df).

(** Row [i] has a present cell. *)
Definition row_has_value (df : DataFrame) (i : nat) : Prop :=
  exists c, c ∈ columns df /\ isnull (nth i (values c) NaN) = false.

(** What [trim_spaces] and [title_case_cells] make of one column. *)
Definition text_column (f : string -> string) (c : Series) : Series :=
  if decide (dtype c = Object)
  then mkSeries (name c) Object (astype_str_then f (values c))
  else c.

(** Every cell of every text-typed column reads as ASCII text. *)
Definition ascii_cells (df : DataFrame) : bool :=
  forallb
    (fun c => if decide (dtype c = Object)
              then forallb (fun v => Text.isascii (str_cell v)) (values c)
              else true)
    (columns df).

(** The second frame is no larger than the first, and well formed if the
    first is. *)
Definition shrinks (df df' : DataFrame) : Prop :=
  (well_formed df -> well_formed df') /\
  nrows df' <= nrows df /\
  length (columns df') <= length (columns df).

(** The rows, peeled off the columns one at a time. *)
Fixpoint rows_of (n : nat) (cols : list (list cell)) : list row :=
  match n with
  | O => []
  | S k =>
      ((fun vs => hd NaN vs) <$> cols)
        :: rows_of k ((fun vs : list cell => tail vs) <$> cols)
  end.

(** [_get_dataframe_stats] *)
Record Stats : Type := mkStats {
  stat_rows : nat;
  stat_columns : nat;
  stat_cells : nat;
  stat_empty_cells : nat;
  stat_data_types : list (storage * nat)
}.

Definition count_null (vs : list cell) : nat :=
  length (filter (fun v => isnull v = true) vs).

Definition storage_count (df : DataFrame) (t : storage) : nat :=
  length (filter (fun c => dtype c = t) (columns df)).

Definition _get_dataframe_stats (df : DataFrame) : Stats :=
  {| stat_rows := nrows df;
     stat_columns := length (columns df);
     stat_cells := nrows df * length (columns df);
     stat_empty_cells := sum_list ((fun c => count_null (values c)) <$> columns df);
     stat_data_types :=
       filter (fun p => p.2 ≠ 0)
         ((fun t => (t, storage_count df t)) <$> [Object; Int64; Float64]) |}.

(** Figures that fit together: no more empty cells than cells, and the
    type distribution lists every column once, under a type that
    occurs. *)
Definition consistent (s : Stats) : Prop :=
  stat_empty_cells s <= stat_cells s /\
  sum_list (snd <$> stat_data_types s) = stat_columns s /\
  Forall (fun p : storage * nat => 0 < p.2) (stat_data_types s) /\
  NoDup (fst <$> stat_data_types s).

(* ===================================================================== *)
(** ** Collaborators, effects and the world the pipeline runs in *)
(* ===================================================================== *)

(** What the pipeline does not decide itself: how a workbook's bytes
    parse ([pd.read_excel]) and how a frame serialises ([df.to_excel]),
    which paths the file system refuses to read or write, what the clock
    shows at each reading (already formatted by
    [strftime("%Y%m%d_%H%M%S")]), and the state a progress callback keeps
    between its invocations. *)
Class Collaborators : Type := {
  hook_state : Type;
  parse_workbook : list Byte.byte -> string + DataFrame;
  render_workbook : DataFrame -> string + list Byte.byte;
  read_fault : string -> option string;
  write_fault : string -> option string;
  clock : nat -> string
}.

(** Records written through [self.logger]. *)
Inductive log_record : Type :=
  | InfoRemovedDuplicates (removed_count : Z)
  | InfoRemovedEmptyRows (removed_count : Z)
  | InfoRemovedEmptyColumns (removed_count : Z)
  | InfoTrimmed
  | InfoNormalized (count : nat)
  | InfoTitleCased
  | InfoLoading (file_path : string)
  | InfoSuccess (cleaned_path : string)
  | ErrorCleaning (e : exn).

(** What a run leaves behind, in the order it happened: log records and
    invocations of the progress callback. *)
Inductive event : Type :=
  | Logged (r : log_record)
  | Progress (percent : Z).

Section Effects.
Context `{Collaborators}.

Record World : Type := mkWorld {
  files : gmap string (list Byte.byte);
  trace : list event;
  ticks : nat;
  hook : hook_state
}.

(** A computation either returns or raises, and changes the world. *)
Definition M (A : Type) : Type := World -> result A * World.

Definition ret {A : Type} (a : A) : M A := fun w => (Ok a, w).

Definition raise {A : Type} (e : exn) : M A := fun w => (Raise e, w).

Definition bind {A B : Type} (m : M A) (k : A -> M B) : M B :=
  fun w =>
    match m w with
    | (Ok a, w') => k a w'
    | (Raise e, w') => (Raise e, w')
    end.

Definition lift {A : Type} (r : result A) : M A := fun w => (r, w).

Definition emit (e : event) : M unit :=
  fun w => (Ok tt, mkWorld (files w) (trace w ++ [e]) (ticks w) (hook w)).

Definition log (r : log_record) : M unit := emit (Logged r).

(** [datetime.now().strftime("%Y%m%d_%H%M%S")] *)
Definition now : M string :=
  fun w => (Ok (clock (ticks w)),
            mkWorld (files w) (trace w) (S (ticks w)) (hook w)).

(** [try: body  except Exception as e: self.logger.error(...); raise] *)
Definition try_log_reraise {A : Type} (body : M A) : M A :=
  fun w =>
    match body w with
    | (Ok a, w') => (Ok a, w')
    | (Raise e, w') => (Raise e, (log (ErrorCleaning e) w').2)
    end.

End Effects.

Notation "'let*' x ':=' m 'in' k" := (bind m (fun x => k))
  (at level 10, x name, m at level 100, k at level 200).
Notation "'run' m 'then' k" := (bind m (fun _ => k))
  (at level 10, m at level 100, k at level 200).

(* ===================================================================== *)
(** ** class ExcelCleaner *)
(* ===================================================================== *)

(** [@dataclass CleaningConfig]; every flag defaults to [False]. *)
Record CleaningConfig : Type := mkConfig {
  cfg_remove_duplicates : bool;
  cfg_remove_empty_rows : bool;
  cfg_remove_empty_columns : bool;
  cfg_trim_spaces : bool;
  cfg_normalize_column_names : bool;
  cfg_title_case_cells : bool
}.

Definition default_config : CleaningConfig :=
  mkConfig false false false false false false.

(** The statistics dictionary [clean_excel_file] returns. *)
Record Statistics : Type := mkStatistics {
  original : Stats;
  final : Stats;
  operations_applied : list string
}.

(** [float(n)] for a machine-sized natural number. *)
Definition float_of_nat (n : nat) : float :=
  PrimFloat.of_uint63 (Uint63.of_Z (Z.of_nat n)).

(** [int(x)]: truncation towards zero; no integer for nan and infinity. *)
Definition int_of_float (x : float) : result Z :=
  match Prim2SF x with
  | S754_zero _ => Ok 0%Z
  | S754_finite sign m e =>
      let magnitude :=
        if (0 <=? e)%Z then Z.shiftl (Z.pos m) e else Z.shiftr (Z.pos m) (- e) in
      Ok (if sign then (- magnitude)%Z else magnitude)
  | S754_infinity _ => Raise OverflowError
  | S754_nan => Raise ValueError
  end.

(** [int((i + 1) / total_ops * 100)], in binary64 arithmetic. *)
Definition percent_complete (i total_ops : nat) : result Z :=
  if total_ops =? 0 then Raise ZeroDivisionError
  else int_of_float
         (PrimFloat.mul
            (PrimFloat.div (float_of_nat (i + 1)) (float_of_nat total_ops))
            (float_of_nat 100)).

Section ExcelCleaner.
Context `{Collaborators}.

(** A progress callback: given the percentage and its own state, it
    returns or raises, and leaves a new state. *)
Definition callback : Type := Z -> hook_state -> option string * hook_state.

Definition invoke (progress_callback : callback) (p : Z) : M unit :=
  fun w =>
    let outcome := progress_callback p (hook w) in
    let w' := mkWorld (files w) (trace w ++ [Progress p]) (ticks w) outcome.2 in
    match outcome.1 with
    | Some what => (Raise (External what), w')
    | None => (Ok tt, w')
    end.




(** [shutil.copy2(src, dst)] *)
Definition copy2 (src dst : string) : M unit :=
  fun w =>
    match files w !! src with
    | None => (Raise FileNotFoundError, w)
    | Some content =>
        if decide (src = dst) then (Raise SameFileError, w)
        else
          match read_fault src, write_fault dst with
          | Some what, _ => (Raise (External what), w)
          | None, Some what => (Raise (External what), w)
          | None, None =>
              (Ok tt, mkWorld (<[dst := content]> (files w))
                              (trace w) (ticks w) (hook w))
          end
    end.

(** [pd.read_excel(file_path)] *)
Definition read_excel (file_path : string) : M DataFrame :=
  fun w =>
    match files w !! file_path with
    | None => (Raise FileNotFoundError, w)
    | Some content =>
        match read_fault file_path with
        | Some what => (Raise (External what), w)
        | None =>
            match parse_workbook content with
            | inl what => (Raise (External what), w)
            | inr df => (Ok df, w)
            end
        end
    end.

(** [df.to_excel(path, index=False)].  What a write that fails leaves at
    [path] is not modelled (here: what was there); nothing stated below
    about the files of a run that raises at this step rests on it. *)
Definition to_excel (df : DataFrame) (path : string) : M unit :=
  fun w =>
    match render_workbook df, write_fault path with
    | inl what, _ => (Raise (External what), w)
    | inr _, Some what => (Raise (External what), w)
    | inr content, None =>
        (Ok tt, mkWorld (<[path := content]> (files w))
                        (trace w) (ticks w) (hook w))
    end.

Definition remove_duplicates (df : DataFrame) : M DataFrame :=
  let initial_count := nrows df in
  let df_cleaned := drop_duplicates df in
  let removed_count := (Z.of_nat initial_count - Z.of_nat (nrows df_cleaned))%Z in
  run log (InfoRemovedDuplicates removed_count) then
  ret df_cleaned.

Definition remove_empty_rows (df : DataFrame) : M DataFrame :=
  let initial_count := nrows df in
  let df_cleaned := dropna_rows df in
  let removed_count := (Z.of_nat initial_count - Z.of_nat (nrows df_cleaned))%Z in
  run log (InfoRemovedEmptyRows removed_count) then
  ret df_cleaned.

Definition remove_empty_columns (df : DataFrame) : M DataFrame :=
  let initial_cols := length (columns df) in
  let df_cleaned := dropna_columns df in
  let removed_count :=
    (Z.of_nat initial_cols - Z.of_nat (length (columns df_cleaned)))%Z in
  run log (InfoRemovedEmptyColumns removed_count) then
  ret df_cleaned.

Definition trim_spaces (df : DataFrame) : M DataFrame :=
  let* df_cleaned := lift (map_text_columns Text.strip df) in
  run log InfoTrimmed then
  ret df_cleaned.

Definition normalize_column_names (df : DataFrame) : M DataFrame :=
  let old_columns := name <$> columns df in
  let df_cleaned := rename_normalized df in
  run log (InfoNormalized (length old_columns)) then
  ret df_cleaned.

Definition title_case_cells (df : DataFrame) : M DataFrame :=
  let* df_cleaned := lift (map_text_columns Text.title df) in
  run log InfoTitleCased then
  ret df_cleaned.

(** [_create_backup] *)
Definition _create_backup (file_path : string) : M string :=
  let* timestamp := now in
  let backup_path := backup_name timestamp file_path in
  run copy2 file_path backup_path then
  ret backup_path.

(** [_get_cleaned_filename] *)
Definition _get_cleaned_filename (file_path : string) : M string :=
  let* timestamp := now in
  ret (cleaned_name timestamp file_path).

Definition operation : Type := string * (DataFrame -> M DataFrame) * bool.

Definition operations (config : CleaningConfig) : list operation :=
  [ ("remove_duplicates", remove_duplicates, cfg_remove_duplicates config);
    ("remove_empty_rows", remove_empty_rows, cfg_remove_empty_rows config);
    ("remove_empty_columns", remove_empty_columns, cfg_remove_empty_columns config);
    ("trim_spaces", trim_spaces, cfg_trim_spaces config);
    ("normalize_column_names", normalize_column_names,
       cfg_normalize_column_names config);
    ("title_case_cells", title_case_cells, cfg_title_case_cells config) ].

Definition enabled_operations (config : CleaningConfig) : list operation :=
  filter (fun op => op.2 = true) (operations config).

(** The body of
<<
    for i, (name, func, enabled) in enumerate(enabled_operations):
        if enabled:
            df = func(df)
            if progress_callback:
                progress_callback(int((i + 1) / total_ops * 100))
>>
    from position [i] on.  [progress_callback] is the argument as the
    test [if progress_callback:] finds it (see [tested]): [Some cb] for
    a callable that tests true, [None] for [None] and for a callable
    that tests false. *)
Fixpoint apply_operations (progress_callback : option callback)
    (total_ops : nat) (i : nat) (ops : list operation) (df : DataFrame)
    : M DataFrame :=
  match ops with
  | [] => ret df
  | (_, func, enabled) :: rest =>
      if enabled then
        let* df' := func df in
        run (match progress_callback with
             | Some cb =>
                 let* p := lift (percent_complete i total_ops) in
                 invoke cb p
             | None => ret tt
             end) then
        apply_operations progress_callback total_ops (S i) rest df'
      else apply_operations progress_callback total_ops (S i) rest df
  end.

(** The [try] block of [clean_excel_file]. *)
Definition clean_excel_file_body (file_path : string) (config : CleaningConfig)
    (progress_callback : option callback) : M (string * string * Statistics) :=
  let* backup_path := _create_backup file_path in
  run log (InfoLoading file_path) then
  let* df := read_excel file_path in
  let original_stats := _get_dataframe_stats df in
  let enabled_ops := enabled_operations config in
  let total_ops := length enabled_ops in
  let* df := apply_operations progress_callback total_ops 0 enabled_ops df in
  let* cleaned_path := _get_cleaned_filename file_path in
  run to_excel df cleaned_path then
  let final_stats := _get_dataframe_stats df in
  let statistics :=
    mkStatistics original_stats final_stats
      ((fun op : operation => op.1.1) <$> enabled_ops) in
  run log (InfoSuccess cleaned_path) then
  ret (backup_path, cleaned_path, statistics).

Definition clean_excel_file (file_path : string) (config : CleaningConfig)
    (progress_callback : option callback) : M (string * string * Statistics) :=
  try_log_reraise (clean_excel_file_body file_path config progress_callback).

End ExcelCleaner.

(* ===================================================================== *)
(** ** Reading a run off its trace *)
(* ===================================================================== *)

(** The six operations in their fixed order, and a configuration's flags
    in the same order. *)
Definition operation_names : list string :=
  [ "remove_duplicates"; "remove_empty_rows"; "remove_empty_columns";
    "trim_spaces"; "normalize_column_names"; "title_case_cells" ].

Definition flags (config : CleaningConfig) : list bool :=
  [ cfg_remove_duplicates config; cfg_remove_empty_rows config;
    cfg_remove_empty_columns config; cfg_trim_spaces config;
    cfg_normalize_column_names config; cfg_title_case_cells config ].

Definition enabled_names (config : CleaningConfig) : list string :=
  keep_by (flags config) operation_names.

(** What a run shows of the transformation sequence: a transformation
    completed (it wrote its log record), or the callback was invoked. *)
Inductive step : Type :=
  | Applied (operation_name : string)
  | Reported (percent : Z).

Definition operation_of (r : log_record) : option string :=
  match r with
  | InfoRemovedDuplicates _ => Some "remove_duplicates"
  | InfoRemovedEmptyRows _ => Some "remove_empty_rows"
  | InfoRemovedEmptyColumns _ => Some "remove_empty_columns"
  | InfoTrimmed => Some "trim_spaces"
  | InfoNormalized _ => Some "normalize_column_names"
  | InfoTitleCased => Some "title_case_cells"
  | InfoLoading _ | InfoSuccess _ | ErrorCleaning _ => None
  end.

Definition step_of (e : event) : option step :=
  match e with
  | Logged r => Applied <$> operation_of r
  | Progress p => Some (Reported p)
  end.

Definition steps (evs : list event) : list step := omap step_of evs.

Definition progress_of (e : event) : option Z :=
  match e with
  | Progress p => Some p
  | Logged _ => None
  end.

Definition progress_calls (evs : list event) : list Z := omap progress_of evs.

Definition report_of (s : step) : option Z :=
  match s with
  | Reported p => Some p
  | Applied _ => None
  end.

Definition reports (ss : list step) : list Z := omap report_of ss.

(** The percentage of the specification:
    floor (completed / enabled * 100). *)
Definition expected_percent (completed enabled : nat) : Z :=
  (Z.of_nat completed * 100 / Z.of_nat enabled)%Z.

(** The steps a full pass over the enabled operations [names] shows, when
    [completed] operations are already behind and [enabled] is their
    total: each transformation, followed (when a callback was supplied)
    by one report. *)
Fixpoint expected_steps (reporting : bool) (completed enabled : nat)
    (names : list string) : list step :=
  match names with
  | [] => []
  | nm :: rest =>
      Applied nm ::
      (if reporting
       then [Reported (expected_percent (S completed) enabled)]
       else []) ++
      expected_steps reporting (S completed) enabled rest
  end.

Definition supplied {A : Type} (o : option A) : bool :=
  match o with
  | Some _ => true
  | None => false
  end.

Section Observations.
Context `{Collaborators}.

(** A transformation either returns, having written exactly one log
    record (its own) and touched nothing else, or raises
    [AttributeError] and leaves the world as it was. *)
Definition logs_once_or_fails (nm : string) (func : DataFrame -> M DataFrame)
    : Prop :=
  forall df w,
    (exists df' r,
       func df w
       = (Ok df', mkWorld (files w) (trace w ++ [Logged r]) (ticks w) (hook w)) /\
       operation_of r = Some nm) \/
    func df w = (Raise AttributeError, w).



(** A callback that is absent or never raises. *)
Definition quiet (progress_callback : option callback) : Prop :=
  match progress_callback with
  | None => True
  | Some cb => forall p s, (cb p s).1 = None
  end.

(** A transformation that reads nothing of the world: its result and
    the records it writes are a function of the frame alone. *)
Definition reads_frame_only (func : DataFrame -> M DataFrame) : Prop :=
  exists g : DataFrame -> result DataFrame * list event,
    forall df w,
      func df w
      = ((g df).1,
         mkWorld (files w) (trace w ++ (g df).2) (ticks w) (hook w)).

End Observations.

(** The log records of a trace, without the progress reports. *)
Definition record_of (e : event) : option log_record :=
  match e with
  | Logged r => Some r
  | Progress _ => None
  end.

Definition logged (evs : list event) : list log_record := omap record_of evs.


(* ===================================================================== *)
(** ** class ExcelCleanerGUI: the handlers around the pipeline *)
(* ===================================================================== *)

(** What the window has shown in a dialog of its own: the two message
    boxes of [select_and_clean_file] and the results window.  The error
    box carries the exception whose [str(e)] it prints. *)
Inductive dialog : Type :=
  | ShowWarning (title message : string)
  | ShowError (e : exn)
  | ShowResults (backup_path cleaned_path : string) (stats : Statistics).

Inductive button_state : Type :=
  | Normal
  | Disabled.

(** The widgets the handlers read and write: the six [tk.BooleanVar] of
    [self.option_vars] by key, the progress bar's variable and label, the
    status bar, the state of the "clean" button.  Calls into the toolkit
    are taken to succeed. *)
Record Widgets : Type := mkWidgets {
  option_vars : gmap string bool;
  progress_var : Z;
  progress_label : string;
  status_label : string;
  clean_btn : button_state;
  dialogs : list dialog
}.

(** [create_options_section]: six variables, each [False] as
    [tk.BooleanVar()] creates it. *)
Definition create_option_vars : gmap string bool :=
  list_to_map ((fun nm => (nm, false)) <$> operation_names).

Definition set_option_vars (vars : gmap string bool) (gui : Widgets) : Widgets :=
  mkWidgets vars (progress_var gui) (progress_label gui) (status_label gui)
            (clean_btn gui) (dialogs gui).

Definition set_progress_var (value : Z) (gui : Widgets) : Widgets :=
  mkWidgets (option_vars gui) value (progress_label gui) (status_label gui)
            (clean_btn gui) (dialogs gui).

Definition configure_progress_label (text : string) (gui : Widgets) : Widgets :=
  mkWidgets (option_vars gui) (progress_var gui) text (status_label gui)
            (clean_btn gui) (dialogs gui).

Definition configure_clean_btn (state : button_state) (gui : Widgets) : Widgets :=
  mkWidgets (option_vars gui) (progress_var gui) (progress_label gui)
            (status_label gui) state (dialogs gui).

Definition show (d : dialog) (gui : Widgets) : Widgets :=
  mkWidgets (option_vars gui) (progress_var gui) (progress_label gui)
            (status_label gui) (clean_btn gui) (dialogs gui ++ [d]).

(** [update_status] *)
Definition update_status (message : string) (gui : Widgets) : Widgets :=
  mkWidgets (option_vars gui) (progress_var gui) (progress_label gui) message
            (clean_btn gui) (dialogs gui).

(** [update_progress] *)
Definition update_progress (value : Z) (gui : Widgets) : Widgets :=
  configure_progress_label ("Processing... " +:+ Text.str_of_Z value +:+ "%")
    (set_progress_var value gui).

(** [select_all_options] and [clear_all_options]:
    [for var in self.option_vars.values(): var.set(...)] *)
Definition select_all_options (gui : Widgets) : Widgets :=
  update_status "All options selected"
    (set_option_vars ((fun _ => true) <$> option_vars gui) gui).

Definition clear_all_options (gui : Widgets) : Widgets :=
  update_status "All options cleared"
    (set_option_vars ((fun _ => false) <$> option_vars gui) gui).

(** [get_cleaning_config]; a key the dictionary lacks makes
    [self.option_vars[key]] raise [KeyError], here [None]. *)
Definition get_cleaning_config (gui : Widgets) : option CleaningConfig :=
  b1 ← option_vars gui !! "remove_duplicates";
  b2 ← option_vars gui !! "remove_empty_rows";
  b3 ← option_vars gui !! "remove_empty_columns";
  b4 ← option_vars gui !! "trim_spaces";
  b5 ← option_vars gui !! "normalize_column_names";
  b6 ← option_vars gui !! "title_case_cells";
  Some (mkConfig b1 b2 b3 b4 b5 b6).

(** Python's [any] on a list of booleans. *)
Definition any (bs : list bool) : bool := existsb (fun b => b) bs.

(** The dictionary has its six keys. *)
Definition has_all_options (gui : Widgets) : Prop :=
  forall nm, nm ∈ operation_names -> is_Some (option_vars gui !! nm).

Section ExcelCleanerGUI.
Context (parse : list Byte.byte -> string + DataFrame)
        (render : DataFrame -> string + list Byte.byte)
        (rfault wfault : string -> option string)
        (now_shows : nat -> string).

(** The pipeline's collaborators as the window sees them: the progress
    callback is a bound method of the window, so the state it keeps is
    the window's widgets. *)
Definition gui_collaborators : Collaborators := {|
  hook_state := Widgets;
  parse_workbook := parse;
  render_workbook := render;
  read_fault := rfault;
  write_fault := wfault;
  clock := now_shows
|}.

Local Existing Instance gui_collaborators.

(** The world with the widgets in another state. *)
Definition with_widgets (gui : Widgets) (w : World) : World :=
  mkWorld (files w) (trace w) (ticks w) gui.

(** A toolkit call, as a step of a handler. *)
Definition on_widgets (f : Widgets -> Widgets) : M unit :=
  fun w => (Ok tt, mkWorld (files w) (trace w) (ticks w) (f (hook w))).

(** [self.update_progress], handed to the pipeline as its callback. *)
Definition progress_callback : callback :=
  fun value gui => (None, update_progress value gui).

(** The [try] block of [select_and_clean_file]. *)
Definition cleaning_attempt (file_path : string) (config : CleaningConfig)
    : M unit :=
  run on_widgets (configure_clean_btn Disabled) then
  run on_widgets (update_status "Cleaning in progress...") then
  run on_widgets (set_progress_var 0) then
  let* returned := clean_excel_file file_path config (Some progress_callback) in
  run on_widgets (set_progress_var 100) then
  run on_widgets (configure_progress_label "Cleaning completed successfully!") then
  run on_widgets (show (ShowResults returned.1.1 returned.1.2 returned.2)) then
  on_widgets (update_status "Ready").

(** Its [except Exception as e] block. *)
Definition cleaning_failed (e : exn) : M unit :=
  run on_widgets (show (ShowError e)) then
  run on_widgets (update_status "Error occurred") then
  run on_widgets (set_progress_var 0) then
  on_widgets (configure_progress_label "Ready to clean your Excel files").

(** [select_and_clean_file], given what the file dialog returned (the
    empty text when the user cancelled).  [None]: an exception left the
    handler, which only the [KeyError] of [get_cleaning_config] can do. *)
Definition select_and_clean_file (file_path : string) (w : World)
    : option World :=
  if decide (file_path = "") then Some w
  else
    config ← get_cleaning_config (hook w);
    if negb (any (flags config)) then
      Some (on_widgets
              (show (ShowWarning "No Options Selected"
                       "Please select at least one cleaning option before proceeding."))
              w).2
    else
      let after_try :=
        match cleaning_attempt file_path config w with
        | (Ok _, w') => w'
        | (Raise e, w') => (cleaning_failed e w').2
        end in
      Some (on_widgets (configure_clean_btn Normal) after_try).2.

End ExcelCleanerGUI.

(* ===================================================================== *)
(** ** A concrete setting to run the pipeline in *)
(* ===================================================================== *)

(** The sheet of the end-to-end scenario: columns [Name] and [Val]. *)
Definition sample_frame : DataFrame :=
  mkFrame 4
    [ mkSeries (LStr "Name") Object [Str "a"; Str "a"; NaN; Str " b "];
      mkSeries (LStr "Val") Float64 [Num 1; Num 1; NaN; Num 2] ].

(** Collaborators that never fail: every workbook parses to
    [sample_frame], the clock stands still, and the callback state is the
    list of percentages received so far. *)
Definition sample_collaborators : Collaborators := {|
  hook_state := list Z;
  parse_workbook := fun _ => inr sample_frame;
  render_workbook := fun df => inr ((fun _ => Byte.x00) <$> columns df);
  read_fault := fun _ => None;
  write_fault := fun _ => None;
  clock := fun _ => "20240101_120000"
|}.

Definition recording_callback : @callback sample_collaborators :=
  fun p seen => (None, seen ++ [p]).

(** A world whose workbook is in the older [.xls] format, which the file
    dialog of the application offers next to [.xlsx]. *)
Definition legacy_world : @World sample_collaborators :=
  mkWorld (H := sample_collaborators)
    {[ "data.xls" := [Byte.xd0; Byte.xcf] ]} [] 0 [].

Definition sample_world : @World sample_collaborators :=
  mkWorld (H := sample_collaborators)
    {[ "data.xlsx" := [Byte.x50; Byte.x4b] ]} [] 0 [].

(** A sheet whose two headers read differently and normalize to the
    same text, and collaborators that parse every workbook to it. *)
Definition colliding_frame : DataFrame :=
  mkFrame 1
    [ mkSeries (LStr "first_name") Object [Str "ann"];
      mkSeries (LStr "First Name") Object [Str "bob"] ].

Definition colliding_collaborators : Collaborators := {|
  hook_state := list Z;
  parse_workbook := fun _ => inr colliding_frame;
  render_workbook := fun df => inr ((fun _ => Byte.x00) <$> columns df);
  read_fault := fun _ => None;
  write_fault := fun _ => None;
  clock := fun _ => "20240101_120000"
|}.

Definition colliding_world : @World colliding_collaborators :=
  mkWorld (H := colliding_collaborators)
    {[ "data.xlsx" := [Byte.x50; Byte.x4b] ]} [] 0 [].

(** The window as it opens, over collaborators that never fail and a
    disk holding one workbook. *)
Definition sample_widgets : Widgets :=
  mkWidgets create_option_vars 0 "Ready to clean your Excel files" "Ready"
            Normal [].

Definition sample_gui : Collaborators :=
  gui_collaborators (fun _ => inr sample_frame)
    (fun df => inr ((fun _ => Byte.x00) <$> columns df))
    (fun _ => None) (fun _ => None) (fun _ => "20240101_120000").

Definition sample_window : @World sample_gui :=
  mkWorld (H := sample_gui)
    {[ "data.xlsx" := [Byte.x50; Byte.x4b] ]} [] 0 sample_widgets.

(* ===================================================================== *)
(** * Properties *)
(* ===================================================================== *)

(** ** Characters *)

Ltac by_cases_on_char c :=
  destruct c as [[] [] [] [] [] [] [] []]; vm_compute; reflexivity.

Lemma to_upper_idem c : Text.to_upper (Text.to_upper c) = Text.to_upper c.
Proof. by_cases_on_char c. Qed.

Lemma to_lower_idem c : Text.to_lower (Text.to_lower c) = Text.to_lower c.
Proof. by_cases_on_char c. Qed.

Lemma is_cased_to_upper c : Text.is_cased (Text.to_upper c) = Text.is_cased c.
Proof. by_cases_on_char c. Qed.

Lemma is_cased_to_lower c : Text.is_cased (Text.to_lower c) = Text.is_cased c.
Proof. by_cases_on_char c. Qed.

Lemma is_cased_underscore_to_space c :
  Text.is_cased (underscore_to_space c) = Text.is_cased c.
Proof. by_cases_on_char c. Qed.

Lemma to_upper_underscore_to_space c :
  Text.to_upper (underscore_to_space c) = underscore_to_space (Text.to_upper c).
Proof. by_cases_on_char c. Qed.

Lemma to_lower_underscore_to_space c :
  Text.to_lower (underscore_to_space c) = underscore_to_space (Text.to_lower c).
Proof. by_cases_on_char c. Qed.

Lemma underscore_to_space_idem c :
  underscore_to_space (underscore_to_space c) = underscore_to_space c.
Proof. by_cases_on_char c. Qed.

Lemma isspace_after_upper c :
  Text.isspace (underscore_to_space (Text.to_upper c))
  = Text.isspace c || Ascii.eqb c "_".
Proof. by_cases_on_char c. Qed.

Lemma isspace_after_lower c :
  Text.isspace (underscore_to_space (Text.to_lower c))
  = Text.isspace c || Ascii.eqb c "_".
Proof. by_cases_on_char c. Qed.

Lemma isspace_to_upper c : Text.isspace (Text.to_upper c) = Text.isspace c.
Proof. by_cases_on_char c. Qed.

Lemma isspace_to_lower c : Text.isspace (Text.to_lower c) = Text.isspace c.
Proof. by_cases_on_char c. Qed.

(** ** Texts *)

Lemma append_cons c s t : String c s +:+ t = String c (s +:+ t).
Proof. reflexivity. Qed.

Lemma append_empty_l t : "" +:+ t = t.
Proof. reflexivity. Qed.

Lemma append_cancel_l pre x y : pre +:+ x = pre +:+ y -> x = y.
Proof.
  induction pre as [|c pre IH]; [done|].
  rewrite !append_cons. intros [= Heq]. auto.
Qed.

Lemma prefix_empty s : String.prefix "" s = true.
Proof. by destruct s. Qed.

Lemma first_char_map_chars f s :
  Text.first_char (Text.map_chars f s) = f <$> Text.first_char s.
Proof. by destruct s. Qed.

Lemma last_char_map_chars f s :
  Text.last_char (Text.map_chars f s) = f <$> Text.last_char s.
Proof.
  induction s as [|c s IH]; [done|].
  destruct s as [|d s]; [done|]. exact IH.
Qed.

Lemma get_map_chars f s i :
  String.get i (Text.map_chars f s) = f <$> String.get i s.
Proof.
  revert i. induction s as [|c s IH]; intros [|i]; simpl; auto.
Qed.

Lemma length_map_chars f s :
  String.length (Text.map_chars f s) = String.length s.
Proof. induction s; simpl; auto. Qed.

Lemma length_title_from p s :
  String.length (Text.title_from p s) = String.length s.
Proof. revert p. induction s; intros p; simpl; auto. Qed.

(** Replacing a one-character pattern works character by character. *)
Lemma replace_single a b s :
  Text.replace (String a "") (String b "") s
  = Text.map_chars (fun c => if Ascii.eqb c a then b else c) s.
Proof.
  unfold Text.replace. induction s as [|c s IH]; [done|].
  simpl. destruct (ascii_dec a c) as [->|Hne].
  - rewrite prefix_empty, Ascii.eqb_refl.
    rewrite append_cons, append_empty_l. by rewrite IH.
  - destruct (Ascii.eqb_spec c a) as [->|_]; [done|]. by rewrite IH.
Qed.

Lemma replace_underscore s :
  Text.replace "_" " " s = Text.map_chars underscore_to_space s.
Proof. apply replace_single. Qed.

Lemma title_from_idem p s :
  Text.title_from p (Text.title_from p s) = Text.title_from p s.
Proof.
  revert p. induction s as [|c s IH]; intros p; [done|]. simpl.
  destruct p.
  - by rewrite to_lower_idem, is_cased_to_lower, IH.
  - by rewrite to_upper_idem, is_cased_to_upper, IH.
Qed.

Lemma title_from_underscore_to_space p s :
  Text.title_from p (Text.map_chars underscore_to_space s)
  = Text.map_chars underscore_to_space (Text.title_from p s).
Proof.
  revert p. induction s as [|c s IH]; intros p; [done|]. simpl.
  rewrite is_cased_underscore_to_space, IH.
  by destruct p;
    rewrite ?to_lower_underscore_to_space, ?to_upper_underscore_to_space.
Qed.

Lemma map_underscore_to_space_idem s :
  Text.map_chars underscore_to_space (Text.map_chars underscore_to_space s)
  = Text.map_chars underscore_to_space s.
Proof.
  induction s as [|c s IH]; [done|]. simpl.
  by rewrite underscore_to_space_idem, IH.
Qed.

(** The pointwise reading of [title]: a character right after a letter is
    lowercased, any other is uppercased. *)
Lemma get_title_from p s i :
  String.get i (Text.title_from p s)
  = (fun c =>
       if match i with
          | O => p
          | S j => match String.get j s with
                   | Some d => Text.is_cased d
                   | None => false
                   end
          end
       then Text.to_lower c else Text.to_upper c) <$> String.get i s.
Proof.
  revert p i. induction s as [|c s IH]; intros p [|i]; simpl; auto.
  rewrite IH. by destruct i.
Qed.

(** After title-casing and turning underscores into blanks, the first
    (last) character is blank exactly when it was a blank or an
    underscore before. *)
Lemma blank_first_after_title p s :
  Text.blank_at
    (Text.first_char (Text.map_chars underscore_to_space (Text.title_from p s)))
  = Text.blank_at (Text.first_char s) || underscore_at (Text.first_char s).
Proof.
  destruct s as [|c s]; [done|]. simpl.
  destruct p; [apply isspace_after_lower | apply isspace_after_upper].
Qed.

Lemma blank_last_after_title p s :
  Text.blank_at
    (Text.last_char (Text.map_chars underscore_to_space (Text.title_from p s)))
  = Text.blank_at (Text.last_char s) || underscore_at (Text.last_char s).
Proof.
  revert p. induction s as [|c s IH]; intros p; [done|].
  destruct s as [|d s].
  - simpl. destruct p; [apply isspace_after_lower | apply isspace_after_upper].
  - exact (IH (Text.is_cased c)).
Qed.

(** *** [strip] *)

Lemma lstrip_fixed s :
  Text.blank_at (Text.first_char s) = false -> Text.lstrip s = s.
Proof. destruct s as [|c s]; simpl; [done|]. by intros ->. Qed.

Lemma rstrip_fixed s :
  Text.blank_at (Text.last_char s) = false -> Text.rstrip s = s.
Proof.
  induction s as [|c s IH]; [done|].
  destruct s as [|d s].
  - simpl. by intros ->.
  - intros Hlast. change (Text.rstrip (String c (String d s)))
      with (match Text.rstrip (String d s) with
            | EmptyString =>
                if Text.isspace c then EmptyString else String c EmptyString
            | r => String c r
            end).
    by rewrite (IH Hlast).
Qed.

Lemma strip_fixed s : Text.trimmed s = true -> Text.strip s = s.
Proof.
  unfold Text.trimmed, Text.strip. intros [Hf Hl]%andb_prop.
  apply negb_true_iff in Hf, Hl.
  rewrite (lstrip_fixed _ Hf). by apply rstrip_fixed.
Qed.

Lemma lstrip_first s : Text.blank_at (Text.first_char (Text.lstrip s)) = false.
Proof.
  induction s as [|c s IH]; [done|]. simpl.
  destruct (Text.isspace c) eqn:Hc; [exact IH|]. exact Hc.
Qed.

Lemma rstrip_last s : Text.blank_at (Text.last_char (Text.rstrip s)) = false.
Proof.
  induction s as [|c s IH]; [done|]. simpl.
  destruct (Text.rstrip s) as [|d r] eqn:Hr.
  - destruct (Text.isspace c) eqn:Hc; [done|]. exact Hc.
  - exact IH.
Qed.

Lemma rstrip_first s :
  Text.blank_at (Text.first_char s) = false ->
  Text.blank_at (Text.first_char (Text.rstrip s)) = false.
Proof.
  destruct s as [|c s]; [done|]. simpl. intros Hc.
  destruct (Text.rstrip s); [by rewrite Hc | exact Hc].
Qed.

Lemma trimmed_strip s : Text.trimmed (Text.strip s) = true.
Proof.
  unfold Text.trimmed, Text.strip.
  by rewrite rstrip_first, rstrip_last by apply lstrip_first.
Qed.

Lemma lstrip_split s :
  exists pre, s = pre +:+ Text.lstrip s /\ Text.all_chars Text.isspace pre = true.
Proof.
  induction s as [|c s (pre & Hs & Hpre)]; [by exists ""|]. simpl.
  destruct (Text.isspace c) eqn:Hc.
  - exists (String c pre). rewrite append_cons, <- Hs. simpl. by rewrite Hc.
  - by exists "".
Qed.

Lemma rstrip_split s :
  exists post, s = Text.rstrip s +:+ post /\ Text.all_chars Text.isspace post = true.
Proof.
  induction s as [|c s (post & Hs & Hpost)]; [by exists ""|]. simpl.
  destruct (Text.rstrip s) as [|d r] eqn:Hr.
  - rewrite append_empty_l in Hs. subst post.
    destruct (Text.isspace c) eqn:Hc.
    + exists (String c s). simpl. by rewrite Hc.
    + by exists s.
  - exists post. by rewrite !append_cons, <- append_cons, <- Hs.
Qed.

Lemma strip_split s :
  exists pre post,
    s = pre +:+ Text.strip s +:+ post /\
    Text.all_chars Text.isspace pre = true /\
    Text.all_chars Text.isspace post = true.
Proof.
  destruct (lstrip_split s) as (pre & Hs & Hpre).
  destruct (rstrip_split (Text.lstrip s)) as (post & Hl & Hpost).
  exists pre, post. unfold Text.strip. by rewrite <- Hl, <- Hs.
Qed.

(** ** [normalize_column_names] on one label *)

Lemma normalize_column_name_unfold col :
  normalize_column_name col
  = Text.map_chars underscore_to_space
      (Text.title (Text.strip (str_label col))).
Proof. apply replace_underscore. Qed.

Lemma trimmed_normalized s :
  Text.trimmed s = true ->
  no_outer_underscore s = true ->
  Text.trimmed (Text.map_chars underscore_to_space (Text.title s)) = true.
Proof.
  unfold Text.trimmed, no_outer_underscore, Text.title.
  intros [Hf Hl]%andb_prop [Uf Ul]%andb_prop.
  apply negb_true_iff in Hf, Hl, Uf, Ul.
  by rewrite blank_first_after_title, blank_last_after_title, Hf, Hl, Uf, Ul.
Qed.

(** C2, as the code has it: normalising a column name a second time
    changes nothing, provided the name, once stripped, neither starts nor
    ends with an underscore; and ["first_name "] becomes ["First Name"],
    which normalises to itself. *)
Theorem normalize_column_name_idempotent :
  (forall col,
     no_outer_underscore (Text.strip (str_label col)) = true ->
     normalize_column_name (LStr (normalize_column_name col))
     = normalize_column_name col) /\
  normalize_column_name (LStr "first_name ") = "First Name" /\
  normalize_column_name (LStr "First Name") = "First Name".
Proof.
  split; [|split; reflexivity].
  intros col Hu.
  rewrite (normalize_column_name_unfold (LStr _)). simpl str_label.
  rewrite normalize_column_name_unfold.
  set (s := Text.strip (str_label col)) in *.
  rewrite strip_fixed.
  2:{ apply trimmed_normalized; [apply trimmed_strip | exact Hu]. }
  unfold Text.title.
  by rewrite title_from_underscore_to_space, title_from_idem,
    map_underscore_to_space_idem.
Qed.

Lemma normalize_column_name_idempotent_witness :
  no_outer_underscore (Text.strip (str_label (LStr "first_name "))) = true /\
  normalize_column_name (LStr (normalize_column_name (LStr "first_name ")))
  = normalize_column_name (LStr "first_name ").
Proof.
  split; [reflexivity|].
  apply (proj1 normalize_column_name_idempotent (LStr "first_name ")).
  reflexivity.
Defined.

(** C2, as stated, fails: a leading underscore becomes a blank, which the
    second application strips: ["_a"] gives [" A"], and [" A"] gives
    ["A"]. *)
Lemma normalize_column_name_twice_differs :
  normalize_column_name (LStr "_a") = " A" /\
  normalize_column_name (LStr (normalize_column_name (LStr "_a"))) = "A" /\
  normalize_column_name (LStr (normalize_column_name (LStr "_a")))
  <> normalize_column_name (LStr "_a").
Proof.
  split; [reflexivity|]. split; [reflexivity|].
  intros Heq. vm_compute in Heq. discriminate Heq.
Qed.

Lemma length_lstrip_le s :
  String.length (Text.lstrip s) <= String.length s.
Proof.
  induction s as [|c s IH]; [done|]. simpl.
  destruct (Text.isspace c); simpl; lia.
Qed.

Lemma length_rstrip_le s :
  String.length (Text.rstrip s) <= String.length s.
Proof.
  induction s as [|c s IH]; [done|]. simpl.
  destruct (Text.rstrip s); [destruct (Text.isspace c)|]; simpl in *; lia.
Qed.

Lemma length_rstrip_lt s :
  Text.blank_at (Text.last_char s) = true ->
  String.length (Text.rstrip s) < String.length s.
Proof.
  induction s as [|c s IH]; [done|]. destruct s as [|d s].
  - simpl. intros ->. simpl. lia.
  - intros Hlast. specialize (IH Hlast).
    change (Text.rstrip (String c (String d s)))
      with (match Text.rstrip (String d s) with
            | EmptyString =>
                if Text.isspace c then EmptyString else String c EmptyString
            | r => String c r
            end).
    destruct (Text.rstrip (String d s));
      [destruct (Text.isspace c)|]; simpl in *; lia.
Qed.

Lemma length_strip_lt s :
  Text.trimmed s = false ->
  String.length (Text.strip s) < String.length s.
Proof.
  unfold Text.trimmed, Text.strip. intros Htrim.
  destruct (Text.blank_at (Text.first_char s)) eqn:Hfirst.
  - pose proof (length_rstrip_le (Text.lstrip s)).
    destruct s as [|c s]; [done|]. simpl in *. rewrite Hfirst in *.
    pose proof (length_lstrip_le s). lia.
  - rewrite lstrip_fixed by done. apply length_rstrip_lt.
    simpl in Htrim. by apply negb_false_iff in Htrim.
Qed.

(** The condition on the outer underscores is the exact one: with an
    underscore at either end of the stripped name, the second application
    gives a shorter name. *)
Lemma normalize_column_name_idempotent_only_if col :
  no_outer_underscore (Text.strip (str_label col)) = false ->
  normalize_column_name (LStr (normalize_column_name col))
  <> normalize_column_name col.
Proof.
  intros Hu Heq. apply (f_equal String.length) in Heq.
  rewrite (normalize_column_name_unfold (LStr _)) in Heq. simpl str_label in Heq.
  unfold Text.title in Heq at 1.
  rewrite length_map_chars, length_title_from in Heq.
  assert (Hlt : String.length (Text.strip (normalize_column_name col))
                < String.length (normalize_column_name col)); [|lia].
  apply length_strip_lt. rewrite normalize_column_name_unfold.
  unfold Text.trimmed, Text.title.
  rewrite blank_first_after_title, blank_last_after_title.
  pose proof (trimmed_strip (str_label col)) as Htrim.
  unfold Text.trimmed in Htrim. apply andb_prop in Htrim as [Hf Hl].
  apply negb_true_iff in Hf, Hl. rewrite Hf, Hl.
  unfold no_outer_underscore in Hu. simpl.
  by destruct (underscore_at _), (underscore_at _).
Qed.

(** C6, as the code has it, for a name that reads as ASCII text: the
    name is stripped of the blanks around it; then every character that
    starts the text or follows a non-letter is uppercased and every
    character that follows a letter is lowercased (so a word starts
    after any non-letter, not only after a blank); then each underscore
    becomes one blank. *)
Theorem normalize_column_name_pointwise col :
  Text.isascii (str_label col) = true ->
  let s := Text.strip (str_label col) in
  (exists pre post,
     str_label col = pre +:+ s +:+ post /\
     Text.all_chars Text.isspace pre = true /\
     Text.all_chars Text.isspace post = true) /\
  Text.trimmed s = true /\
  String.length (normalize_column_name col) = String.length s /\
  forall i,
    String.get i (normalize_column_name col)
    = (fun c =>
         underscore_to_space
           (if after_letter s i then Text.to_lower c else Text.to_upper c))
        <$> String.get i s.
Proof.
  intros _ s. split; [apply strip_split|].
  split; [apply trimmed_strip|].
  rewrite normalize_column_name_unfold. fold s. unfold Text.title.
  split; [by rewrite length_map_chars, length_title_from|].
  intros i. rewrite get_map_chars, get_title_from.
  unfold after_letter. by destruct (String.get i s).
Qed.

Lemma normalize_column_name_pointwise_witness :
  Text.isascii (str_label (LStr " first_name ")) = true /\
  String.length (normalize_column_name (LStr " first_name ")) = 10 /\
  String.get 6 (normalize_column_name (LStr " first_name ")) = Some "N"%char.
Proof.
  split; [reflexivity|].
  destruct (normalize_column_name_pointwise (LStr " first_name ") eq_refl)
    as (_ & _ & Hlength & Hget).
  split; [exact Hlength | exact (Hget 6)].
Defined.

(** C6, as stated, fails: with words delimited by blanks only,
    ["first_name"] would become ["First name"]; the code gives
    ["First Name"]. *)
Lemma normalize_column_name_not_blank_delimited :
  spec_normalize_column_name (LStr "first_name") = "First name" /\
  normalize_column_name (LStr "first_name") = "First Name" /\
  normalize_column_name (LStr "first_name")
  <> spec_normalize_column_name (LStr "first_name").
Proof.
  split; [reflexivity|]. split; [reflexivity|].
  intros Heq. vm_compute in Heq. discriminate Heq.
Qed.

(** ** [replace], and the names of the backup and the cleaned file *)

Lemma replace_from_skip old new k s :
  Text.replace_from old new k s = Text.replace old new (Text.drop k s).
Proof.
  unfold Text.replace. revert k.
  induction s as [|c s IH]; intros [|k]; simpl; auto.
Qed.

(** The equation [replace] is meant to satisfy at an occurrence. *)
Lemma replace_at_occurrence old new s :
  old <> "" ->
  String.prefix old s = true ->
  Text.replace old new s
  = new +:+ Text.replace old new (Text.drop (String.length old) s).
Proof.
  intros Hold Hp. destruct s as [|c s].
  - by destruct old.
  - unfold Text.replace at 1. cbn [Text.replace_from]. rewrite Hp.
    rewrite replace_from_skip. destruct old as [|a old]; [done|].
    simpl. by rewrite Nat.sub_0_r.
Qed.

Lemma replace_absent old new s :
  Text.contains old s = false -> Text.replace old new s = s.
Proof.
  unfold Text.replace. induction s as [|c s IH]; [done|].
  cbn [Text.contains Text.replace_from].
  intros [Hp Hc]%orb_false_elim. rewrite Hp. by rewrite IH.
Qed.

Lemma replace_at_first old new s :
  old <> "" ->
  Text.contains old s = true ->
  exists rest,
    Text.replace old new s = Text.before_first old s +:+ new +:+ rest.
Proof.
  intros Hold. unfold Text.replace. induction s as [|c s IH].
  - by destruct old.
  - cbn [Text.contains Text.replace_from Text.before_first].
    destruct (String.prefix old (String c s)) eqn:Hp.
    + intros _. eexists. by rewrite append_empty_l.
    + rewrite orb_false_l. intros Hc. destruct (IH Hc) as [rest ->].
      exists rest. by rewrite append_cons.
Qed.

Lemma prefix_split old s :
  String.prefix old s = true -> exists post, s = old +:+ post.
Proof.
  revert s. induction old as [|a old IH]; intros s Hp.
  - by exists s.
  - destruct s as [|c s]; [done|]. simpl in Hp.
    destruct (ascii_dec a c) as [->|]; [|done].
    destruct (IH _ Hp) as [post ->]. by exists post.
Qed.

Lemma split_at_first old s :
  Text.contains old s = true ->
  exists post, s = Text.before_first old s +:+ old +:+ post.
Proof.
  induction s as [|c s IH].
  - cbn [Text.contains Text.before_first]. rewrite orb_false_r. intros Hp.
    destruct (prefix_split _ _ Hp) as [post Hs]. by exists post.
  - cbn [Text.contains Text.before_first].
    destruct (String.prefix old (String c s)) eqn:Hp.
    + intros _. destruct (prefix_split _ _ Hp) as [post Hs]. by exists post.
    + rewrite orb_false_l. intros Hc. destruct (IH Hc) as [post Hs].
      exists post. by rewrite append_cons, <- Hs.
Qed.

(** Without [".xlsx"] in it (a [.xls] workbook, an upper-case extension)
    the path is its own backup name and its own cleaned name. *)
Lemma names_without_xlsx t1 t2 file_path :
  Text.contains ".xlsx" file_path = false ->
  backup_name t1 file_path = file_path /\
  cleaned_name t2 file_path = file_path.
Proof. intros Hc. split; by apply replace_absent. Qed.

(** With [".xlsx"] in it, the three paths differ, whatever the clock
    shows. *)
Lemma names_with_xlsx t1 t2 file_path :
  Text.contains ".xlsx" file_path = true ->
  backup_name t1 file_path <> file_path /\
  cleaned_name t2 file_path <> file_path /\
  backup_name t1 file_path <> cleaned_name t2 file_path.
Proof.
  intros Hc. unfold backup_name, cleaned_name.
  destruct (replace_at_first ".xlsx" ("_backup_" +:+ t1 +:+ ".xlsx") file_path)
    as [r1 H1]; [done|done|].
  destruct (replace_at_first ".xlsx" ("_cleaned_" +:+ t2 +:+ ".xlsx") file_path)
    as [r2 H2]; [done|done|].
  destruct (split_at_first _ _ Hc) as [post Hs].
  rewrite H1, H2. split; [|split].
  - rewrite Hs at 2. intros Heq%append_cancel_l. discriminate Heq.
  - rewrite Hs at 2. intros Heq%append_cancel_l. discriminate Heq.
  - intros Heq%append_cancel_l. discriminate Heq.
Qed.

(** ** Rows and boolean indexing *)

Lemma rows_from_columns (cols : list (list cell)) n :
  (fun i => (fun vs => nth i vs NaN) <$> cols) <$> seq 0 n = rows_of n cols.
Proof.
  revert cols. induction n as [|n IH]; intros cols; [done|].
  cbn [seq fmap list_fmap rows_of]. f_equal.
  - apply list_fmap_ext. by intros _ [|v vs] _.
  - rewrite <- IH, <- fmap_S_seq, <- list_fmap_compose.
    apply list_fmap_ext. intros _ i _. simpl.
    rewrite <- list_fmap_compose. apply list_fmap_ext.
    intros _ [|v vs] _; [by destruct i | done].
Qed.

Lemma rows_unfold df : rows df = rows_of (nrows df) (values <$> columns df).
Proof.
  unfold rows, row_at. rewrite <- rows_from_columns.
  apply list_fmap_ext. intros _ i _. by rewrite <- list_fmap_compose.
Qed.

Lemma length_rows df : length (rows df) = nrows df.
Proof. unfold rows. by rewrite length_fmap, length_seq. Qed.

Lemma lookup_rows df i : i < nrows df -> rows df !! i = Some (row_at df i).
Proof.
  intros Hi. unfold rows. rewrite list_lookup_fmap, lookup_seq_lt by done.
  done.
Qed.

Lemma length_keep_by {A} mask (l : list A) :
  length l = length mask -> length (keep_by mask l) = count_true mask.
Proof.
  revert l. induction mask as [|b mask IH]; intros [|x l]; simpl; try done.
  intros [= Hl]. destruct b; simpl; auto.
Qed.

Lemma keep_by_fmap {A} (f : A -> bool) (l : list A) :
  keep_by (f <$> l) l = filter (fun x => f x = true) l.
Proof.
  induction l as [|x l IH]; [done|].
  rewrite fmap_cons, filter_cons. cbn [keep_by]. rewrite IH.
  destruct (f x); by case_decide.
Qed.

Lemma keep_by_sublist {A} mask (l : list A) : keep_by mask l `sublist_of` l.
Proof.
  revert l. induction mask as [|b mask IH]; intros [|x l]; simpl;
    try apply sublist_nil_l.
  destruct b; [apply sublist_skip | apply sublist_cons]; apply IH.
Qed.

Lemma rows_of_keep_by mask n cols :
  length mask = n ->
  Forall (fun vs => length vs = n) cols ->
  rows_of (count_true mask) (keep_by mask <$> cols)
  = keep_by mask (rows_of n cols).
Proof.
  revert n cols. induction mask as [|b mask IH]; intros n cols <- Hcols.
  - done.
  - assert (Htl : Forall (fun vs => length vs = length mask)
                    ((fun vs => tail vs) <$> cols)).
    { apply Forall_fmap. eapply Forall_impl; [exact Hcols|].
      intros [|v vs]; simpl; [done|]. by intros [= ->]. }
    cbn [length rows_of keep_by]. destruct b.
    + cbn [count_true Nat.add rows_of]. f_equal.
      * rewrite <- list_fmap_compose. apply Forall_fmap_ext_1.
        eapply Forall_impl; [exact Hcols|]. by intros [|v vs] Hl.
      * rewrite <- (IH _ _ eq_refl Htl). f_equal.
        rewrite <- !list_fmap_compose. apply Forall_fmap_ext_1.
        eapply Forall_impl; [exact Hcols|]. by intros [|v vs] Hl.
    + cbn [count_true Nat.add]. rewrite <- (IH _ _ eq_refl Htl). f_equal.
      rewrite <- list_fmap_compose. apply Forall_fmap_ext_1.
      eapply Forall_impl; [exact Hcols|]. by intros [|v vs] Hl.
Qed.

Lemma rows_select_rows mask df :
  well_formed df ->
  length mask = nrows df ->
  rows (select_rows mask df) = keep_by mask (rows df).
Proof.
  intros Hwf Hmask. rewrite !rows_unfold. simpl.
  rewrite <- (rows_of_keep_by mask (nrows df)); [|done|].
  - f_equal. by rewrite <- !list_fmap_compose.
  - apply Forall_fmap. exact Hwf.
Qed.

Lemma well_formed_select_rows mask df :
  well_formed df ->
  length mask = nrows df ->
  well_formed (select_rows mask df).
Proof.
  unfold well_formed. intros Hwf Hmask. simpl. apply Forall_fmap.
  eapply Forall_impl; [exact Hwf|]. intros c Hc. simpl.
  apply length_keep_by. congruence.
Qed.

(** ** Empty rows and empty columns *)

Lemma existsb_notna vs : existsb notna vs = negb (all_null vs).
Proof.
  induction vs as [|v vs IH]; [done|]. simpl. rewrite IH.
  unfold notna. by destruct (isnull v).
Qed.

Lemma rows_dropna_rows df :
  well_formed df ->
  rows (dropna_rows df) = filter (fun r => all_null r = false) (rows df).
Proof.
  intros Hwf. unfold dropna_rows.
  rewrite rows_select_rows, keep_by_fmap;
    [|done|by rewrite length_fmap, length_rows].
  apply list_filter_iff. intros r. rewrite existsb_notna.
  by destruct (all_null r).
Qed.

Lemma columns_dropna_columns df :
  columns (dropna_columns df)
  = filter (fun c => all_null (values c) = false) (columns df).
Proof.
  simpl. apply list_filter_iff. intros c. rewrite existsb_notna.
  by destruct (all_null (values c)).
Qed.

Lemma all_null_empty_texts (r : row) :
  r <> [] -> Forall (fun v => v = Str "") r -> all_null r = false.
Proof. destruct r as [|v r]; [done|]. intros _ Hr. by inversion Hr; subst. Qed.

Section Transformations.
Context `{Collaborators}.

(** C5: [remove_empty_rows] returns the rows that are not all-null, in
    their order, so a row goes exactly when every cell of it is missing;
    a row of empty texts (with at least one cell) stays; no remaining row
    is all-null.  [remove_empty_columns] does the same to the columns. *)
Theorem remove_empty_rows_and_columns (df : DataFrame) (w : World) :
  well_formed df ->
  (exists df',
     (remove_empty_rows df w).1 = Ok df' /\
     rows df' = filter (fun r => all_null r = false) (rows df) /\
     (forall r, r ∈ rows df' <-> r ∈ rows df /\ all_null r = false) /\
     (forall r, r ∈ rows df -> r <> [] -> Forall (fun v => v = Str "") r ->
                r ∈ rows df')) /\
  (exists df',
     (remove_empty_columns df w).1 = Ok df' /\
     columns df' = filter (fun c => all_null (values c) = false) (columns df) /\
     (forall c, c ∈ columns df' <->
                c ∈ columns df /\ all_null (values c) = false)).
Proof.
  intros Hwf. split.
  - exists (dropna_rows df). split; [done|].
    rewrite rows_dropna_rows by done. split; [done|].
    split.
    + intros r. rewrite list_elem_of_filter. tauto.
    + intros r Hr Hne Hall. apply list_elem_of_filter.
      split; [by apply all_null_empty_texts | done].
  - exists (dropna_columns df). split; [done|].
    rewrite columns_dropna_columns. split; [done|].
    intros c. rewrite list_elem_of_filter. tauto.
Qed.

End Transformations.

Lemma remove_empty_rows_and_columns_witness :
  well_formed sample_frame /\
  exists df',
    (remove_empty_rows (H := sample_collaborators) sample_frame sample_world).1
    = Ok df' /\
    rows df' = [[Str "a"; Num 1]; [Str "a"; Num 1]; [Str " b "; Num 2]].
Proof.
  assert (Hwf : well_formed sample_frame) by (repeat constructor).
  split; [exact Hwf|].
  destruct (remove_empty_rows_and_columns
              (H := sample_collaborators) sample_frame sample_world Hwf)
    as [(df' & Hrun & Hrows & _) _].
  exists df'. split; [exact Hrun|]. rewrite Hrows. reflexivity.
Defined.

(** ** Duplicate rows *)

Lemma length_duplicated_from seen rs :
  length (duplicated_from seen rs) = length rs.
Proof. revert seen. induction rs; intros seen; simpl; auto. Qed.

(** A row is marked exactly when it was seen before: in the rows already
    passed, or earlier in the rows still to come. *)
Lemma duplicated_from_lookup seen rs i r :
  rs !! i = Some r ->
  exists b,
    duplicated_from seen rs !! i = Some b /\
    (b = true <-> r ∈ seen \/ exists j, j < i /\ rs !! j = Some r).
Proof.
  revert seen i. induction rs as [|r0 rs IH]; intros seen i Hi; [done|].
  destruct i as [|i]; simpl in *.
  - injection Hi as ->. eexists. split; [done|].
    rewrite bool_decide_eq_true. split; [auto|].
    intros [?|(j & Hj & _)]; [done|lia].
  - destruct (IH (r0 :: seen) i Hi) as (b & Hb & Hiff).
    exists b. split; [done|]. rewrite Hiff, elem_of_cons. split.
    + intros [[->|Hs]|(j & Hj & Hr)].
      * right. exists 0. split; [lia|done].
      * by left.
      * right. exists (S j). split; [lia|done].
    + intros [Hs|(j & Hj & Hr)]; [auto|].
      destruct j as [|j]; simpl in Hr.
      * injection Hr as ->. auto.
      * right. exists j. split; [lia|done].
Qed.

(** What survives: no row twice, nothing already seen, and every row of
    the input that was not seen before. *)
Lemma keep_first_occurrences seen rs :
  let kept := keep_by (negb <$> duplicated_from seen rs) rs in
  NoDup kept /\
  (forall r, r ∈ kept -> r ∈ rs /\ r ∉ seen) /\
  (forall r, r ∈ rs -> r ∈ seen \/ r ∈ kept).
Proof.
  revert seen. induction rs as [|r0 rs IH]; intros seen.
  - simpl. split; [constructor|]. split; intros r Hr; by inversion Hr.
  - destruct (IH (r0 :: seen)) as (Hnd & Hsound & Hcompl).
    cbn [duplicated_from fmap list_fmap keep_by]. cbv zeta in *.
    change (list_fmap bool bool negb) with (fmap (M := list) negb).
    case_bool_decide as Hseen; simpl.
    + split; [done|]. split.
      * intros r Hr. destruct (Hsound r Hr) as [Hin Hnot].
        rewrite elem_of_cons. rewrite not_elem_of_cons in Hnot. tauto.
      * intros r [->|Hr]%elem_of_cons; [by left|].
        destruct (Hcompl r Hr) as [[->|?]%elem_of_cons|?]; auto.
    + split; [|split].
      * constructor; [|done]. intros Hin.
        destruct (Hsound r0 Hin) as [_ Hnot].
        apply Hnot. by left.
      * intros r [->|Hr]%elem_of_cons.
        { split; [by left | done]. }
        destruct (Hsound r Hr) as [Hin Hnot].
        rewrite not_elem_of_cons in Hnot. split; [by right | tauto].
      * intros r [->|Hr]%elem_of_cons; [right; by left|].
        destruct (Hcompl r Hr) as [[->|?]%elem_of_cons|?]; auto.
        -- right. by left.
        -- right. by right.
Qed.

Lemma fmap_eq_pointwise {A B} (f g : A -> B) (l : list A) :
  f <$> l = g <$> l <-> forall x, x ∈ l -> f x = g x.
Proof.
  induction l as [|x l IH].
  - split; [|done]. intros _ x Hx. by inversion Hx.
  - rewrite !fmap_cons. split.
    + intros [= Hx Hl] y [->|Hy]%elem_of_cons; [done|]. by apply IH.
    + intros Hall. f_equal; [apply Hall; by left|].
      apply IH. intros y Hy. apply Hall. by right.
Qed.

Lemma row_at_eq df i j :
  row_at df i = row_at df j <-> same_in_every_column df i j.
Proof. apply fmap_eq_pointwise. Qed.

Lemma duplicated_lookup df i :
  i < nrows df ->
  exists b,
    duplicated df !! i = Some b /\ (b = true <-> duplicate_of_earlier df i).
Proof.
  intros Hi. unfold duplicated.
  destruct (duplicated_from_lookup [] (rows df) i (row_at df i))
    as (b & Hb & Hiff); [by apply lookup_rows|].
  exists b. split; [done|]. rewrite Hiff. split.
  - intros [Hin|(j & Hj & Hr)]; [by inversion Hin|].
    exists j. split; [done|]. apply row_at_eq.
    rewrite lookup_rows in Hr by lia. by injection Hr as ->.
  - intros (j & Hj & Hsame). right. exists j. split; [done|].
    rewrite lookup_rows by lia. f_equal. symmetry. by apply row_at_eq.
Qed.

Section Deduplication.
Context `{Collaborators}.

(** C7: [remove_duplicates] drops row [i] exactly when an earlier row
    agrees with it in every column (missing equal to missing), and keeps
    every other row; the survivors stand in their original order, no row
    value is left twice and none is lost.  A frame without columns is
    taken to have no rows, as every frame the workbook reader returns. *)
Theorem remove_duplicates_keeps_first (df : DataFrame) (w : World) :
  well_formed df ->
  (columns df = [] -> nrows df = 0) ->
  exists df' keep,
    (remove_duplicates df w).1 = Ok df' /\
    length keep = nrows df /\
    (forall i, i < nrows df ->
       (keep !! i = Some false <-> duplicate_of_earlier df i) /\
       (keep !! i = Some true <-> ~ duplicate_of_earlier df i)) /\
    rows df' = keep_by keep (rows df) /\
    rows df' `sublist_of` rows df /\
    NoDup (rows df') /\
    (forall r, r ∈ rows df -> r ∈ rows df').
Proof.
  intros Hwf Hcols.
  exists (drop_duplicates df), (negb <$> duplicated df).
  split; [done|].
  assert (Hlen : length (negb <$> duplicated df) = nrows df).
  { unfold duplicated.
    by rewrite length_fmap, length_duplicated_from, length_rows. }
  split; [exact Hlen|]. split.
  { intros i Hi. destruct (duplicated_lookup df i Hi) as (b & Hb & Hiff).
    rewrite list_lookup_fmap, Hb. simpl. rewrite <- Hiff.
    destruct b; split; split; intros Hx; try done; by inversion Hx. }
  assert (Hrows : rows (drop_duplicates df)
                  = keep_by (negb <$> duplicated df) (rows df)).
  { unfold drop_duplicates. destruct (frame_empty df) eqn:Hempty.
    - assert (Hn : nrows df = 0).
      { unfold frame_empty in Hempty.
        apply orb_true_iff in Hempty as [Hn|Hc].
        - by apply Nat.eqb_eq in Hn.
        - apply Nat.eqb_eq in Hc. apply Hcols. by destruct (columns df). }
      unfold duplicated, rows. by rewrite Hn.
    - by apply rows_select_rows. }
  rewrite Hrows. split; [done|]. split; [apply keep_by_sublist|].
  destruct (keep_first_occurrences [] (rows df)) as (Hnd & _ & Hcompl).
  split; [exact Hnd|].
  intros r Hr. destruct (Hcompl r Hr) as [Hin|Hin]; [by inversion Hin|done].
Qed.

End Deduplication.

Lemma remove_duplicates_keeps_first_witness :
  well_formed sample_frame /\
  (columns sample_frame = [] -> nrows sample_frame = 0) /\
  exists df',
    (remove_duplicates (H := sample_collaborators) sample_frame sample_world).1
    = Ok df' /\
    rows df' = [[Str "a"; Num 1]; [NaN; NaN]; [Str " b "; Num 2]].
Proof.
  assert (Hwf : well_formed sample_frame) by (repeat constructor).
  assert (Hcols : columns sample_frame = [] -> nrows sample_frame = 0)
    by discriminate.
  split; [exact Hwf|]. split; [exact Hcols|].
  destruct (remove_duplicates_keeps_first
              (H := sample_collaborators) sample_frame sample_world Hwf Hcols)
    as (df' & keep & Hrun & _).
  exists df'. split; [exact Hrun|].
  injection Hrun as <-. reflexivity.
Defined.

(** ** Text columns: [trim_spaces] and [title_case_cells] *)

Lemma name_text_column f c : name (text_column f c) = name c.
Proof. unfold text_column. by case_decide. Qed.

Lemma dtype_text_column f c : dtype (text_column f c) = dtype c.
Proof. unfold text_column. by case_decide. Qed.

Lemma filter_none {A} (P : A -> Prop) `{forall x, Decision (P x)} (l : list A) :
  (forall x, x ∈ l -> ~ P x) -> filter P l = [].
Proof.
  induction l as [|x l IH]; intros Hl; [done|].
  rewrite filter_cons, decide_False by (apply Hl; by left).
  apply IH. intros y Hy. apply Hl. by right.
Qed.

(** A label carried by one column only selects exactly that column. *)
Lemma getitem_unique cols c :
  NoDup (name <$> cols) ->
  c ∈ cols ->
  filter (fun c' => name c' = name c) cols = [c].
Proof.
  induction cols as [|c0 cols IH]; intros Hnd Hc; [by inversion Hc|].
  rewrite fmap_cons in Hnd. apply NoDup_cons in Hnd as [Hnotin Hnd].
  rewrite filter_cons. apply elem_of_cons in Hc as [->|Hc].
  - rewrite decide_True by done. f_equal.
    apply filter_none. intros c' Hc' Heq. apply Hnotin.
    rewrite <- Heq. by apply list_elem_of_fmap_2.
  - rewrite decide_False; [by apply IH|].
    intros Heq. apply Hnotin. rewrite Heq. by apply list_elem_of_fmap_2.
Qed.

Lemma same_name_same_column cols c c' :
  NoDup (name <$> cols) -> c ∈ cols -> c' ∈ cols -> name c' = name c -> c' = c.
Proof.
  intros Hnd Hc Hc' Heq.
  assert (Hin : c' ∈ filter (fun x => name x = name c) cols)
    by (by apply list_elem_of_filter).
  rewrite (getitem_unique _ _ Hnd Hc) in Hin.
  by apply list_elem_of_singleton in Hin.
Qed.

(** One turn of the loop, on a frame whose labels are pairwise distinct,
    rewrites the column of that label and no other. *)
Lemma text_columns_step f df c :
  NoDup (name <$> columns df) ->
  c ∈ columns df ->
  (if decide (dtype c = Object)
   then setitem df (name c) (astype_str_then f (values c))
   else df)
  = mkFrame (nrows df)
      ((fun c' => if decide (name c' = name c) then text_column f c' else c')
         <$> columns df).
Proof.
  intros Hnd Hc. case_decide as Hk.
  - unfold setitem. f_equal. apply list_fmap_ext. intros i c' Hi.
    case_decide as Hn; [|done].
    apply list_elem_of_lookup_2 in Hi.
    rewrite (same_name_same_column _ _ _ Hnd Hc Hi Hn).
    unfold text_column. by rewrite decide_True.
  - destruct df as [n cols]. simpl in *. f_equal.
    rewrite <- (list_fmap_id cols) at 1.
    apply list_fmap_ext. intros i c' Hi. simpl.
    case_decide as Hn; [|done].
    apply list_elem_of_lookup_2 in Hi.
    rewrite (same_name_same_column _ _ _ Hnd Hc Hi Hn).
    unfold text_column. by rewrite decide_False.
Qed.

Lemma text_columns_loop_spec f labels df :
  NoDup (name <$> columns df) ->
  NoDup labels ->
  (forall l, l ∈ labels -> l ∈ name <$> columns df) ->
  text_columns_loop f labels df
  = Ok (mkFrame (nrows df)
          ((fun c => if decide (name c ∈ labels) then text_column f c else c)
             <$> columns df)).
Proof.
  revert df. induction labels as [|col rest IH]; intros df Hnd Hl Hsub.
  - simpl. f_equal. destruct df as [n cols]. simpl. f_equal.
    rewrite <- (list_fmap_id cols) at 1.
    apply list_fmap_ext. intros i c _. cbv beta.
    destruct (decide (name c ∈ [])) as [Hx|_]; [by inversion Hx | done].
  - apply NoDup_cons in Hl as [Hnotin Hl].
    destruct (proj1 (list_elem_of_fmap _ _ _) (Hsub col ltac:(by left)))
      as (c & -> & Hc).
    cbn [text_columns_loop]. unfold getitem.
    rewrite (getitem_unique _ _ Hnd Hc).
    rewrite (text_columns_step f df c Hnd Hc).
    set (step := fun c' : Series =>
                   if decide (name c' = name c) then text_column f c' else c').
    assert (Hnames : name <$> (step <$> columns df) = name <$> columns df).
    { rewrite <- list_fmap_compose. apply list_fmap_ext. intros i c' _.
      unfold step, compose. cbv beta.
      destruct (decide (name c' = name c)); [apply name_text_column | done]. }
    rewrite IH; simpl.
    + f_equal. f_equal. rewrite <- list_fmap_compose.
      apply list_fmap_ext. intros i c' _. unfold step, compose. cbv beta.
      destruct (decide (name c' = name c)) as [Hn|Hn].
      * rewrite name_text_column, Hn.
        rewrite decide_False by done.
        rewrite decide_True; [done|]. by left.
      * destruct (decide (name c' ∈ rest)) as [Hr|Hr].
        -- rewrite decide_True; [done|]. by right.
        -- rewrite decide_False; [done|].
           intros [?|?]%elem_of_cons; done.
    + by rewrite Hnames.
    + done.
    + rewrite Hnames. intros l Hl'. apply Hsub. by right.
Qed.

Lemma map_text_columns_spec f df :
  NoDup (name <$> columns df) ->
  map_text_columns f df
  = Ok (mkFrame (nrows df) (text_column f <$> columns df)).
Proof.
  intros Hnd. unfold map_text_columns.
  rewrite text_columns_loop_spec; [|done|done|done].
  f_equal. f_equal. apply list_fmap_ext. intros i c Hi. simpl.
  rewrite decide_True; [done|].
  apply list_elem_of_fmap_2. by apply list_elem_of_lookup_2 in Hi.
Qed.

Lemma getitem_fmap (g : Series -> Series) (l : label) (cols : list Series) :
  (forall c, name (g c) = name c) ->
  filter (fun c => name c = l) (g <$> cols)
  = g <$> filter (fun c => name c = l) cols.
Proof.
  intros Hg. induction cols as [|c cols IH]; [done|].
  rewrite fmap_cons, !filter_cons, Hg, IH. by case_decide.
Qed.

(** The loop gets through only if every label it visits is carried by
    exactly one column. *)
Lemma text_columns_loop_ok f labels df df' :
  text_columns_loop f labels df = Ok df' ->
  forall l, l ∈ labels -> exists c, getitem df l = [c].
Proof.
  revert df. induction labels as [|col rest IH]; intros df Hrun l Hl;
    [by apply elem_of_nil in Hl|].
  cbn [text_columns_loop] in Hrun.
  destruct (getitem df col) as [|c [|c2 cs]] eqn:Hg; try done.
  apply elem_of_cons in Hl as [->|Hl]; [by exists c|].
  destruct (IH _ Hrun l Hl) as [c1 Hc1].
  case_decide as Hk; [|by exists c1].
  unfold getitem, setitem in Hc1. cbn [columns] in Hc1.
  rewrite getitem_fmap in Hc1 by (intros c'; by case_decide).
  unfold getitem.
  destruct (filter (fun c' => name c' = l) (columns df)) as [|c0 [|c3 cs]];
    [done| by exists c0 | done].
Qed.

Lemma unique_labels_NoDup (cols : list Series) :
  (forall l, l ∈ name <$> cols ->
             exists c, filter (fun c' => name c' = l) cols = [c]) ->
  NoDup (name <$> cols).
Proof.
  induction cols as [|c0 cs IH]; intros Huniq; [constructor|].
  assert (Hnone : forall l, l ∈ name <$> cs ->
                    filter (fun c' => name c' = l) cs <> []).
  { intros l (c1 & -> & Hc1)%list_elem_of_fmap Hnil.
    assert (Hin : c1 ∈ filter (fun c' => name c' = name c1) cs)
      by (by apply list_elem_of_filter).
    rewrite Hnil in Hin. by apply elem_of_nil in Hin. }
  rewrite fmap_cons. apply NoDup_cons. split.
  - intros Hin. destruct (Huniq (name c0)) as [c Hc]; [by left|].
    rewrite filter_cons, decide_True in Hc by done.
    injection Hc as _ Hnil. by apply (Hnone (name c0)).
  - apply IH. intros l Hl. destruct (Huniq l) as [c Hc]; [by right|].
    rewrite filter_cons in Hc. case_decide.
    + injection Hc as _ Hnil. by destruct (Hnone l Hl).
    + by exists c.
Qed.

Lemma map_text_columns_ok_labels f df df' :
  map_text_columns f df = Ok df' -> NoDup (name <$> columns df).
Proof.
  intros Hrun. apply unique_labels_NoDup. intros l Hl.
  exact (text_columns_loop_ok _ _ _ _ Hrun l Hl).
Qed.

(** Two columns under one label make the loop fail at that label. *)
Lemma map_text_columns_duplicate_label :
  map_text_columns Text.strip
    (mkFrame 1 [ mkSeries (LStr "A") Object [Str "x"];
                 mkSeries (LStr "A") Object [Str "y"] ])
  = Raise AttributeError.
Proof. reflexivity. Qed.

Lemma count_null_astype f vs : count_null (astype_str_then f vs) = 0.
Proof.
  unfold count_null, astype_str_then.
  rewrite filter_none; [done|].
  intros v (v0 & -> & _)%list_elem_of_fmap. done.
Qed.

Lemma values_text_column f c :
  dtype c = Object ->
  values (text_column f c) = astype_str_then f (values c).
Proof. intros Hk. unfold text_column. by rewrite decide_True. Qed.

Lemma text_column_cells f c v :
  dtype c = Object ->
  v ∈ values (text_column f c) ->
  exists v0, v0 ∈ values c /\ v = Str (f (str_cell v0)).
Proof.
  intros Hk. rewrite values_text_column by done.
  intros (v0 & -> & Hv0)%list_elem_of_fmap. by exists v0.
Qed.

Lemma text_column_null f c k :
  dtype c = Object ->
  values c !! k = Some NaN ->
  values (text_column f c) !! k = Some (Str (f "nan")).
Proof.
  intros Hk Hv. rewrite values_text_column by done.
  unfold astype_str_then. by rewrite list_lookup_fmap, Hv.
Qed.

Lemma empty_cells_after_text_columns f n cols :
  stat_empty_cells (_get_dataframe_stats (mkFrame n (text_column f <$> cols)))
  = sum_list ((fun c => if decide (dtype c = Object) then 0
                        else count_null (values c)) <$> cols).
Proof.
  simpl. rewrite <- list_fmap_compose. f_equal.
  apply list_fmap_ext. intros i c _. unfold compose. cbv beta.
  unfold text_column. case_decide; [|done]. simpl. apply count_null_astype.
Qed.

Section TextCells.
Context `{Collaborators}.

Lemma text_cells_when_labels_distinct (df : DataFrame) (w : World) :
  NoDup (name <$> columns df) ->
  (exists df',
     (trim_spaces df w).1 = Ok df' /\
     columns df' = text_column Text.strip <$> columns df /\
     (forall c, c ∈ columns df' -> dtype c = Object ->
        count_null (values c) = 0 /\
        forall v, v ∈ values c -> exists s, v = Str s /\ Text.trimmed s = true) /\
     (forall c k, c ∈ columns df -> dtype c = Object ->
        values c !! k = Some NaN ->
        values (text_column Text.strip c) !! k = Some (Str "nan")) /\
     stat_empty_cells (_get_dataframe_stats df')
     = sum_list ((fun c => if decide (dtype c = Object) then 0
                           else count_null (values c)) <$> columns df)) /\
  (exists df',
     (title_case_cells df w).1 = Ok df' /\
     columns df' = text_column Text.title <$> columns df /\
     (forall c, c ∈ columns df' -> dtype c = Object ->
        count_null (values c) = 0 /\
        forall v, v ∈ values c -> exists s, v = Str s) /\
     (forall c k, c ∈ columns df -> dtype c = Object ->
        values c !! k = Some NaN ->
        values (text_column Text.title c) !! k = Some (Str "Nan")) /\
     stat_empty_cells (_get_dataframe_stats df')
     = sum_list ((fun c => if decide (dtype c = Object) then 0
                           else count_null (values c)) <$> columns df)).
Proof.
  intros Hnd. split.
  - exists (mkFrame (nrows df) (text_column Text.strip <$> columns df)).
    split.
    { unfold trim_spaces, bind, lift.
      by rewrite (map_text_columns_spec _ _ Hnd). }
    split; [done|]. split; [|split].
    + intros c (c0 & -> & Hc0)%list_elem_of_fmap Hk.
      rewrite dtype_text_column in Hk. split.
      * rewrite values_text_column by done. apply count_null_astype.
      * intros v Hv.
        destruct (text_column_cells _ _ _ Hk Hv) as (v0 & _ & ->).
        eexists. split; [done|]. apply trimmed_strip.
    + intros c k _ Hk Hv. by apply (text_column_null Text.strip).
    + apply empty_cells_after_text_columns.
  - exists (mkFrame (nrows df) (text_column Text.title <$> columns df)).
    split.
    { unfold title_case_cells, bind, lift.
      by rewrite (map_text_columns_spec _ _ Hnd). }
    split; [done|]. split; [|split].
    + intros c (c0 & -> & Hc0)%list_elem_of_fmap Hk.
      rewrite dtype_text_column in Hk. split.
      * rewrite values_text_column by done. apply count_null_astype.
      * intros v Hv.
        destruct (text_column_cells _ _ _ Hk Hv) as (v0 & _ & ->).
        by eexists.
    + intros c k _ Hk Hv. by apply (text_column_null Text.title).
    + apply empty_cells_after_text_columns.
Qed.

Lemma text_operation_returns f r df w :
  (exists df',
     ((let* df_cleaned := lift (map_text_columns f df) in
       run log r then ret df_cleaned) w).1 = Ok df') <->
  NoDup (name <$> columns df).
Proof.
  unfold bind, lift. split.
  - intros [df' Hrun].
    destruct (map_text_columns f df) as [df1|e] eqn:Hmap; [|done].
    by apply (map_text_columns_ok_labels _ _ _ Hmap).
  - intros Hnd. rewrite (map_text_columns_spec _ _ Hnd). by eexists.
Qed.

(** C9: [trim_spaces] and [title_case_cells] return exactly on the frames
    whose column labels are pairwise distinct (as the workbook reader
    returns them).  After [trim_spaces], every cell of every text-typed
    column is a text that neither starts nor ends with a blank; a missing
    value in such a column has become the text ["nan"]; these columns
    hold no missing value any more, so the empty-cell count of the
    statistics counts the other columns only.  [title_case_cells]
    likewise leaves texts only and turns a missing value into ["Nan"]. *)
Theorem text_cells_after_trim_and_title (df : DataFrame) (w : World) :
  ((exists df', (trim_spaces df w).1 = Ok df') <->
   NoDup (name <$> columns df)) /\
  ((exists df', (title_case_cells df w).1 = Ok df') <->
   NoDup (name <$> columns df)) /\
  (NoDup (name <$> columns df) ->
   (exists df',
      (trim_spaces df w).1 = Ok df' /\
      columns df' = text_column Text.strip <$> columns df /\
      (forall c, c ∈ columns df' -> dtype c = Object ->
         count_null (values c) = 0 /\
         forall v, v ∈ values c ->
           exists s, v = Str s /\ Text.trimmed s = true) /\
      (forall c k, c ∈ columns df -> dtype c = Object ->
         values c !! k = Some NaN ->
         values (text_column Text.strip c) !! k = Some (Str "nan")) /\
      stat_empty_cells (_get_dataframe_stats df')
      = sum_list ((fun c => if decide (dtype c = Object) then 0
                            else count_null (values c)) <$> columns df)) /\
   (exists df',
      (title_case_cells df w).1 = Ok df' /\
      columns df' = text_column Text.title <$> columns df /\
      (forall c, c ∈ columns df' -> dtype c = Object ->
         count_null (values c) = 0 /\
         forall v, v ∈ values c -> exists s, v = Str s) /\
      (forall c k, c ∈ columns df -> dtype c = Object ->
         values c !! k = Some NaN ->
         values (text_column Text.title c) !! k = Some (Str "Nan")) /\
      stat_empty_cells (_get_dataframe_stats df')
      = sum_list ((fun c => if decide (dtype c = Object) then 0
                            else count_null (values c)) <$> columns df))).
Proof.
  split; [apply text_operation_returns|].
  split; [apply text_operation_returns|].
  apply text_cells_when_labels_distinct.
Qed.

End TextCells.

Lemma text_cells_after_trim_and_title_witness :
  NoDup (name <$> columns sample_frame) /\
  exists df',
    (trim_spaces (H := sample_collaborators) sample_frame sample_world).1
    = Ok df' /\
    columns df'
    = [ mkSeries (LStr "Name") Object [Str "a"; Str "a"; Str "nan"; Str "b"];
        mkSeries (LStr "Val") Float64 [Num 1; Num 1; NaN; Num 2] ].
Proof.
  assert (Hnd : NoDup (name <$> columns sample_frame)).
  { apply (bool_decide_unpack _). reflexivity. }
  split; [exact Hnd|].
  destruct (text_cells_after_trim_and_title
              (H := sample_collaborators) sample_frame sample_world)
    as (_ & _ & Hcells).
  destruct (Hcells Hnd) as [(df' & Hrun & Hcols & _) _].
  exists df'. split; [exact Hrun|]. rewrite Hcols. reflexivity.
Defined.

(** ** The percentage handed to the callback *)

(** For up to six operations the binary64 computation
    [int((i + 1) / total_ops * 100)] yields the exact floor. *)
Lemma percent_complete_exact i total_ops :
  i < total_ops ->
  total_ops <= 6 ->
  percent_complete i total_ops = Ok (expected_percent (S i) total_ops).
Proof.
  intros Hi Hn.
  destruct total_ops as [|[|[|[|[|[|[|n]]]]]]]; try lia;
    destruct i as [|[|[|[|[|[|i]]]]]]; try lia;
    vm_compute; reflexivity.
Qed.



(** ** The transformation loop *)

Lemma text_columns_loop_error f labels df e :
  text_columns_loop f labels df = Raise e -> e = AttributeError.
Proof.
  revert df. induction labels as [|col rest IH]; intros df; [done|].
  cbn [text_columns_loop].
  destruct (getitem df col) as [|c [|c' cs]]; try (by intros [= <-]).
  apply IH.
Qed.

Section Loop.
Context `{Collaborators}.

Lemma map_text_operation f r nm :
  operation_of r = Some nm ->
  logs_once_or_fails nm
    (fun df => let* df_cleaned := lift (map_text_columns f df) in
               run log r then ret df_cleaned).
Proof.
  intros Hr df w. unfold bind, lift, log, emit, ret.
  destruct (map_text_columns f df) as [df'|e] eqn:Hrun.
  - left. by exists df', r.
  - right. by rewrite (text_columns_loop_error _ _ _ _ Hrun).
Qed.

Lemma operations_behave config :
  Forall (fun op : operation => logs_once_or_fails op.1.1 op.1.2)
         (operations config).
Proof.
  repeat apply Forall_cons_2; try apply Forall_nil_2; simpl.
  - intros df w. left. by eexists _, _.
  - intros df w. left. by eexists _, _.
  - intros df w. left. by eexists _, _.
  - by apply map_text_operation.
  - intros df w. left. by eexists _, _.
  - by apply map_text_operation.
Qed.

Lemma enabled_operations_behave config :
  Forall (fun op : operation => logs_once_or_fails op.1.1 op.1.2 /\ op.2 = true)
         (enabled_operations config).
Proof.
  apply Forall_forall. intros op [Hen Hop]%list_elem_of_filter.
  split; [|done].
  by apply (proj1 (Forall_forall _ _) (operations_behave config)).
Qed.

Lemma names_enabled_operations config :
  (fun op : operation => op.1.1) <$> enabled_operations config
  = enabled_names config.
Proof. by destruct config as [[] [] [] [] [] []]. Qed.

Lemma length_enabled_operations config :
  length (enabled_operations config) <= 6.
Proof.
  unfold enabled_operations.
  etrans; [apply length_filter|]. done.
Qed.

Lemma bind_run {A B} (m : M A) (k : A -> M B) w :
  bind m k w
  = match m w with
    | (Ok a, w') => k a w'
    | (Raise e, w') => (Raise e, w')
    end.
Proof. reflexivity. Qed.

Lemma ret_run {A} (a : A) w : ret a w = (Ok a, w).
Proof. reflexivity. Qed.

Lemma steps_app evs1 evs2 : steps (evs1 ++ evs2) = steps evs1 ++ steps evs2.
Proof. apply omap_app. Qed.

(** One pass of the loop: what it appends to the trace reads as the
    expected steps when it returns, and as a beginning of them when it
    raises; it raises nothing but a transformation's [AttributeError] or
    what the callback raised; files and clock are left alone. *)
Lemma apply_operations_run cb total_ops ops :
  forall i df w,
    Forall (fun op : operation =>
              logs_once_or_fails op.1.1 op.1.2 /\ op.2 = true) ops ->
    i + length ops = total_ops ->
    total_ops <= 6 ->
    let r := apply_operations cb total_ops i ops df w in
    let expected :=
      expected_steps (supplied cb) i total_ops
        ((fun op : operation => op.1.1) <$> ops) in
    exists evs,
      trace r.2 = trace w ++ evs /\
      files r.2 = files w /\
      ticks r.2 = ticks w /\
      match r.1 with
      | Ok _ => steps evs = expected
      | Raise e =>
          steps evs `prefix_of` expected /\
          (e = AttributeError \/ exists what, e = External what)
      end.
Proof.
  induction ops as [|[[nm func] enabled] rest IH]; intros i df w Hops Hlen Hsix;
    cbv zeta.
  - exists []. simpl. by rewrite app_nil_r.
  - apply Forall_cons in Hops as [[Hfunc Hen] Hrest].
    simpl in Hfunc, Hen. subst enabled.
    cbn [apply_operations fmap list_fmap expected_steps]. simpl in Hlen.
    rewrite bind_run.
    destruct (Hfunc df w) as [(df' & rec & -> & Hrec)| ->].
    2:{ exists []. simpl. rewrite app_nil_r.
        repeat split; auto. apply prefix_nil. }
    set (w1 := mkWorld (files w) (trace w ++ [Logged rec]) (ticks w) (hook w)).
    destruct cb as [c|].
    + rewrite !bind_run. unfold lift.
      rewrite percent_complete_exact by lia.
      set (p := expected_percent (S i) total_ops).
      unfold invoke. cbv zeta.
      set (w2 := mkWorld (files w1) (trace w1 ++ [Progress p]) (ticks w1)
                         (c p (hook w1)).2).
      destruct (c p (hook w1)).1 as [what|].
      * exists [Logged rec; Progress p]. simpl.
        rewrite <- app_assoc. repeat split; eauto.
        rewrite Hrec. simpl. by eexists.
      * destruct (IH (S i) df' w2 Hrest ltac:(lia) Hsix)
          as (evs & Htr & Hfiles & Hticks & Hres).
        exists ([Logged rec; Progress p] ++ evs).
        rewrite Htr, Hfiles, Hticks. simpl. rewrite <- !app_assoc.
        repeat split; try done.
        rewrite Hrec. simpl.
        destruct (apply_operations (Some c) total_ops (S i) rest df' w2).1.
        -- by rewrite Hres.
        -- destruct Hres as [Hpre Herr]. split; [|done].
           apply prefix_cons, prefix_cons. exact Hpre.
    + rewrite bind_run, ret_run.
      destruct (IH (S i) df' w1 Hrest ltac:(lia) Hsix)
        as (evs & Htr & Hfiles & Hticks & Hres).
      exists ([Logged rec] ++ evs).
      rewrite Htr, Hfiles, Hticks. simpl. rewrite <- !app_assoc.
      repeat split; try done.
      rewrite Hrec. simpl.
      destruct (apply_operations None total_ops (S i) rest df' w1).1.
      * by rewrite Hres.
      * destruct Hres as [Hpre Herr]. split; [|done].
        apply prefix_cons. exact Hpre.
Qed.

End Loop.

(** ** A run of [clean_excel_file], step by step *)

Section Run.
Context `{Collaborators}.

Lemma log_run r w :
  log r w = (Ok tt, mkWorld (files w) (trace w ++ [Logged r]) (ticks w) (hook w)).
Proof. reflexivity. Qed.

Lemma create_backup_run file_path w :
  let backup_path := backup_name (clock (ticks w)) file_path in
  let w0 := mkWorld (files w) (trace w) (S (ticks w)) (hook w) in
  _create_backup file_path w
  = match files w !! file_path with
    | None => (Raise FileNotFoundError, w0)
    | Some content =>
        if decide (file_path = backup_path) then (Raise SameFileError, w0)
        else
          match read_fault file_path, write_fault backup_path with
          | Some what, _ => (Raise (External what), w0)
          | None, Some what => (Raise (External what), w0)
          | None, None =>
              (Ok backup_path,
               mkWorld (<[backup_path := content]> (files w))
                       (trace w) (S (ticks w)) (hook w))
          end
    end.
Proof.
  unfold _create_backup, now, copy2. rewrite !bind_run. cbn [files ticks trace hook].
  destruct (files w !! file_path); [|done].
  destruct (decide _); [done|].
  by destruct (read_fault file_path),
    (write_fault (backup_name (clock (ticks w)) file_path)).
Qed.

Lemma get_cleaned_filename_run file_path w :
  _get_cleaned_filename file_path w
  = (Ok (cleaned_name (clock (ticks w)) file_path),
     mkWorld (files w) (trace w) (S (ticks w)) (hook w)).
Proof. reflexivity. Qed.

(** What is left to do once the transformations are through. *)
Lemma save_run (file_path backup_path : string) (original_stats : Stats)
    (names : list string) (df : DataFrame) (w : World) :
  let cleaned_path := cleaned_name (clock (ticks w)) file_path in
  let w0 := mkWorld (files w) (trace w) (S (ticks w)) (hook w) in
  (let* cleaned_path := _get_cleaned_filename file_path in
   run to_excel df cleaned_path then
   run log (InfoSuccess cleaned_path) then
   ret (backup_path, cleaned_path,
        mkStatistics original_stats (_get_dataframe_stats df) names)) w
  = match render_workbook df with
    | inl what => (Raise (External what), w0)
    | inr content =>
        match write_fault cleaned_path with
        | Some what => (Raise (External what), w0)
        | None =>
            (Ok (backup_path, cleaned_path,
                 mkStatistics original_stats (_get_dataframe_stats df) names),
             mkWorld (<[cleaned_path := content]> (files w))
                     (trace w ++ [Logged (InfoSuccess cleaned_path)])
                     (S (ticks w)) (hook w))
        end
    end.
Proof.
  rewrite bind_run, get_cleaned_filename_run, bind_run.
  unfold to_excel. cbn [files ticks trace hook].
  by destruct (render_workbook df),
    (write_fault (cleaned_name (clock (ticks w)) file_path)).
Qed.

(** Every run, read as a whole.  A run that returns has copied the input
    to the backup path, parsed it, passed the loop, and written the
    result to the cleaned path; its trace shows the expected steps.  A
    run that raises shows a beginning of them, ends its trace with the
    error record, and raises what the failing step raised. *)
Lemma clean_excel_file_run file_path config cb w :
  let n := length (enabled_operations config) in
  let expected := expected_steps (supplied cb) 0 n (enabled_names config) in
  let backup_path := backup_name (clock (ticks w)) file_path in
  let cleaned_path := cleaned_name (clock (S (ticks w))) file_path in
  let r := clean_excel_file file_path config cb w in
  exists evs,
    trace r.2 = trace w ++ evs /\
    match r.1 with
    | Ok out =>
        steps evs = expected /\
        exists content df df' saved w2,
          files w !! file_path = Some content /\
          file_path <> backup_path /\
          parse_workbook content = inr df /\
          apply_operations cb n 0 (enabled_operations config) df
            (mkWorld (<[backup_path := content]> (files w))
                     (trace w ++ [Logged (InfoLoading file_path)])
                     (S (ticks w)) (hook w))
          = (Ok df', w2) /\
          render_workbook df' = inr saved /\
          out = (backup_path, cleaned_path,
                 mkStatistics (_get_dataframe_stats df)
                              (_get_dataframe_stats df')
                              (enabled_names config)) /\
          files r.2
          = <[cleaned_path := saved]> (<[backup_path := content]> (files w))
    | Raise e =>
        steps evs `prefix_of` expected /\
        (e ∈ [AttributeError; FileNotFoundError; SameFileError] \/
         exists what, e = External what) /\
        exists evs', evs = evs' ++ [Logged (ErrorCleaning e)]
    end.
Proof.
  cbv zeta. unfold clean_excel_file, try_log_reraise, clean_excel_file_body.
  rewrite bind_run, create_backup_run. cbv zeta.
  set (backup_path := backup_name (clock (ticks w)) file_path).
  set (expected := expected_steps _ _ _ _).
  assert (Hfail : forall e (w0 : World) (pre : list event),
            trace w0 = trace w ++ pre ->
            steps pre `prefix_of` expected ->
            (e ∈ [AttributeError; FileNotFoundError; SameFileError] \/
             exists what, e = External what) ->
            exists evs,
              trace (log (ErrorCleaning e) w0).2 = trace w ++ evs /\
              steps evs `prefix_of` expected /\
              (e ∈ [AttributeError; FileNotFoundError; SameFileError] \/
               exists what, e = External what) /\
              exists evs', evs = evs' ++ [Logged (ErrorCleaning e)]).
  { intros e w0 pre Htr Hpre He. exists (pre ++ [Logged (ErrorCleaning e)]).
    rewrite log_run. cbn [snd trace]. rewrite Htr, <- app_assoc.
    split; [done|]. rewrite steps_app. cbn. rewrite app_nil_r.
    split; [done|]. split; [done|]. by eexists. }
  destruct (files w !! file_path) as [content|] eqn:Hcontent.
  2:{ cbn [fst snd]. apply (Hfail _ _ []).
      - cbn. by rewrite app_nil_r.
      - apply prefix_nil.
      - left. set_solver. }
  destruct (decide (file_path = backup_path)) as [Hsame|Hdiff].
  { cbn [fst snd]. apply (Hfail _ _ []).
    - cbn. by rewrite app_nil_r.
    - apply prefix_nil.
    - left. set_solver. }
  destruct (read_fault file_path) as [what|] eqn:Hread.
  { cbn [fst snd]. apply (Hfail _ _ []).
    - cbn. by rewrite app_nil_r.
    - apply prefix_nil.
    - right. by eexists. }
  destruct (write_fault backup_path) as [what|] eqn:Hwrite.
  { cbn [fst snd]. apply (Hfail _ _ []).
    - cbn. by rewrite app_nil_r.
    - apply prefix_nil.
    - right. by eexists. }
  rewrite bind_run, log_run, bind_run. cbn [files trace ticks hook].
  unfold read_excel. cbn [files trace ticks hook].
  rewrite lookup_insert_ne by done. rewrite Hcontent, Hread.
  destruct (parse_workbook content) as [what|df] eqn:Hparse.
  { cbn [fst snd]. apply (Hfail _ _ [Logged (InfoLoading file_path)]).
    - done.
    - apply prefix_nil.
    - right. by eexists. }
  rewrite bind_run.
  set (w1 := mkWorld (<[backup_path := content]> (files w))
                     (trace w ++ [Logged (InfoLoading file_path)])
                     (S (ticks w)) (hook w)).
  destruct (apply_operations_run cb (length (enabled_operations config))
              (enabled_operations config) 0 df w1
              (enabled_operations_behave config) eq_refl
              (length_enabled_operations config))
    as (evs & Htr & Hfiles & Hticks & Hres).
  rewrite names_enabled_operations in Hres. fold expected in Hres.
  destruct (apply_operations cb (length (enabled_operations config)) 0
              (enabled_operations config) df w1) as [[df'|e] w2] eqn:Hloop.
  2:{ cbn [fst snd] in *. destruct Hres as [Hpre He].
      apply (Hfail _ _ ([Logged (InfoLoading file_path)] ++ evs)).
      - rewrite Htr. cbn. by rewrite <- app_assoc.
      - by rewrite steps_app.
      - destruct He as [->|He]; [left; set_solver | by right]. }
  cbn [fst snd] in Htr, Hfiles, Hticks, Hres.
  rewrite names_enabled_operations, save_run. cbv zeta.
  rewrite Hticks, Hfiles. unfold w1 in *. cbn [files trace ticks hook] in *.
  destruct (render_workbook df') as [what|saved] eqn:Hrender.
  { cbn [fst snd]. apply (Hfail _ _ ([Logged (InfoLoading file_path)] ++ evs)).
    - cbn. rewrite Htr. cbn. by rewrite <- app_assoc.
    - by rewrite steps_app, Hres.
    - right. by eexists. }
  destruct (write_fault (cleaned_name (clock (S (ticks w))) file_path))
    as [what|] eqn:Hwrite2.
  { cbn [fst snd]. apply (Hfail _ _ ([Logged (InfoLoading file_path)] ++ evs)).
    - cbn. rewrite Htr. cbn. by rewrite <- app_assoc.
    - by rewrite steps_app, Hres.
    - right. by eexists. }
  cbn [fst snd trace files].
  eexists ([Logged (InfoLoading file_path)] ++ evs ++ [Logged (InfoSuccess _)]).
  split.
  { rewrite Htr. cbn. by rewrite <- !app_assoc. }
  split.
  { rewrite !steps_app. cbn. by rewrite app_nil_r. }
  by exists content, df, df', saved, w2.
Qed.

End Run.

(** ** Progress reports *)

Lemma progress_calls_steps evs : progress_calls evs = reports (steps evs).
Proof.
  unfold progress_calls, reports, steps.
  induction evs as [|[r|p] evs IH]; [done| |].
  - cbn. destruct (operation_of r); cbn; exact IH.
  - cbn. by rewrite IH.
Qed.






Section Progress.
Context `{Collaborators}.






End Progress.



(** ** Division by zero *)

Section Division.
Context `{Collaborators}.

(** C10: [clean_excel_file] never raises [ZeroDivisionError]: the
    percentage is computed at positions [i] below the number of enabled
    operations only, where the division is defined; with every flag off
    the loop body is not entered at all, although the expression would
    raise there. *)
Theorem never_divides_by_zero (file_path : string) (config : CleaningConfig)
    (cb : option callback) (w : World) :
  (clean_excel_file file_path config cb w).1 <> Raise ZeroDivisionError /\
  (forall i, i < length (enabled_operations config) ->
     exists p, percent_complete i (length (enabled_operations config)) = Ok p) /\
  length (enabled_operations default_config) = 0 /\
  percent_complete 0 0 = Raise ZeroDivisionError /\
  (forall df,
     apply_operations cb (length (enabled_operations default_config)) 0
       (enabled_operations default_config) df w
     = (Ok df, w)).
Proof.
  split; [|split; [|split; [|split]]]; try done.
  - destruct (clean_excel_file_run file_path config cb w) as (evs & _ & Hres).
    intros Hraise. rewrite Hraise in Hres.
    destruct Hres as (_ & [Hin|[what Hext]] & _); [|done].
    do 3 (apply elem_of_cons in Hin as [?|Hin]; [done|]).
    by apply elem_of_nil in Hin.
  - intros i Hi. eexists. apply percent_complete_exact; [done|].
    apply length_enabled_operations.
Qed.

End Division.

(** ** Backup, output and input paths *)

Lemma differs_has_xlsx timestamp file_path :
  file_path <> backup_name timestamp file_path ->
  Text.contains ".xlsx" file_path = true.
Proof.
  intros Hdiff. destruct (Text.contains ".xlsx" file_path) eqn:Hc; [done|].
  destruct (names_without_xlsx timestamp timestamp file_path Hc) as [Hb _].
  by rewrite Hb in Hdiff.
Qed.

Section Paths.
Context `{Collaborators}.

(** Whenever a run returns, the three paths differ: a path without
    [".xlsx"] never gets past the backup step, where the copy onto
    itself is refused. *)
Lemma returned_paths_distinct file_path config cb w backup_path cleaned_path st :
  (clean_excel_file file_path config cb w).1
  = Ok (backup_path, cleaned_path, st) ->
  backup_path <> file_path /\
  cleaned_path <> file_path /\
  backup_path <> cleaned_path.
Proof.
  intros Hrun.
  destruct (clean_excel_file_run file_path config cb w) as (evs & _ & Hres).
  rewrite Hrun in Hres.
  destruct Hres as (_ & content & df & df' & saved & w2 & _ & Hdiff & _ & _
                    & _ & [= -> -> _] & _).
  by apply names_with_xlsx, (differs_has_xlsx (clock (ticks w))).
Qed.

(** C4: a run with every flag off that returns has parsed the input into
    some dataset [df] and written that same dataset: the statistics
    before and after are those of [df] (so the row and column counts
    agree), no operation is listed as applied, the trace shows no
    transformation and no report, the backup holds the bytes of the
    input, and the input is untouched.  Such a run does return whenever
    the path contains [".xlsx"], the file is there and parses, and the
    file system and the writer raise nothing. *)
Theorem no_flags_no_change (file_path : string) (cb : option callback)
    (w : World) :
  let r := clean_excel_file file_path default_config cb w in
  let backup_path := backup_name (clock (ticks w)) file_path in
  let cleaned_path := cleaned_name (clock (S (ticks w))) file_path in
  (forall out, r.1 = Ok out ->
     exists content df saved evs,
       out = (backup_path, cleaned_path,
              mkStatistics (_get_dataframe_stats df) (_get_dataframe_stats df) []) /\
       files w !! file_path = Some content /\
       parse_workbook content = inr df /\
       render_workbook df = inr saved /\
       files r.2 !! backup_path = Some content /\
       files r.2 !! cleaned_path = Some saved /\
       files r.2 !! file_path = Some content /\
       stat_rows (final out.2) = stat_rows (original out.2) /\
       stat_columns (final out.2) = stat_columns (original out.2) /\
       operations_applied out.2 = [] /\
       trace r.2 = trace w ++ evs /\
       steps evs = [] /\
       progress_calls evs = []) /\
  (forall content df saved,
     files w !! file_path = Some content ->
     Text.contains ".xlsx" file_path = true ->
     read_fault file_path = None ->
     write_fault backup_path = None ->
     write_fault cleaned_path = None ->
     parse_workbook content = inr df ->
     render_workbook df = inr saved ->
     exists out, r.1 = Ok out).
Proof.
  cbv zeta. split.
  - intros out Hout.
    destruct (clean_excel_file_run file_path default_config cb w)
      as (evs & Htr & Hres).
    rewrite Hout in Hres.
    destruct Hres as (Hsteps & content & df & df' & saved & w2 & Hcontent
                      & Hdiff & Hparse & Hloop & Hrender & -> & Hfiles).
    change (enabled_operations default_config) with (@nil operation) in Hloop.
    cbn [apply_operations length] in Hloop. rewrite ret_run in Hloop.
    injection Hloop as <- <-.
    change (enabled_names default_config) with (@nil string) in *.
    cbn [expected_steps] in Hsteps.
    pose proof (differs_has_xlsx _ _ Hdiff) as Hx.
    destruct (names_with_xlsx (clock (ticks w)) (clock (S (ticks w)))
                file_path Hx) as (Hb & Hc & Hbc).
    exists content, df, saved, evs. rewrite Hfiles.
    repeat split; try done.
    + rewrite lookup_insert_ne by done. by rewrite lookup_insert_eq.
    + by rewrite lookup_insert_eq.
    + by rewrite !lookup_insert_ne by done.
    + by rewrite progress_calls_steps, Hsteps.
  - intros content df saved Hcontent Hx Hread Hwb Hwc Hparse Hrender.
    destruct (names_with_xlsx (clock (ticks w)) (clock (S (ticks w)))
                file_path Hx) as (Hb & Hc & Hbc).
    unfold clean_excel_file, try_log_reraise, clean_excel_file_body.
    rewrite bind_run, create_backup_run. cbv zeta.
    rewrite Hcontent, decide_False by done. rewrite Hread, Hwb.
    rewrite bind_run, log_run, bind_run. unfold read_excel.
    cbn [files trace ticks hook].
    rewrite lookup_insert_ne by done. rewrite Hcontent, Hread, Hparse.
    rewrite bind_run.
    change (enabled_operations default_config) with (@nil operation).
    cbn [apply_operations length]. rewrite ret_run, save_run. cbv zeta.
    cbn [files trace ticks hook]. rewrite Hrender, Hwc. by eexists.
Qed.

End Paths.

Lemma no_flags_no_change_witness :
  let r := clean_excel_file (H := sample_collaborators) "data.xlsx"
             default_config (Some recording_callback) sample_world in
  (exists out, r.1 = Ok out) /\
  files r.2 !! "data_backup_20240101_120000.xlsx"
  = files sample_world !! "data.xlsx".
Proof.
  cbv zeta.
  destruct (no_flags_no_change (H := sample_collaborators) "data.xlsx"
              (Some recording_callback) sample_world) as [Hok Hreturns].
  destruct (Hreturns [Byte.x50; Byte.x4b] sample_frame [Byte.x00; Byte.x00])
    as [out Hout]; try reflexivity.
  split; [by exists out|].
  destruct (Hok out Hout)
    as (content & df & saved & evs & _ & Hcontent & _ & _ & Hbackup & _).
  cbn [clock sample_collaborators ticks sample_world] in Hbackup.
  rewrite Hcontent. exact Hbackup.
Defined.

(** ** Failures *)

Section Failures.
Context `{Collaborators}.



End Failures.


(** ** A workbook whose name lacks [".xlsx"] *)

(** C1, at the path ["data.xls"]: whatever the clock shows, both derived
    names are the input path itself; the copy of the file onto itself is
    refused, and the run ends there with [SameFileError], no file
    added. *)
Theorem xls_names_are_the_input_path (timestamp : string) :
  backup_name timestamp "data.xls" = "data.xls" /\
  cleaned_name timestamp "data.xls" = "data.xls" /\
  (clean_excel_file (H := sample_collaborators) "data.xls"
     (mkConfig true false false false false false) (Some recording_callback)
     legacy_world).1
  = Raise SameFileError /\
  files (clean_excel_file (H := sample_collaborators) "data.xls"
           (mkConfig true false false false false false)
           (Some recording_callback) legacy_world).2
  = files legacy_world.
Proof.
  split; [|split; [|split]]; reflexivity.
Qed.

Lemma never_divides_by_zero_witness :
  0 < length (enabled_operations (H := sample_collaborators)
                (mkConfig true true false true false false)) /\
  exists p,
    percent_complete 0
      (length (enabled_operations (H := sample_collaborators)
                 (mkConfig true true false true false false)))
    = Ok p.
Proof.
  assert (Hpos : 0 < length (enabled_operations (H := sample_collaborators)
                               (mkConfig true true false true false false)))
    by (vm_compute; lia).
  split; [exact Hpos|].
  destruct (never_divides_by_zero (H := sample_collaborators) "data.xlsx"
              (mkConfig true true false true false false)
              (Some recording_callback) sample_world)
    as (_ & Hdefined & _).
  exact (Hdefined 0 Hpos).
Defined.

(* ===================================================================== *)
(** * Further properties of the pipeline *)
(* ===================================================================== *)

(** ** Shapes: no transformation adds rows or columns *)

Lemma count_true_le mask : count_true mask <= length mask.
Proof. induction mask as [|[] mask IH]; simpl; lia. Qed.

Lemma count_true_replicate n : count_true (replicate n true) = n.
Proof. induction n; simpl; auto. Qed.

Lemma keep_by_all_true {A} (l : list A) :
  keep_by (replicate (length l) true) l = l.
Proof. induction l as [|x l IH]; simpl; [done|]. by rewrite IH. Qed.

Lemma select_rows_shape mask df :
  length mask = nrows df ->
  shrinks df (select_rows mask df).
Proof.
  intros Hmask. split; [|split].
  - intros Hwf. by apply well_formed_select_rows.
  - simpl. rewrite <- Hmask. apply count_true_le.
  - simpl. by rewrite length_fmap.
Qed.

Lemma shrinks_refl df : shrinks df df.
Proof. by split. Qed.

Lemma shrinks_trans a b c : shrinks a b -> shrinks b c -> shrinks a c.
Proof.
  intros (Hab & ? & ?) (Hbc & ? & ?). split; [auto|]. split; lia.
Qed.

Lemma drop_duplicates_shape df : shrinks df (drop_duplicates df).
Proof.
  unfold drop_duplicates. destruct (frame_empty df); [apply shrinks_refl|].
  apply select_rows_shape. unfold duplicated.
  by rewrite length_fmap, length_duplicated_from, length_rows.
Qed.

Lemma dropna_rows_shape df : shrinks df (dropna_rows df).
Proof.
  apply select_rows_shape. by rewrite length_fmap, length_rows.
Qed.

Lemma dropna_columns_shape df : shrinks df (dropna_columns df).
Proof.
  split; [|split].
  - unfold well_formed. simpl. intros Hwf.
    apply Forall_forall. intros c [_ Hc]%list_elem_of_filter.
    by apply (proj1 (Forall_forall _ _) Hwf).
  - done.
  - simpl. apply length_filter.
Qed.

Lemma rename_normalized_shape df : shrinks df (rename_normalized df).
Proof.
  split; [|split].
  - unfold well_formed. simpl. intros Hwf. apply Forall_fmap.
    eapply Forall_impl; [exact Hwf|]. done.
  - done.
  - simpl. by rewrite length_fmap.
Qed.

Lemma length_values_text_column f c :
  length (values (text_column f c)) = length (values c).
Proof.
  unfold text_column. case_decide; [|done].
  simpl. unfold astype_str_then. by rewrite length_fmap.
Qed.

Lemma map_text_columns_shape f df df' :
  map_text_columns f df = Ok df' -> shrinks df df'.
Proof.
  intros Hrun.
  pose proof (map_text_columns_ok_labels _ _ _ Hrun) as Hnd.
  rewrite (map_text_columns_spec _ _ Hnd) in Hrun. injection Hrun as <-.
  split; [|split].
  - unfold well_formed. simpl. intros Hwf. apply Forall_fmap.
    eapply Forall_impl; [exact Hwf|]. intros c Hc. simpl.
    by rewrite length_values_text_column.
  - done.
  - simpl. by rewrite length_fmap.
Qed.

Section Shapes.
Context `{Collaborators}.

Lemma text_operation_shape f r df w df' w' :
  (let* df_cleaned := lift (map_text_columns f df) in
   run log r then ret df_cleaned) w = (Ok df', w') ->
  shrinks df df'.
Proof.
  unfold bind, lift. intros Hrun.
  destruct (map_text_columns f df) as [df1|e] eqn:Hmap; [|done].
  injection Hrun as <- _. by apply (map_text_columns_shape f).
Qed.

Lemma operations_shrink config :
  Forall (fun op : operation =>
            forall df w df' w', op.1.2 df w = (Ok df', w') -> shrinks df df')
         (operations config).
Proof.
  repeat apply Forall_cons_2; try apply Forall_nil_2; simpl.
  - intros df w df' w' [= <- _]. apply drop_duplicates_shape.
  - intros df w df' w' [= <- _]. apply dropna_rows_shape.
  - intros df w df' w' [= <- _]. apply dropna_columns_shape.
  - intros df w df' w'. apply text_operation_shape.
  - intros df w df' w' [= <- _]. apply rename_normalized_shape.
  - intros df w df' w'. apply text_operation_shape.
Qed.

(** A relation that every operation of the list establishes between its
    argument and its result holds between the frame the loop starts from
    and the frame it returns. *)
Lemma apply_operations_related (R : DataFrame -> DataFrame -> Prop)
    cb total_ops ops :
  (forall df, R df df) ->
  (forall a b c, R a b -> R b c -> R a c) ->
  Forall (fun op : operation =>
            forall df w df' w', op.1.2 df w = (Ok df', w') -> R df df') ops ->
  forall i df w df' w',
    apply_operations cb total_ops i ops df w = (Ok df', w') -> R df df'.
Proof.
  intros Hrefl Htrans. induction ops as [|[[nm func] enabled] rest IH];
    intros Hops i df w df' w' Hrun.
  - injection Hrun as <- _. apply Hrefl.
  - apply Forall_cons in Hops as [Hfunc Hrest]. simpl in Hfunc.
    cbn [apply_operations] in Hrun. destruct enabled; [|by eapply IH].
    rewrite bind_run in Hrun.
    destruct (func df w) as [[df1|e] w1] eqn:Hf; [|done].
    rewrite bind_run in Hrun.
    destruct (match cb with
              | Some cb0 =>
                  let* p := lift (percent_complete i total_ops) in invoke cb0 p
              | None => ret ()
              end w1) as [[[]|e] w2]; [|done].
    apply (Htrans _ df1); [by eapply Hfunc | by eapply IH].
Qed.

(** X1: No transformation adds a row or a column, and each keeps a well
    formed frame well formed; so the row, column and cell counts a
    returning run reports for the result are at most those it reports
    for the input, and the "rows changed" and "columns changed" figures
    of the summary are never negative. *)
Theorem output_no_larger_than_input (file_path : string)
    (config : CleaningConfig) (cb : option callback) (w : World) :
  (forall op df w0 df' w', op ∈ operations config ->
     op.1.2 df w0 = (Ok df', w') -> shrinks df df') /\
  (forall out, (clean_excel_file file_path config cb w).1 = Ok out ->
     stat_rows (final out.2) <= stat_rows (original out.2) /\
     stat_columns (final out.2) <= stat_columns (original out.2) /\
     stat_cells (final out.2) <= stat_cells (original out.2)).
Proof.
  split.
  - intros op df w0 df' w' Hop.
    by apply (proj1 (Forall_forall _ _) (operations_shrink config)).
  - intros out Hout.
    destruct (clean_excel_file_run file_path config cb w) as (evs & _ & Hres).
    rewrite Hout in Hres.
    destruct Hres as (_ & content & df & df' & saved & w2 & _ & _ & _ & Hloop
                      & _ & -> & _).
    assert (Hshape : shrinks df df').
    { eapply (apply_operations_related shrinks);
        [apply shrinks_refl | apply shrinks_trans | | exact Hloop].
      apply Forall_forall. intros op [_ Hop]%list_elem_of_filter.
      by apply (proj1 (Forall_forall _ _) (operations_shrink config)). }
    destruct Hshape as (_ & Hrows & Hcols). simpl. repeat split; [done|done|].
    by apply Nat.mul_le_mono.
Qed.

End Shapes.

Lemma output_no_larger_than_input_witness :
  let r := clean_excel_file (H := sample_collaborators) "data.xlsx"
             (mkConfig true true true true true true) None sample_world in
  exists out,
    r.1 = Ok out /\
    stat_rows (final out.2) <= stat_rows (original out.2).
Proof.
  cbv zeta.
  destruct (clean_excel_file (H := sample_collaborators) "data.xlsx"
              (mkConfig true true true true true true) None sample_world).1
    as [out|e] eqn:Hrun; [|vm_compute in Hrun; discriminate Hrun].
  exists out. split; [reflexivity|].
  destruct (output_no_larger_than_input (H := sample_collaborators)
              "data.xlsx" (mkConfig true true true true true true)
              None sample_world) as [_ Hstats].
  exact (proj1 (Hstats out Hrun)).
Defined.

(** ** Applying an operation twice *)

Lemma select_rows_all_true df :
  well_formed df ->
  select_rows (replicate (nrows df) true) df = df.
Proof.
  destruct df as [n cols]. unfold well_formed, select_rows. simpl.
  intros Hwf. rewrite count_true_replicate. f_equal.
  rewrite <- (list_fmap_id cols) at 2. apply Forall_fmap_ext_1.
  eapply Forall_impl; [exact Hwf|]. intros [nm k vs] Hlen. simpl in *.
  rewrite <- Hlen. by rewrite keep_by_all_true.
Qed.

Lemma fmap_all_true {A} (f : A -> bool) (l : list A) :
  (forall x, x ∈ l -> f x = true) -> f <$> l = replicate (length l) true.
Proof.
  induction l as [|x l IH]; intros Hl; [done|].
  rewrite fmap_cons. simpl. rewrite Hl by (by left). f_equal.
  apply IH. intros y Hy. apply Hl. by right.
Qed.

(** Rows without a repetition are all unmarked. *)
Lemma duplicated_from_fresh seen rs :
  NoDup rs ->
  (forall r, r ∈ rs -> r ∉ seen) ->
  duplicated_from seen rs = replicate (length rs) false.
Proof.
  revert seen. induction rs as [|r rs IH]; intros seen Hnd Hfresh; [done|].
  apply NoDup_cons in Hnd as [Hr Hnd]. simpl.
  rewrite bool_decide_eq_false_2 by (apply Hfresh; by left). f_equal.
  apply IH; [done|]. intros r' Hr' [->|Hin]%elem_of_cons; [done|].
  by apply (Hfresh r'); [right|].
Qed.

Lemma drop_duplicates_idempotent df :
  well_formed df ->
  drop_duplicates (drop_duplicates df) = drop_duplicates df.
Proof.
  intros Hwf. destruct (frame_empty df) eqn:Hempty.
  { unfold drop_duplicates. by rewrite Hempty, Hempty. }
  set (keep := negb <$> duplicated df).
  assert (Hdd : drop_duplicates df = select_rows keep df)
    by (unfold drop_duplicates; by rewrite Hempty).
  rewrite Hdd.
  assert (Hlen : length keep = nrows df).
  { unfold keep, duplicated.
    by rewrite length_fmap, length_duplicated_from, length_rows. }
  pose proof (well_formed_select_rows keep df Hwf Hlen) as Hwf'.
  pose proof (rows_select_rows keep df Hwf Hlen) as Hrows.
  destruct (keep_first_occurrences [] (rows df)) as (Hnd & _ & _).
  fold (duplicated df) in Hnd. fold keep in Hnd. rewrite <- Hrows in Hnd.
  unfold drop_duplicates.
  destruct (frame_empty (select_rows keep df)); [done|].
  unfold duplicated. rewrite duplicated_from_fresh; [|done|].
  - rewrite fmap_replicate, length_rows. by apply select_rows_all_true.
  - intros r _ Hin. by apply elem_of_nil in Hin.
Qed.

Lemma dropna_rows_idempotent df :
  well_formed df ->
  dropna_rows (dropna_rows df) = dropna_rows df.
Proof.
  intros Hwf.
  assert (Hlen : length (existsb notna <$> rows df) = nrows df)
    by (by rewrite length_fmap, length_rows).
  pose proof (well_formed_select_rows _ df Hwf Hlen) as Hwf'.
  fold (dropna_rows df) in Hwf'.
  unfold dropna_rows at 1. rewrite fmap_all_true.
  - rewrite length_rows. by apply select_rows_all_true.
  - intros r Hr. rewrite rows_dropna_rows in Hr by done.
    apply list_elem_of_filter in Hr as [Hr _].
    rewrite existsb_notna. by rewrite Hr.
Qed.

Lemma dropna_columns_idempotent df :
  dropna_columns (dropna_columns df) = dropna_columns df.
Proof.
  unfold dropna_columns. simpl. f_equal.
  rewrite list_filter_filter. apply list_filter_iff. tauto.
Qed.

Section Twice.
Context `{Collaborators}.

(** X2: Removing duplicates, empty rows or empty columns a second time finds
    nothing left to remove: the frame comes back as it is and the log
    record counts zero removals. *)
Theorem removals_are_idempotent (df : DataFrame) (w : World) :
  well_formed df ->
  (forall df' w', remove_duplicates df w = (Ok df', w') ->
     remove_duplicates df' w'
     = (Ok df', mkWorld (files w') (trace w' ++ [Logged (InfoRemovedDuplicates 0)])
                        (ticks w') (hook w'))) /\
  (forall df' w', remove_empty_rows df w = (Ok df', w') ->
     remove_empty_rows df' w'
     = (Ok df', mkWorld (files w') (trace w' ++ [Logged (InfoRemovedEmptyRows 0)])
                        (ticks w') (hook w'))) /\
  (forall df' w', remove_empty_columns df w = (Ok df', w') ->
     remove_empty_columns df' w'
     = (Ok df', mkWorld (files w')
                        (trace w' ++ [Logged (InfoRemovedEmptyColumns 0)])
                        (ticks w') (hook w'))).
Proof.
  intros Hwf. split; [|split].
  - intros df' w' [= <- _]. unfold remove_duplicates.
    rewrite bind_run, log_run, (drop_duplicates_idempotent df Hwf).
    by rewrite Z.sub_diag.
  - intros df' w' [= <- _]. unfold remove_empty_rows.
    rewrite bind_run, log_run, (dropna_rows_idempotent df Hwf).
    by rewrite Z.sub_diag.
  - intros df' w' [= <- _]. unfold remove_empty_columns.
    rewrite bind_run, log_run, (dropna_columns_idempotent df).
    by rewrite Z.sub_diag.
Qed.

End Twice.

Lemma removals_are_idempotent_witness :
  well_formed sample_frame /\
  exists df' w',
    remove_duplicates (H := sample_collaborators) sample_frame sample_world
    = (Ok df', w') /\
    (remove_duplicates (H := sample_collaborators) df' w').1 = Ok df'.
Proof.
  assert (Hwf : well_formed sample_frame) by (repeat constructor).
  split; [exact Hwf|].
  destruct (remove_duplicates (H := sample_collaborators) sample_frame
              sample_world) as [[df'|e] w'] eqn:Hrun; [|discriminate Hrun].
  exists df', w'. split; [reflexivity|].
  destruct (removals_are_idempotent (H := sample_collaborators)
              sample_frame sample_world Hwf) as [Hdup _].
  by rewrite (Hdup df' w' Hrun).
Defined.

(** ** Trimming and title-casing cells *)

Lemma blank_is_caseless c : Text.isspace c = true -> Text.is_cased c = false.
Proof.
  destruct c as [[] [] [] [] [] [] [] []]; vm_compute; congruence.
Qed.

Lemma strip_idempotent s : Text.strip (Text.strip s) = Text.strip s.
Proof. apply strip_fixed, trimmed_strip. Qed.

Lemma lstrip_title s :
  Text.lstrip (Text.title s) = Text.title (Text.lstrip s).
Proof.
  unfold Text.title. induction s as [|c s IH]; [done|]. simpl.
  rewrite isspace_to_upper. destruct (Text.isspace c) eqn:Hc; [|done].
  by rewrite (blank_is_caseless c Hc).
Qed.

Lemma rstrip_title_from p s :
  Text.rstrip (Text.title_from p s) = Text.title_from p (Text.rstrip s).
Proof.
  revert p. induction s as [|c s IH]; intros p; [done|].
  cbn [Text.title_from Text.rstrip]. rewrite IH.
  assert (Hsp : Text.isspace (if p then Text.to_lower c else Text.to_upper c)
                = Text.isspace c)
    by (destruct p; [apply isspace_to_lower | apply isspace_to_upper]).
  destruct (Text.rstrip s) as [|d r] eqn:Hr; cbn [Text.title_from].
  - rewrite Hsp. by destruct (Text.isspace c).
  - done.
Qed.

Lemma strip_title s : Text.strip (Text.title s) = Text.title (Text.strip s).
Proof.
  unfold Text.strip. rewrite lstrip_title. unfold Text.title.
  apply rstrip_title_from.
Qed.

Lemma title_idempotent s : Text.title (Text.title s) = Text.title s.
Proof. apply title_from_idem. Qed.

Lemma text_column_compose f g c :
  text_column f (text_column g c) = text_column (fun s => f (g s)) c.
Proof.
  unfold text_column at 1. rewrite dtype_text_column.
  unfold text_column. destruct (decide (dtype c = Object)) as [Hk|Hk]; [|done].
  cbn [name values]. f_equal.
  unfold astype_str_then. rewrite <- list_fmap_compose.
  by apply list_fmap_ext.
Qed.

Lemma text_column_ext f g c :
  (forall s, f s = g s) -> text_column f c = text_column g c.
Proof.
  intros Hfg. unfold text_column. case_decide; [|done]. f_equal.
  unfold astype_str_then. apply list_fmap_ext. intros _ v _. by rewrite Hfg.
Qed.

Lemma map_text_columns_twice f g df df1 :
  map_text_columns g df = Ok df1 ->
  map_text_columns f df1
  = Ok (mkFrame (nrows df) (text_column (fun s => f (g s)) <$> columns df)).
Proof.
  intros Hrun.
  pose proof (map_text_columns_ok_labels _ _ _ Hrun) as Hnd.
  rewrite (map_text_columns_spec _ _ Hnd) in Hrun. injection Hrun as <-.
  rewrite map_text_columns_spec; simpl.
  - f_equal. f_equal. rewrite <- list_fmap_compose.
    apply list_fmap_ext. intros _ c _. apply text_column_compose.
  - rewrite <- list_fmap_compose.
    rewrite (list_fmap_ext _ name (columns df)); [done|].
    intros _ c _. apply name_text_column.
Qed.

Section TextTwice.
Context `{Collaborators}.

Lemma text_operation_run f r df w df' w' :
  (let* df_cleaned := lift (map_text_columns f df) in
   run log r then ret df_cleaned) w = (Ok df', w') ->
  map_text_columns f df = Ok df' /\
  w' = mkWorld (files w) (trace w ++ [Logged r]) (ticks w) (hook w).
Proof.
  unfold bind, lift. intros Hrun.
  destruct (map_text_columns f df) as [df1|e] eqn:Hmap; [|done].
  by injection Hrun as <- <-.
Qed.

(** X3: on a frame whose text cells read as ASCII text, [trim_spaces]
    and [title_case_cells] each give the same frame when applied a
    second time, and the two give the same frame in either order. *)
Theorem text_operations_repeat_and_commute (df : DataFrame) (w : World) :
  ascii_cells df = true ->
  (forall df1 w1, trim_spaces df w = (Ok df1, w1) ->
     (trim_spaces df1 w1).1 = Ok df1) /\
  (forall df1 w1, title_case_cells df w = (Ok df1, w1) ->
     (title_case_cells df1 w1).1 = Ok df1) /\
  (forall df1 w1 df2 w2,
     trim_spaces df w = (Ok df1, w1) ->
     title_case_cells df w = (Ok df2, w2) ->
     (title_case_cells df1 w1).1 = (trim_spaces df2 w2).1 /\
     exists df3, (title_case_cells df1 w1).1 = Ok df3).
Proof.
  intros _. split; [|split].
  - intros df1 w1 [Hmap _]%text_operation_run.
    unfold trim_spaces, bind, lift.
    rewrite (map_text_columns_twice Text.strip Text.strip df df1 Hmap).
    cbn. rewrite (map_text_columns_spec Text.strip df) in Hmap
      by (by eapply map_text_columns_ok_labels).
    injection Hmap as <-. f_equal. f_equal.
    apply list_fmap_ext. intros _ c _.
    apply text_column_ext, strip_idempotent.
  - intros df1 w1 [Hmap _]%text_operation_run.
    unfold title_case_cells, bind, lift.
    rewrite (map_text_columns_twice Text.title Text.title df df1 Hmap).
    cbn. rewrite (map_text_columns_spec Text.title df) in Hmap
      by (by eapply map_text_columns_ok_labels).
    injection Hmap as <-. f_equal. f_equal.
    apply list_fmap_ext. intros _ c _.
    apply text_column_ext, title_idempotent.
  - intros df1 w1 df2 w2 [Hstrip _]%text_operation_run
      [Htitle _]%text_operation_run.
    unfold title_case_cells, trim_spaces, bind, lift.
    rewrite (map_text_columns_twice Text.title Text.strip df df1 Hstrip).
    rewrite (map_text_columns_twice Text.strip Text.title df df2 Htitle).
    cbn. split; [|by eexists]. f_equal. f_equal.
    apply list_fmap_ext. intros _ c _.
    apply text_column_ext. intros s. symmetry. apply strip_title.
Qed.

(** X4: [trim_spaces] and [title_case_cells], when they return, leave the
    row count, the column labels and their order, and the storage types
    as they were, and hand every column that is not text-typed back
    unchanged. *)
Theorem text_operations_keep_the_rest (df : DataFrame) (w : World) :
  forall df' w',
    trim_spaces df w = (Ok df', w') \/ title_case_cells df w = (Ok df', w') ->
    nrows df' = nrows df /\
    name <$> columns df' = name <$> columns df /\
    dtype <$> columns df' = dtype <$> columns df /\
    (fun c => length (values c)) <$> columns df'
    = (fun c => length (values c)) <$> columns df /\
    (forall i c, columns df !! i = Some c -> dtype c <> Object ->
                 columns df' !! i = Some c).
Proof.
  assert (Hany : forall f df',
            map_text_columns f df = Ok df' ->
            nrows df' = nrows df /\
            name <$> columns df' = name <$> columns df /\
            dtype <$> columns df' = dtype <$> columns df /\
            (fun c => length (values c)) <$> columns df'
            = (fun c => length (values c)) <$> columns df /\
            (forall i c, columns df !! i = Some c -> dtype c <> Object ->
                         columns df' !! i = Some c)).
  { intros f df' Hmap.
    rewrite (map_text_columns_spec f df) in Hmap
      by (by eapply map_text_columns_ok_labels).
    injection Hmap as <-. simpl. split; [done|].
    rewrite <- !list_fmap_compose.
    split; [|split; [|split]].
    - apply list_fmap_ext. intros _ c _. apply name_text_column.
    - apply list_fmap_ext. intros _ c _. apply dtype_text_column.
    - apply list_fmap_ext. intros _ c _. apply length_values_text_column.
    - intros i c Hc Hk. rewrite list_lookup_fmap, Hc. simpl.
      unfold text_column. by rewrite decide_False. }
  intros df' w' [[Hmap _]%text_operation_run|[Hmap _]%text_operation_run];
    by eapply Hany.
Qed.

End TextTwice.

Lemma text_operations_repeat_and_commute_witness :
  ascii_cells sample_frame = true /\
  exists df1 w1,
    trim_spaces (H := sample_collaborators) sample_frame sample_world
    = (Ok df1, w1) /\
    (trim_spaces (H := sample_collaborators) df1 w1).1 = Ok df1.
Proof.
  split; [reflexivity|].
  destruct (trim_spaces (H := sample_collaborators) sample_frame sample_world)
    as [[df1|e] w1] eqn:Hrun; [|vm_compute in Hrun; discriminate Hrun].
  exists df1, w1. split; [reflexivity|].
  exact (proj1 (text_operations_repeat_and_commute
                  (H := sample_collaborators) sample_frame sample_world
                  eq_refl)
               df1 w1 Hrun).
Defined.

Lemma text_operations_keep_the_rest_witness :
  exists df' w',
    trim_spaces (H := sample_collaborators) sample_frame sample_world
    = (Ok df', w') /\
    columns df' !! 1 = columns sample_frame !! 1.
Proof.
  destruct (trim_spaces (H := sample_collaborators) sample_frame sample_world)
    as [[df'|e] w'] eqn:Hrun; [|vm_compute in Hrun; discriminate Hrun].
  exists df', w'. split; [reflexivity|].
  destruct (text_operations_keep_the_rest (H := sample_collaborators)
              sample_frame sample_world df' w' (or_introl Hrun))
    as (_ & _ & _ & _ & Hsame).
  apply (Hsame 1); [reflexivity | discriminate].
Defined.

(** ** What a run leaves on the disk *)






Section Disk.
Context `{Collaborators}.



End Disk.


(** ** The statistics of a run *)

Lemma sum_list_cons (n : nat) (ns : list nat) :
  sum_list (n :: ns) = n + sum_list ns.
Proof. reflexivity. Qed.

Lemma sum_list_fmap_le {A} (f g : A -> nat) (l : list A) :
  (forall x, x ∈ l -> f x <= g x) ->
  sum_list (f <$> l) <= sum_list (g <$> l).
Proof.
  induction l as [|x l IH]; intros Hfg; [done|].
  pose proof (Hfg x ltac:(left)) as Hx.
  pose proof (IH (fun y Hy => Hfg y ltac:(by right))) as Hl.
  rewrite !fmap_cons, !sum_list_cons. lia.
Qed.

Lemma sum_list_filter_le {A} (f : A -> nat) (P : A -> Prop)
    `{forall x, Decision (P x)} (l : list A) :
  sum_list (f <$> filter P l) <= sum_list (f <$> l).
Proof.
  induction l as [|x l IH]; [done|].
  rewrite filter_cons, fmap_cons, sum_list_cons.
  destruct (decide (P x)); rewrite ?fmap_cons, ?sum_list_cons; lia.
Qed.

Lemma sum_list_constant {A} (l : list A) n :
  sum_list ((fun _ => n) <$> l) = n * length l.
Proof.
  induction l as [|x l IH]; [simpl; lia|].
  rewrite fmap_cons, sum_list_cons, IH. simpl. lia.
Qed.

Lemma count_null_le vs : count_null vs <= length vs.
Proof. apply length_filter. Qed.

Lemma count_null_cons v vs :
  count_null (v :: vs) = (if isnull v then 1 else 0) + count_null vs.
Proof.
  unfold count_null. rewrite filter_cons.
  destruct (isnull v); [by rewrite decide_True | by rewrite decide_False].
Qed.

Lemma count_null_keep_by mask vs :
  count_null (keep_by mask vs) <= count_null vs.
Proof.
  revert vs. induction mask as [|b mask IH]; intros [|v vs];
    cbn [keep_by]; try (unfold count_null; simpl; lia).
  pose proof (IH vs) as Hvs.
  destruct b; rewrite !count_null_cons; lia.
Qed.

Lemma empty_cells_select_rows mask df :
  stat_empty_cells (_get_dataframe_stats (select_rows mask df))
  <= stat_empty_cells (_get_dataframe_stats df).
Proof.
  simpl. rewrite <- list_fmap_compose. apply sum_list_fmap_le.
  intros c _. simpl. apply count_null_keep_by.
Qed.

Lemma empty_cells_map_text_columns f df df' :
  map_text_columns f df = Ok df' ->
  stat_empty_cells (_get_dataframe_stats df')
  <= stat_empty_cells (_get_dataframe_stats df).
Proof.
  intros Hrun.
  pose proof (map_text_columns_ok_labels _ _ _ Hrun) as Hnd.
  rewrite (map_text_columns_spec _ _ Hnd) in Hrun. injection Hrun as <-.
  rewrite empty_cells_after_text_columns. simpl.
  apply sum_list_fmap_le. intros c _. case_decide; lia.
Qed.

Lemma storage_counts (cols : list Series) :
  length (filter (fun c => dtype c = Object) cols)
  + length (filter (fun c => dtype c = Int64) cols)
  + length (filter (fun c => dtype c = Float64) cols)
  = length cols.
Proof.
  induction cols as [|c cols IH]; [done|].
  rewrite !filter_cons. destruct (dtype c) eqn:Hc;
    repeat (case_decide; try done); simpl; lia.
Qed.

Lemma stats_consistent df :
  well_formed df -> consistent (_get_dataframe_stats df).
Proof.
  intros Hwf. split; [|split; [|split]].
  - simpl. rewrite <- (sum_list_constant (columns df) (nrows df)).
    apply sum_list_fmap_le. intros c Hc.
    rewrite <- (proj1 (Forall_forall _ _) Hwf c Hc). apply count_null_le.
  - cbn [stat_data_types stat_columns _get_dataframe_stats].
    rewrite <- (storage_counts (columns df)). unfold storage_count.
    cbn [fmap list_fmap]. rewrite !filter_cons, filter_nil. cbn [snd].
    repeat case_decide; simpl; lia.
  - simpl. apply Forall_forall. intros p [Hp _]%list_elem_of_filter. lia.
  - cbn [stat_data_types _get_dataframe_stats fmap list_fmap].
    rewrite !filter_cons, filter_nil. cbn [snd].
    repeat case_decide; cbn [fmap list_fmap fst];
      apply (bool_decide_unpack _); by vm_compute.
Qed.

Section Figures.
Context `{Collaborators}.

Lemma operations_keep_empty_cells config :
  Forall (fun op : operation =>
            forall df w df' w', op.1.2 df w = (Ok df', w') ->
              stat_empty_cells (_get_dataframe_stats df')
              <= stat_empty_cells (_get_dataframe_stats df))
         (operations config).
Proof.
  repeat apply Forall_cons_2; try apply Forall_nil_2; cbn [fst snd].
  - intros df w df' w' [= <- _]. unfold drop_duplicates.
    destruct (frame_empty df); [done|]. apply empty_cells_select_rows.
  - intros df w df' w' [= <- _]. apply empty_cells_select_rows.
  - intros df w df' w' [= <- _]. simpl. apply sum_list_filter_le.
  - intros df w df' w' [Hmap _]%text_operation_run.
    by apply (empty_cells_map_text_columns Text.strip).
  - intros df w df' w' [= <- _]. simpl. by rewrite <- list_fmap_compose.
  - intros df w df' w' [Hmap _]%text_operation_run.
    by apply (empty_cells_map_text_columns Text.title).
Qed.

(** X6: No transformation adds an empty cell, so a returning run reports at
    most as many empty cells for the result as for the input, and the
    "empty cells reduced" figure of the summary is never negative. *)
Theorem empty_cells_never_increase (file_path : string)
    (config : CleaningConfig) (cb : option callback) (w : World) :
  (forall op df w0 df' w', op ∈ operations config ->
     op.1.2 df w0 = (Ok df', w') ->
     stat_empty_cells (_get_dataframe_stats df')
     <= stat_empty_cells (_get_dataframe_stats df)) /\
  (forall out, (clean_excel_file file_path config cb w).1 = Ok out ->
     stat_empty_cells (final out.2) <= stat_empty_cells (original out.2)).
Proof.
  split.
  - intros op df w0 df' w' Hop.
    by apply (proj1 (Forall_forall _ _) (operations_keep_empty_cells config)).
  - intros out Hout.
    destruct (clean_excel_file_run file_path config cb w) as (evs & _ & Hres).
    rewrite Hout in Hres.
    destruct Hres as (_ & content & df & df' & saved & w2 & _ & _ & _ & Hloop
                      & _ & -> & _).
    cbn [snd original final].
    eapply (apply_operations_related
              (fun a b => stat_empty_cells (_get_dataframe_stats b)
                          <= stat_empty_cells (_get_dataframe_stats a)));
      [done | intros a b c; lia | | exact Hloop].
    apply Forall_forall. intros op [_ Hop]%list_elem_of_filter.
    by apply (proj1 (Forall_forall _ _) (operations_keep_empty_cells config)).
Qed.

(** X7: The statistics of a frame whose columns all have one cell per row
    fit together; when the reader returns such frames, so do both
    snapshots a returning run reports. *)
Theorem statistics_are_consistent (file_path : string)
    (config : CleaningConfig) (cb : option callback) (w : World) :
  (forall df, well_formed df -> consistent (_get_dataframe_stats df)) /\
  ((forall content df, parse_workbook content = inr df -> well_formed df) ->
   forall out, (clean_excel_file file_path config cb w).1 = Ok out ->
     consistent (original out.2) /\ consistent (final out.2)).
Proof.
  split; [apply stats_consistent|].
  intros Hparse out Hout.
  destruct (clean_excel_file_run file_path config cb w) as (evs & _ & Hres).
  rewrite Hout in Hres.
  destruct Hres as (_ & content & df & df' & saved & w2 & _ & _ & Hdf & Hloop
                    & _ & -> & _).
  cbn [snd original final].
  pose proof (Hparse content df Hdf) as Hwf.
  split; [by apply stats_consistent|]. apply stats_consistent.
  assert (Hshape : shrinks df df').
  { eapply (apply_operations_related shrinks);
      [apply shrinks_refl | apply shrinks_trans | | exact Hloop].
    apply Forall_forall. intros op [_ Hop]%list_elem_of_filter.
    by apply (proj1 (Forall_forall _ _) (operations_shrink config)). }
  by apply Hshape.
Qed.

End Figures.

Lemma sample_frame_well_formed : well_formed sample_frame.
Proof. repeat constructor. Qed.

Lemma empty_cells_never_increase_witness :
  let r := clean_excel_file (H := sample_collaborators) "data.xlsx"
             (mkConfig true true true true true true) None sample_world in
  exists out,
    r.1 = Ok out /\
    stat_empty_cells (final out.2) <= stat_empty_cells (original out.2).
Proof.
  cbv zeta.
  destruct (clean_excel_file (H := sample_collaborators) "data.xlsx"
              (mkConfig true true true true true true) None sample_world).1
    as [out|e] eqn:Hrun; [|vm_compute in Hrun; discriminate Hrun].
  exists out. split; [reflexivity|].
  exact (proj2 (empty_cells_never_increase (H := sample_collaborators)
                  "data.xlsx" (mkConfig true true true true true true)
                  None sample_world) out Hrun).
Defined.

Lemma statistics_are_consistent_witness :
  let r := clean_excel_file (H := sample_collaborators) "data.xlsx"
             (mkConfig true true true false false false) None sample_world in
  exists out,
    r.1 = Ok out /\ consistent (original out.2) /\ consistent (final out.2).
Proof.
  cbv zeta.
  destruct (clean_excel_file (H := sample_collaborators) "data.xlsx"
              (mkConfig true true true false false false) None sample_world).1
    as [out|e] eqn:Hrun; [|vm_compute in Hrun; discriminate Hrun].
  exists out. split; [reflexivity|].
  apply (proj2 (statistics_are_consistent (H := sample_collaborators)
                  "data.xlsx" (mkConfig true true true false false false)
                  None sample_world)); [|exact Hrun].
  intros content df [= <-]. apply sample_frame_well_formed.
Defined.

(** ** The progress callback as an onlooker *)

Lemma logged_app evs1 evs2 : logged (evs1 ++ evs2) = logged evs1 ++ logged evs2.
Proof. apply omap_app. Qed.

Section Onlooker.
Context `{Collaborators}.

Lemma world_eta (w : World) :
  mkWorld (files w) (trace w ++ []) (ticks w) (hook w) = w.
Proof. destruct w. simpl. by rewrite app_nil_r. Qed.

Lemma text_operation_reads_frame_only f r :
  reads_frame_only
    (fun df => let* df_cleaned := lift (map_text_columns f df) in
               run log r then ret df_cleaned).
Proof.
  exists (fun df => match map_text_columns f df with
                    | Ok df' => (Ok df', [Logged r])
                    | Raise e => (Raise e, [])
                    end).
  intros df w. unfold bind, lift.
  destruct (map_text_columns f df) as [df'|e]; [done|].
  simpl. by rewrite world_eta.
Qed.

Lemma operations_read_frame_only config :
  Forall (fun op : operation => reads_frame_only op.1.2) (operations config).
Proof.
  repeat apply Forall_cons_2; try apply Forall_nil_2; cbn [fst snd].
  - by exists (fun df =>
      (Ok (drop_duplicates df),
       [Logged (InfoRemovedDuplicates
                  (Z.of_nat (nrows df) - Z.of_nat (nrows (drop_duplicates df))))])).
  - by exists (fun df =>
      (Ok (dropna_rows df),
       [Logged (InfoRemovedEmptyRows
                  (Z.of_nat (nrows df) - Z.of_nat (nrows (dropna_rows df))))])).
  - by exists (fun df =>
      (Ok (dropna_columns df),
       [Logged (InfoRemovedEmptyColumns
                  (Z.of_nat (length (columns df))
                   - Z.of_nat (length (columns (dropna_columns df)))))])).
  - apply text_operation_reads_frame_only.
  - by exists (fun df =>
      (Ok (rename_normalized df),
       [Logged (InfoNormalized (length (name <$> columns df)))])).
  - apply text_operation_reads_frame_only.
Qed.

(** The loop with a callback that never raises returns or raises what
    the loop without a callback does, and writes the same records. *)
Lemma apply_operations_quiet (c : callback) total_ops ops :
  quiet (Some c) ->
  Forall (fun op : operation => reads_frame_only op.1.2 /\ op.2 = true) ops ->
  total_ops <= 6 ->
  forall i df w w',
    i + length ops = total_ops ->
    logged (trace w) = logged (trace w') ->
    let r := apply_operations (Some c) total_ops i ops df w in
    let r' := apply_operations None total_ops i ops df w' in
    r.1 = r'.1 /\ logged (trace r.2) = logged (trace r'.2).
Proof.
  intros Hquiet Hops Hsix.
  induction ops as [|[[nm func] enabled] rest IH]; intros i df w w' Hlen Hlog;
    cbv zeta.
  - done.
  - apply Forall_cons in Hops as [[[g Hg] Hen] Hrest].
    simpl in Hg, Hen, Hlen. subst enabled. cbn [apply_operations].
    rewrite !bind_run, !Hg.
    destruct (g df) as [[df'|e] evs]; cbn [fst snd].
    2:{ split; [done|]. cbn [trace]. by rewrite !logged_app, Hlog. }
    rewrite !bind_run. unfold lift.
    rewrite percent_complete_exact by lia. rewrite ret_run.
    unfold invoke. cbv zeta. cbn [files trace ticks hook fst snd].
    rewrite !(Hquiet _ _).
    apply (IH Hrest); [lia|]. cbn [trace].
    rewrite !logged_app, Hlog. cbn. by rewrite app_nil_r.
Qed.

(** X8: Passing a progress callback that never raises changes nothing but
    the reports: the run returns the same value or raises the same
    exception as without one, leaves the same files, has read the clock
    as often, and has written the same log records. *)
Theorem progress_callback_is_an_onlooker (file_path : string)
    (config : CleaningConfig) (c : callback) (w : World) :
  quiet (Some c) ->
  let r := clean_excel_file file_path config (Some c) w in
  let r' := clean_excel_file file_path config None w in
  r.1 = r'.1 /\
  files r.2 = files r'.2 /\
  ticks r.2 = ticks r'.2 /\
  logged (trace r.2) = logged (trace r'.2).
Proof.
  intros Hquiet. cbv zeta.
  unfold clean_excel_file, try_log_reraise, clean_excel_file_body.
  rewrite !bind_run, !create_backup_run. cbv zeta.
  set (backup_path := backup_name (clock (ticks w)) file_path).
  destruct (files w !! file_path) as [content|] eqn:Hcontent; [|done].
  destruct (decide (file_path = backup_path)) as [Hsame|Hdiff]; [done|].
  destruct (read_fault file_path) as [what|] eqn:Hread; [done|].
  destruct (write_fault backup_path) as [what|] eqn:Hwrite; [done|].
  rewrite !bind_run, !log_run, !bind_run. cbn [files trace ticks hook].
  unfold read_excel. cbn [files trace ticks hook].
  rewrite lookup_insert_ne by done. rewrite Hcontent, Hread.
  destruct (parse_workbook content) as [what|df] eqn:Hparse; [done|].
  rewrite !bind_run.
  set (w1 := mkWorld (<[backup_path := content]> (files w))
                     (trace w ++ [Logged (InfoLoading file_path)])
                     (S (ticks w)) (hook w)).
  assert (Hops : Forall (fun op : operation =>
                           reads_frame_only op.1.2 /\ op.2 = true)
                        (enabled_operations config)).
  { apply Forall_forall. intros op [Hen Hop]%list_elem_of_filter.
    split; [|done].
    by apply (proj1 (Forall_forall _ _) (operations_read_frame_only config)). }
  destruct (apply_operations_quiet c (length (enabled_operations config))
              (enabled_operations config) Hquiet Hops
              (length_enabled_operations config) 0 df w1 w1 eq_refl eq_refl)
    as [Hres Hlog].
  destruct (apply_operations_run (Some c) (length (enabled_operations config))
              (enabled_operations config) 0 df w1
              (enabled_operations_behave config) eq_refl
              (length_enabled_operations config))
    as (evs & _ & Hfiles & Hticks & _).
  destruct (apply_operations_run None (length (enabled_operations config))
              (enabled_operations config) 0 df w1
              (enabled_operations_behave config) eq_refl
              (length_enabled_operations config))
    as (evs' & _ & Hfiles' & Hticks' & _).
  destruct (apply_operations (Some c) (length (enabled_operations config)) 0
              (enabled_operations config) df w1) as [[df1|e] w2];
    destruct (apply_operations None (length (enabled_operations config)) 0
                (enabled_operations config) df w1) as [[df2|e'] w3];
    cbn [fst snd] in Hres, Hlog, Hfiles, Hticks, Hfiles', Hticks';
    try discriminate Hres.
  2:{ injection Hres as <-. cbn [fst snd files ticks trace log emit].
      rewrite !logged_app, Hlog. by rewrite Hfiles, Hfiles', Hticks, Hticks'. }
  injection Hres as <-. rewrite !save_run. cbv zeta.
  rewrite Hticks, Hticks', Hfiles, Hfiles'.
  destruct (render_workbook df1) as [what|saved].
  { cbn [fst snd files ticks trace log emit]. by rewrite !logged_app, Hlog. }
  destruct (write_fault (cleaned_name (clock (ticks w1)) file_path)).
  { cbn [fst snd files ticks trace log emit]. by rewrite !logged_app, Hlog. }
  cbn [fst snd files ticks trace]. by rewrite !logged_app, Hlog.
Qed.

End Onlooker.

Lemma progress_callback_is_an_onlooker_witness :
  (clean_excel_file (H := sample_collaborators) "data.xlsx"
     (mkConfig true true false true false false) (Some recording_callback)
     sample_world).1
  = (clean_excel_file (H := sample_collaborators) "data.xlsx"
       (mkConfig true true false true false false) None sample_world).1.
Proof.
  apply (progress_callback_is_an_onlooker (H := sample_collaborators)
           "data.xlsx" (mkConfig true true false true false false)
           recording_callback sample_world).
  intros p s. reflexivity.
Defined.

(** ** Headers that normalize to the same text *)

Lemma map_text_columns_raises f df :
  ~ NoDup (name <$> columns df) ->
  map_text_columns f df = Raise AttributeError.
Proof.
  intros Hdup. destruct (map_text_columns f df) as [df'|e] eqn:Hrun.
  - destruct Hdup. by eapply map_text_columns_ok_labels.
  - by rewrite (text_columns_loop_error _ _ _ _ Hrun).
Qed.

Lemma names_rename_normalized df :
  name <$> columns (rename_normalized df)
  = (fun c => LStr (normalize_column_name (name c))) <$> columns df.
Proof. simpl. by rewrite <- list_fmap_compose. Qed.

Lemma NoDup_normalized_labels (cols : list Series) :
  NoDup ((fun c => LStr (normalize_column_name (name c))) <$> cols) <->
  NoDup ((fun c => normalize_column_name (name c)) <$> cols).
Proof.
  rewrite (list_fmap_compose (fun c => normalize_column_name (name c)) LStr).
  split.
  - apply NoDup_fmap_1.
  - apply NoDup_fmap_2. by intros a b [= ->].
Qed.

Section Collisions.
Context `{Collaborators}.

Lemma label_keeping_operations b1 b2 b4 :
  Forall (fun op : operation =>
            logs_once_or_fails op.1.1 op.1.2 /\
            forall df w df' w', op.1.2 df w = (Ok df', w') ->
              name <$> columns df' = name <$> columns df)
    [ ("remove_duplicates", remove_duplicates, b1);
      ("remove_empty_rows", remove_empty_rows, b2);
      ("trim_spaces", trim_spaces, b4) ].
Proof.
  pose proof (operations_behave (mkConfig b1 b2 false b4 false false)) as Hall.
  apply Forall_cons in Hall as [H1 Hall]. apply Forall_cons in Hall as [H2 Hall].
  apply Forall_cons in Hall as [_ Hall]. apply Forall_cons in Hall as [H4 _].
  repeat apply Forall_cons_2; try apply Forall_nil_2; cbn [fst snd] in *;
    (split; [done|]).
  - intros df w df' w' [= <- _]. unfold drop_duplicates.
    destruct (frame_empty df); [done|]. simpl. by rewrite <- list_fmap_compose.
  - intros df w df' w' [= <- _]. simpl. by rewrite <- list_fmap_compose.
  - intros df w df' w' [Hmap _]%text_operation_run.
    pose proof (map_text_columns_ok_labels _ _ _ Hmap) as Hnd.
    rewrite (map_text_columns_spec _ _ Hnd) in Hmap. injection Hmap as <-.
    simpl. rewrite <- list_fmap_compose.
    apply list_fmap_ext. intros _ c _. apply name_text_column.
Qed.

Lemma enabled_operations_split config :
  cfg_remove_empty_columns config = false ->
  cfg_normalize_column_names config = true ->
  cfg_title_case_cells config = true ->
  enabled_operations config
  = filter (fun op : operation => op.2 = true)
      [ ("remove_duplicates", remove_duplicates, cfg_remove_duplicates config);
        ("remove_empty_rows", remove_empty_rows, cfg_remove_empty_rows config);
        ("trim_spaces", trim_spaces, cfg_trim_spaces config) ]
    ++ [ ("normalize_column_names", normalize_column_names, true);
         ("title_case_cells", title_case_cells, true) ].
Proof.
  destruct config as [b1 b2 b3 b4 b5 b6]. simpl. intros -> -> ->.
  by destruct b1, b2, b4.
Qed.

(** The loop without a callback, over operations that keep the labels
    and then the renaming and the title-casing of cells. *)
Lemma apply_operations_collision total_ops ops :
  Forall (fun op : operation =>
            (logs_once_or_fails op.1.1 op.1.2 /\
             forall df w df' w', op.1.2 df w = (Ok df', w') ->
               name <$> columns df' = name <$> columns df) /\
            op.2 = true) ops ->
  forall i df w,
    ~ NoDup ((fun c => normalize_column_name (name c)) <$> columns df) ->
    (apply_operations None total_ops i
       (ops ++ [ ("normalize_column_names", normalize_column_names, true);
                 ("title_case_cells", title_case_cells, true) ]) df w).1
    = Raise AttributeError.
Proof.
  induction ops as [|[[nm func] enabled] rest IH]; intros Hops i df w Hdup.
  - assert (Hraise : map_text_columns Text.title (rename_normalized df)
                     = Raise AttributeError).
    { apply map_text_columns_raises.
      rewrite names_rename_normalized. by rewrite NoDup_normalized_labels. }
    cbn [app apply_operations].
    unfold normalize_column_names, title_case_cells, bind, lift, log, emit, ret.
    by rewrite Hraise.
  - apply Forall_cons in Hops as [[[Hfunc Hkeep] Hen] Hrest].
    simpl in Hfunc, Hkeep, Hen. subst enabled.
    cbn [app apply_operations]. rewrite bind_run.
    destruct (Hfunc df w) as [(df' & rec & Hrun & _)|Hrun]; rewrite Hrun;
      [|done].
    rewrite bind_run, ret_run. apply (IH Hrest).
    assert (Hnames : name <$> columns df' = name <$> columns df)
      by (by eapply Hkeep).
    rewrite (list_fmap_compose name normalize_column_name) in Hdup |- *.
    by rewrite Hnames.
Qed.

(** A run that got as far as the loop and raises there has written the
    backup and nothing else. *)
Lemma clean_excel_file_raises_in_loop file_path config cb w content df e w2 :
  let backup_path := backup_name (clock (ticks w)) file_path in
  files w !! file_path = Some content ->
  file_path <> backup_path ->
  read_fault file_path = None ->
  write_fault backup_path = None ->
  parse_workbook content = inr df ->
  apply_operations cb (length (enabled_operations config)) 0
    (enabled_operations config) df
    (mkWorld (<[backup_path := content]> (files w))
             (trace w ++ [Logged (InfoLoading file_path)])
             (S (ticks w)) (hook w))
  = (Raise e, w2) ->
  let r := clean_excel_file file_path config cb w in
  r.1 = Raise e /\ files r.2 = <[backup_path := content]> (files w).
Proof.
  cbv zeta. intros Hcontent Hdiff Hread Hwrite Hparse Hloop.
  pose proof (apply_operations_run cb (length (enabled_operations config))
                (enabled_operations config) 0 df
                (mkWorld (<[backup_name (clock (ticks w)) file_path := content]>
                            (files w))
                         (trace w ++ [Logged (InfoLoading file_path)])
                         (S (ticks w)) (hook w))
                (enabled_operations_behave config) eq_refl
                (length_enabled_operations config)) as Hrun.
  cbv zeta in Hrun. rewrite Hloop in Hrun.
  destruct Hrun as (evs & _ & Hfiles & _). cbn [fst snd files] in Hfiles.
  unfold clean_excel_file, try_log_reraise, clean_excel_file_body.
  rewrite bind_run, create_backup_run. cbv zeta.
  rewrite Hcontent, decide_False, Hread, Hwrite by done.
  rewrite bind_run, log_run, bind_run. cbn [files trace ticks hook].
  unfold read_excel. cbn [files trace ticks hook].
  rewrite lookup_insert_ne by done. rewrite Hcontent, Hread, Hparse.
  rewrite bind_run, Hloop. done.
Qed.

(** X9: With "normalize column names" and "title-case cells" both chosen
    and "remove empty columns" not, a sheet two of whose headers
    normalize to the same text cannot be cleaned: renaming gives two
    columns one label, the title-casing of cells then raises
    [AttributeError], and the run ends with that error, having written
    the backup and no cleaned copy.  On its own, title-casing after
    renaming returns exactly when the normalized headers are pairwise
    distinct. *)
Theorem colliding_headers_stop_the_run (file_path : string)
    (config : CleaningConfig) (cb : option callback) (w : World)
    (content : list Byte.byte) (df : DataFrame) :
  let backup_path := backup_name (clock (ticks w)) file_path in
  let normalized := (fun c => normalize_column_name (name c)) <$> columns df in
  (exists df1 w1,
     normalize_column_names df w = (Ok df1, w1) /\
     ((exists df2, (title_case_cells df1 w1).1 = Ok df2) <-> NoDup normalized)) /\
  (cfg_normalize_column_names config = true ->
   cfg_title_case_cells config = true ->
   cfg_remove_empty_columns config = false ->
   quiet cb ->
   files w !! file_path = Some content ->
   Text.contains ".xlsx" file_path = true ->
   read_fault file_path = None ->
   write_fault backup_path = None ->
   parse_workbook content = inr df ->
   ~ NoDup normalized ->
   let r := clean_excel_file file_path config cb w in
   r.1 = Raise AttributeError /\
   files r.2 = <[backup_path := content]> (files w)).
Proof.
  cbv zeta. split.
  - eexists _, _. split; [reflexivity|].
    rewrite <- NoDup_normalized_labels, <- names_rename_normalized.
    apply (text_operation_returns Text.title InfoTitleCased).
  - intros Hnorm Htitle Hcols Hquiet Hcontent Hxlsx Hread Hwrite Hparse Hdup.
    destruct (names_with_xlsx (clock (ticks w)) (clock (ticks w)) file_path
                Hxlsx) as (Hdiff & _ & _).
    set (w1 := mkWorld (<[backup_name (clock (ticks w)) file_path := content]>
                          (files w))
                       (trace w ++ [Logged (InfoLoading file_path)])
                       (S (ticks w)) (hook w)).
    assert (Hnone : (apply_operations None (length (enabled_operations config))
                       0 (enabled_operations config) df w1).1
                    = Raise AttributeError).
    { rewrite (enabled_operations_split config Hcols Hnorm Htitle) at 2.
      apply apply_operations_collision; [|done].
      apply Forall_forall. intros op [Hen Hop]%list_elem_of_filter.
      split; [|done].
      by apply (proj1 (Forall_forall _ _)
                  (label_keeping_operations (cfg_remove_duplicates config)
                     (cfg_remove_empty_rows config) (cfg_trim_spaces config))). }
    assert (Hloop : (apply_operations cb (length (enabled_operations config))
                       0 (enabled_operations config) df w1).1
                    = Raise AttributeError).
    { destruct cb as [c|]; [|done]. rewrite <- Hnone.
      apply (apply_operations_quiet c (length (enabled_operations config))
               (enabled_operations config) Hquiet);
        [|apply length_enabled_operations|done|done].
      apply Forall_forall. intros op [Hen Hop]%list_elem_of_filter.
      split; [|done].
      by apply (proj1 (Forall_forall _ _) (operations_read_frame_only config)). }
    destruct (apply_operations cb (length (enabled_operations config))
                0 (enabled_operations config) df w1) as [res w2] eqn:Hrun.
    simpl in Hloop. subst res.
    by apply (clean_excel_file_raises_in_loop file_path config cb w content df
                AttributeError w2).
Qed.

End Collisions.

Lemma colliding_headers_stop_the_run_witness :
  (clean_excel_file (H := colliding_collaborators) "data.xlsx"
     (mkConfig false false false false true true) None colliding_world).1
  = Raise AttributeError.
Proof.
  apply (proj2 (colliding_headers_stop_the_run (H := colliding_collaborators)
                  "data.xlsx" (mkConfig false false false false true true)
                  None colliding_world [Byte.x50; Byte.x4b] colliding_frame));
    try reflexivity; try exact I.
  apply (bool_decide_unpack _). vm_compute. reflexivity.
Defined.

(** ** The window's handlers *)

Section Hook.
Context `{Collaborators}.

(** What every invocation of the callback keeps true of its state stays
    true of it through the loop and through a whole run. *)
Lemma apply_operations_hook (P : hook_state -> Prop) (c : callback)
    total_ops ops :
  (forall p s, P s -> P (c p s).2) ->
  Forall (fun op : operation => logs_once_or_fails op.1.1 op.1.2) ops ->
  forall i df w,
    P (hook w) ->
    P (hook (apply_operations (Some c) total_ops i ops df w).2).
Proof.
  intros Hkeep. induction ops as [|[[nm func] enabled] rest IH];
    intros Hops i df w Hw; [done|].
  apply Forall_cons in Hops as [Hfunc Hrest]. simpl in Hfunc.
  cbn [apply_operations]. destruct enabled; [|by apply (IH Hrest)].
  rewrite bind_run.
  destruct (Hfunc df w) as [(df' & rec & -> & _)| ->]; [|done].
  rewrite !bind_run. unfold lift.
  destruct (percent_complete i total_ops) as [p|e]; [|done].
  unfold invoke. cbv zeta. cbn [files trace ticks hook].
  pose proof (Hkeep p (hook w) Hw) as Hnext.
  destruct (c p (hook w)).1; [done|].
  by apply (IH Hrest).
Qed.

Lemma clean_excel_file_hook (P : hook_state -> Prop) (c : callback)
    file_path config w :
  (forall p s, P s -> P (c p s).2) ->
  P (hook w) ->
  P (hook (clean_excel_file file_path config (Some c) w).2).
Proof.
  intros Hkeep Hw.
  unfold clean_excel_file, try_log_reraise, clean_excel_file_body.
  rewrite bind_run, create_backup_run. cbv zeta.
  destruct (files w !! file_path) as [content|] eqn:Hcontent; [|done].
  destruct (decide (file_path = backup_name (clock (ticks w)) file_path))
    as [Hsame|Hdiff]; [done|].
  destruct (read_fault file_path) as [what|] eqn:Hread; [done|].
  destruct (write_fault (backup_name (clock (ticks w)) file_path))
    as [what|] eqn:Hwrite; [done|].
  rewrite bind_run, log_run, bind_run. cbn [files trace ticks hook].
  unfold read_excel. cbn [files trace ticks hook].
  rewrite lookup_insert_ne by done. rewrite Hcontent, Hread.
  destruct (parse_workbook content) as [what|df]; [done|].
  rewrite bind_run.
  set (w1 := mkWorld _ _ _ _).
  assert (Hloop : P (hook (apply_operations (Some c)
                             (length (enabled_operations config)) 0
                             (enabled_operations config) df w1).2)).
  { apply apply_operations_hook; [done| |done].
    eapply Forall_impl; [apply enabled_operations_behave|]. by intros op [? _]. }
  destruct (apply_operations (Some c) (length (enabled_operations config)) 0
              (enabled_operations config) df w1) as [[df'|e] w2];
    cbn [fst snd] in Hloop; [|exact Hloop].
  rewrite save_run. cbv zeta.
  destruct (render_workbook df'); [exact Hloop|].
  destruct (write_fault (cleaned_name (clock (ticks w2)) file_path));
    exact Hloop.
Qed.

End Hook.

Lemma lookup_create_option_vars nm :
  nm ∈ operation_names -> create_option_vars !! nm = Some false.
Proof.
  unfold operation_names.
  rewrite !elem_of_cons, elem_of_nil.
  intros [->|[->|[->|[->|[->|[->|[]]]]]]]; by vm_compute.
Qed.

Lemma get_cleaning_config_lookup gui config :
  get_cleaning_config gui = Some config ->
  (fun nm => option_vars gui !! nm) <$> operation_names
  = Some <$> flags config.
Proof.
  unfold get_cleaning_config. intros Hget.
  destruct (option_vars gui !! "remove_duplicates") as [b1|] eqn:H1; [|done].
  destruct (option_vars gui !! "remove_empty_rows") as [b2|] eqn:H2; [|done].
  destruct (option_vars gui !! "remove_empty_columns") as [b3|] eqn:H3; [|done].
  destruct (option_vars gui !! "trim_spaces") as [b4|] eqn:H4; [|done].
  destruct (option_vars gui !! "normalize_column_names") as [b5|] eqn:H5;
    [|done].
  destruct (option_vars gui !! "title_case_cells") as [b6|] eqn:H6; [|done].
  simpl in Hget. injection Hget as <-.
  cbn [fmap list_fmap operation_names flags cfg_remove_duplicates
       cfg_remove_empty_rows cfg_remove_empty_columns cfg_trim_spaces
       cfg_normalize_column_names cfg_title_case_cells].
  by rewrite H1, H2, H3, H4, H5, H6.
Qed.

Lemma get_cleaning_config_constant gui b :
  (forall nm, nm ∈ operation_names -> option_vars gui !! nm = Some b) ->
  get_cleaning_config gui = Some (mkConfig b b b b b b).
Proof.
  intros Hall. unfold get_cleaning_config.
  rewrite !Hall; [done| | | | | |]; unfold operation_names;
    rewrite !elem_of_cons; tauto.
Qed.

Lemma get_cleaning_config_is_Some gui :
  is_Some (get_cleaning_config gui) <-> has_all_options gui.
Proof.
  split.
  - intros [config Hget] nm Hnm.
    pose proof (get_cleaning_config_lookup gui config Hget) as Hlook.
    apply list_elem_of_lookup_1 in Hnm as [i Hi].
    assert (Hi' : ((fun nm => option_vars gui !! nm) <$> operation_names) !! i
                  = Some (option_vars gui !! nm))
      by (by rewrite list_lookup_fmap, Hi).
    rewrite Hlook, list_lookup_fmap in Hi'.
    destruct (flags config !! i) as [b|]; [|done].
    injection Hi' as <-. by eexists.
  - intros Hall. unfold get_cleaning_config.
    destruct (Hall "remove_duplicates") as [b1 ->];
      [unfold operation_names; rewrite !elem_of_cons; tauto|].
    destruct (Hall "remove_empty_rows") as [b2 ->];
      [unfold operation_names; rewrite !elem_of_cons; tauto|].
    destruct (Hall "remove_empty_columns") as [b3 ->];
      [unfold operation_names; rewrite !elem_of_cons; tauto|].
    destruct (Hall "trim_spaces") as [b4 ->];
      [unfold operation_names; rewrite !elem_of_cons; tauto|].
    destruct (Hall "normalize_column_names") as [b5 ->];
      [unfold operation_names; rewrite !elem_of_cons; tauto|].
    destruct (Hall "title_case_cells") as [b6 ->];
      [unfold operation_names; rewrite !elem_of_cons; tauto|].
    by eexists.
Qed.

Lemma lookup_set_all (b : bool) gui nm :
  is_Some (option_vars gui !! nm) ->
  ((fun _ : bool => b) <$> option_vars gui) !! nm = Some b.
Proof. intros [b0 Hb0]. by rewrite lookup_fmap, Hb0. Qed.

(** X10: The dictionary of option variables is created with the six keys
    [get_cleaning_config] reads, all off, and "select all" and "clear
    all" keep them: read after "select all" the configuration has every
    flag on, after "clear all" it is the default one with every flag
    off.  [get_cleaning_config] raises [KeyError] exactly when a key
    is missing. *)
Theorem option_buttons_set_the_configuration (gui : Widgets) :
  (is_Some (get_cleaning_config gui) <-> has_all_options gui) /\
  get_cleaning_config (set_option_vars create_option_vars gui)
  = Some default_config /\
  (has_all_options gui ->
   has_all_options (select_all_options gui) /\
   has_all_options (clear_all_options gui) /\
   get_cleaning_config (select_all_options gui)
   = Some (mkConfig true true true true true true) /\
   get_cleaning_config (clear_all_options gui) = Some default_config /\
   get_cleaning_config (clear_all_options (select_all_options gui))
   = Some default_config).
Proof.
  split; [apply get_cleaning_config_is_Some|]. split.
  - apply (get_cleaning_config_constant _ false). intros nm Hnm.
    by apply lookup_create_option_vars.
  - intros Hall.
    assert (Hon : forall nm, nm ∈ operation_names ->
              option_vars (select_all_options gui) !! nm = Some true)
      by (intros nm Hnm; apply lookup_set_all, Hall, Hnm).
    assert (Hoff : forall nm, nm ∈ operation_names ->
              option_vars (clear_all_options gui) !! nm = Some false)
      by (intros nm Hnm; apply lookup_set_all, Hall, Hnm).
    split; [|split; [|split; [|split]]].
    + intros nm Hnm. rewrite Hon by done. by eexists.
    + intros nm Hnm. rewrite Hoff by done. by eexists.
    + by apply get_cleaning_config_constant.
    + by apply (get_cleaning_config_constant _ false).
    + apply (get_cleaning_config_constant _ false). intros nm Hnm.
      apply lookup_set_all. rewrite Hon by done. by eexists.
Qed.

Lemma option_buttons_set_the_configuration_witness :
  get_cleaning_config (clear_all_options (select_all_options sample_widgets))
  = Some default_config.
Proof.
  apply (option_buttons_set_the_configuration sample_widgets).
  intros nm Hnm. unfold sample_widgets. cbn [option_vars].
  rewrite (lookup_create_option_vars nm Hnm). by eexists.
Defined.

Section Handlers.
Context (parse : list Byte.byte -> string + DataFrame)
        (render : DataFrame -> string + list Byte.byte)
        (rfault wfault : string -> option string)
        (now_shows : nat -> string).

Local Existing Instance gui_collaborators.


(** X11: Cancelling the file dialog leaves everything as it was.  With a file
    chosen and every option off (as "clear all" leaves them), the
    handler shows the "No Options Selected" warning and returns: the
    pipeline is not started, so no file is written, nothing is logged,
    the clock is not read, and the button, the progress bar and the
    status bar are as before. *)
Theorem cleaning_needs_a_file_and_an_option (file_path : string)
    (w : @World (gui_collaborators parse render rfault wfault now_shows)) :
  select_and_clean_file parse render rfault wfault now_shows "" w = Some w /\
  (file_path <> "" ->
   get_cleaning_config (hook w) = Some default_config ->
   exists w',
     select_and_clean_file parse render rfault wfault now_shows file_path w
     = Some w' /\
     files w' = files w /\ trace w' = trace w /\ ticks w' = ticks w /\
     hook w'
     = show (ShowWarning "No Options Selected"
               "Please select at least one cleaning option before proceeding.")
            (hook w)) /\
  (file_path <> "" ->
   has_all_options (hook w) ->
   exists w',
     select_and_clean_file parse render rfault wfault now_shows file_path
       (with_widgets parse render rfault wfault now_shows
          (clear_all_options (hook w)) w)
     = Some w' /\
     files w' = files w /\ trace w' = trace w /\ ticks w' = ticks w /\
     dialogs (hook w') <> dialogs (hook w)).
Proof.
  split; [done|]. split.
  - intros Hpath Hconfig. unfold select_and_clean_file.
    rewrite decide_False by done. rewrite Hconfig. cbn. by eexists.
  - intros Hpath Hall. unfold select_and_clean_file, with_widgets.
    rewrite decide_False by done. cbn [hook].
    assert (Hconfig : get_cleaning_config (clear_all_options (hook w))
                      = Some default_config).
    { apply (get_cleaning_config_constant _ false). intros nm Hnm.
      apply lookup_set_all, Hall, Hnm. }
    rewrite Hconfig. cbn. eexists. split; [reflexivity|].
    cbn. split; [done|]. split; [done|]. split; [done|].
    intros Heq. apply (f_equal length) in Heq.
    rewrite length_app in Heq. simpl in Heq. lia.
Qed.

(** The [try] block, run: the pipeline is called on the world with the
    button disabled, and what follows happens only if it returns. *)
Lemma cleaning_attempt_run file_path config
    (w : @World (gui_collaborators parse render rfault wfault now_shows)) :
  cleaning_attempt parse render rfault wfault now_shows file_path config w
  = match clean_excel_file file_path config
            (Some (progress_callback parse render rfault wfault now_shows))
            (with_widgets parse render rfault wfault now_shows
               (set_progress_var 0
                  (update_status "Cleaning in progress..."
                     (configure_clean_btn Disabled (hook w)))) w) with
    | (Ok returned, w2) =>
        (Ok tt,
         with_widgets parse render rfault wfault now_shows
           (update_status "Ready"
              (show (ShowResults returned.1.1 returned.1.2 returned.2)
                 (configure_progress_label "Cleaning completed successfully!"
                    (set_progress_var 100 (hook w2))))) w2)
    | (Raise e, w2) => (Raise e, w2)
    end.
Proof.
  unfold cleaning_attempt, bind, on_widgets, with_widgets.
  cbn [files trace ticks hook].
  by destruct (clean_excel_file _ _ _ _) as [[returned|e] w2].
Qed.

(** X12: With a file chosen and an option on, the handler runs the pipeline
    on that file with the configuration read off the check boxes and
    [update_progress] as callback (which never raises), and returns
    whatever the pipeline did: no exception leaves it and the button is
    enabled again.  After a run that returned, the progress bar stands
    at 100, the status reads "Ready" and the results window has been
    shown with the paths and statistics returned; after a run that
    raised, the error box has been shown with that exception, the
    progress bar is back at 0 and the status reads "Error occurred".
    The check boxes are as they were. *)
Theorem select_and_clean_file_reports_the_run (file_path : string)
    (config : CleaningConfig)
    (w : @World (gui_collaborators parse render rfault wfault now_shows)) :
  file_path <> "" ->
  get_cleaning_config (hook w) = Some config ->
  any (flags config) = true ->
  let started :=
    with_widgets parse render rfault wfault now_shows
      (set_progress_var 0
         (update_status "Cleaning in progress..."
            (configure_clean_btn Disabled (hook w)))) w in
  let r := clean_excel_file file_path config (Some (progress_callback parse render rfault wfault now_shows)) started in
  quiet (Some (progress_callback parse render rfault wfault now_shows)) /\
  exists w',
    select_and_clean_file parse render rfault wfault now_shows file_path w
    = Some w' /\
    files w' = files r.2 /\ trace w' = trace r.2 /\ ticks w' = ticks r.2 /\
    clean_btn (hook w') = Normal /\
    option_vars (hook w') = option_vars (hook w) /\
    match r.1 with
    | Ok returned =>
        progress_var (hook w') = 100%Z /\
        progress_label (hook w') = "Cleaning completed successfully!" /\
        status_label (hook w') = "Ready" /\
        dialogs (hook w')
        = dialogs (hook w)
          ++ [ShowResults returned.1.1 returned.1.2 returned.2]
    | Raise e =>
        progress_var (hook w') = 0%Z /\
        progress_label (hook w') = "Ready to clean your Excel files" /\
        status_label (hook w') = "Error occurred" /\
        dialogs (hook w') = dialogs (hook w) ++ [ShowError e]
    end.
Proof.
  intros Hpath Hconfig Hany. cbv zeta. split; [done|].
  unfold select_and_clean_file. rewrite decide_False by done.
  rewrite Hconfig. cbn [mbind option_bind]. rewrite Hany. cbn [negb].
  rewrite cleaning_attempt_run.
  set (started := with_widgets _ _ _ _ _ _ w).
  pose proof (clean_excel_file_hook
                (H := gui_collaborators parse render rfault wfault now_shows)
                (fun gui : Widgets =>
                   option_vars gui = option_vars (hook w) /\
                   dialogs gui = dialogs (hook w))
                (progress_callback parse render rfault wfault now_shows)
                file_path config started) as Hhook.
  cbv beta in Hhook.
  destruct Hhook as [Hvars Hdialogs]; [by intros p s [? ?] | done |].
  destruct (clean_excel_file file_path config
              (Some (progress_callback parse render rfault wfault now_shows))
              started) as [[returned|e] w2]; cbn [fst snd] in *.
  - eexists. split; [reflexivity|].
    unfold on_widgets, with_widgets. cbn. by rewrite Hdialogs.
  - eexists. split; [reflexivity|].
    unfold cleaning_failed, bind, on_widgets. cbn. by rewrite Hdialogs.
Qed.

End Handlers.

Lemma cleaning_needs_a_file_and_an_option_witness :
  exists w',
    select_and_clean_file (fun _ => inr sample_frame)
      (fun df => inr ((fun _ => Byte.x00) <$> columns df))
      (fun _ => None) (fun _ => None) (fun _ => "20240101_120000")
      "data.xlsx" sample_window = Some w' /\
    files w' = files sample_window.
Proof.
  destruct (proj1 (proj2 (cleaning_needs_a_file_and_an_option
                            (fun _ => inr sample_frame)
                            (fun df => inr ((fun _ => Byte.x00) <$> columns df))
                            (fun _ => None) (fun _ => None)
                            (fun _ => "20240101_120000")
                            "data.xlsx" sample_window)))
    as (w' & Hrun & Hfiles & _); [discriminate | reflexivity |].
  by exists w'.
Defined.

Lemma select_and_clean_file_reports_the_run_witness :
  exists w',
    select_and_clean_file (fun _ => inr sample_frame)
      (fun df => inr ((fun _ => Byte.x00) <$> columns df))
      (fun _ => None) (fun _ => None) (fun _ => "20240101_120000")
      "data.xlsx"
      (mkWorld (H := sample_gui) (files sample_window) [] 0
               (select_all_options sample_widgets))
    = Some w' /\
    clean_btn (hook w') = Normal.
Proof.
  destruct (select_and_clean_file_reports_the_run
              (fun _ => inr sample_frame)
              (fun df => inr ((fun _ => Byte.x00) <$> columns df))
              (fun _ => None) (fun _ => None) (fun _ => "20240101_120000")
              "data.xlsx" (mkConfig true true true true true true)
              (mkWorld (H := sample_gui) (files sample_window) [] 0
                       (select_all_options sample_widgets)))
    as (_ & w' & Hrun & _ & _ & _ & Hbtn & _);
    [discriminate | reflexivity | reflexivity |].
  by exists w'.
Defined.

(** ** What the cleaned sheet is free of *)

Lemma all_null_false (vs : list cell) :
  all_null vs = false <-> exists v, v ∈ vs /\ isnull v = false.
Proof.
  unfold all_null. induction vs as [|v vs IH]; simpl.
  - split; [done|]. intros (v & Hv & _). by inversion Hv.
  - destruct (isnull v) eqn:Hv; simpl.
    + rewrite IH. split.
      * intros (v' & Hin & Hnn). exists v'. split; [by right|done].
      * intros (v' & Hin & Hnn). apply elem_of_cons in Hin as [->|Hin];
          [congruence|]. by exists v'.
    + split; [|done]. intros _. exists v. split; [left|done].
Qed.

Lemma present_cell_lookup (vs : list cell) i :
  isnull (nth i vs NaN) = false ->
  exists v, vs !! i = Some v /\ isnull v = false.
Proof.
  rewrite nth_lookup. destruct (vs !! i) as [v|]; [|done].
  intros Hv. by exists v.
Qed.

Lemma row_at_has_value df i :
  all_null (row_at df i) = false <-> row_has_value df i.
Proof.
  rewrite all_null_false. unfold row_at, row_has_value. split.
  - intros (v & (c & -> & Hc)%list_elem_of_fmap & Hv). by exists c.
  - intros (c & Hc & Hv). exists (nth i (values c) NaN). split; [|done].
    by apply (list_elem_of_fmap_2 (fun c => nth i (values c) NaN)).
Qed.

Lemma no_empty_row_has_values df :
  no_empty_row df <-> forall i, i < nrows df -> row_has_value df i.
Proof.
  unfold no_empty_row, rows. rewrite Forall_fmap, Forall_forall. split.
  - intros Hall i Hi. apply row_at_has_value. apply Hall.
    apply elem_of_seq. lia.
  - intros Hall i Hi%elem_of_seq. apply row_at_has_value, Hall. lia.
Qed.

Lemma no_empty_row_dropna_rows df :
  well_formed df -> no_empty_row (dropna_rows df).
Proof.
  intros Hwf. unfold no_empty_row. rewrite rows_dropna_rows by done.
  apply Forall_forall. by intros r [Hr _]%list_elem_of_filter.
Qed.

Lemma no_empty_column_dropna_columns df : no_empty_column (dropna_columns df).
Proof.
  unfold no_empty_column. rewrite columns_dropna_columns.
  apply Forall_forall. by intros c [Hc _]%list_elem_of_filter.
Qed.

Lemma no_empty_row_dropna_columns df :
  no_empty_row df -> no_empty_row (dropna_columns df).
Proof.
  rewrite !no_empty_row_has_values. intros Hall i Hi.
  destruct (Hall i Hi) as (c & Hc & Hv). exists c. split; [|done].
  rewrite columns_dropna_columns. apply list_elem_of_filter. split; [|done].
  destruct (present_cell_lookup _ _ Hv) as (v & Hlook & Hnn).
  apply all_null_false. exists v. split; [|done].
  by apply list_elem_of_lookup_2 in Hlook.
Qed.

Lemma present_cell_text_column f c i :
  isnull (nth i (values c) NaN) = false ->
  isnull (nth i (values (text_column f c)) NaN) = false.
Proof.
  intros Hv. unfold text_column. case_decide; [|done]. simpl.
  destruct (present_cell_lookup _ _ Hv) as (v & Hlook & _).
  rewrite nth_lookup. unfold astype_str_then.
  by rewrite list_lookup_fmap, Hlook.
Qed.

Lemma no_empty_row_map_text_columns f df df' :
  map_text_columns f df = Ok df' -> no_empty_row df -> no_empty_row df'.
Proof.
  intros Hrun.
  pose proof (map_text_columns_ok_labels _ _ _ Hrun) as Hnd.
  rewrite (map_text_columns_spec _ _ Hnd) in Hrun. injection Hrun as <-.
  rewrite !no_empty_row_has_values. simpl. intros Hall i Hi.
  destruct (Hall i Hi) as (c & Hc & Hv). exists (text_column f c).
  split; [by apply list_elem_of_fmap_2 | by apply present_cell_text_column].
Qed.

Lemma no_empty_column_map_text_columns f df df' :
  map_text_columns f df = Ok df' -> no_empty_column df -> no_empty_column df'.
Proof.
  intros Hrun.
  pose proof (map_text_columns_ok_labels _ _ _ Hrun) as Hnd.
  rewrite (map_text_columns_spec _ _ Hnd) in Hrun. injection Hrun as <-.
  unfold no_empty_column. simpl. rewrite Forall_fmap. intros Hall.
  eapply Forall_impl; [exact Hall|].
  intros c (v & Hin & Hv)%all_null_false. simpl.
  apply list_elem_of_lookup_1 in Hin as [i Hi].
  apply all_null_false. exists (nth i (values (text_column f c)) NaN).
  assert (Hnth : isnull (nth i (values c) NaN) = false)
    by (by rewrite nth_lookup, Hi).
  pose proof (present_cell_text_column f c i Hnth) as Hnew.
  split; [|done].
  destruct (present_cell_lookup _ _ Hnew) as (v' & Hlook & _).
  rewrite nth_lookup, Hlook. simpl. by apply list_elem_of_lookup_2 in Hlook.
Qed.

Lemma no_empty_row_rename_normalized df :
  no_empty_row df -> no_empty_row (rename_normalized df).
Proof.
  rewrite !no_empty_row_has_values. simpl. intros Hall i Hi.
  destruct (Hall i Hi) as (c & Hc & Hv).
  exists (mkSeries (LStr (normalize_column_name (name c))) (dtype c) (values c)).
  split; [|done].
  by apply (list_elem_of_fmap_2
              (fun c => mkSeries (LStr (normalize_column_name (name c)))
                                 (dtype c) (values c))).
Qed.

Lemma no_empty_column_rename_normalized df :
  no_empty_column df -> no_empty_column (rename_normalized df).
Proof.
  unfold no_empty_column. simpl. rewrite Forall_fmap. intros Hall.
  eapply Forall_impl; [exact Hall|]. done.
Qed.

Section Free.
Context `{Collaborators}.

(** The loop over two lists, one after the other. *)
Lemma apply_operations_app cb total_ops ops1 ops2 :
  forall i df w,
    apply_operations cb total_ops i (ops1 ++ ops2) df w
    = match apply_operations cb total_ops i ops1 df w with
      | (Ok df1, w1) =>
          apply_operations cb total_ops (i + length ops1) ops2 df1 w1
      | (Raise e, w1) => (Raise e, w1)
      end.
Proof.
  induction ops1 as [|[[nm func] enabled] rest IH]; intros i df w.
  - simpl. by rewrite Nat.add_0_r.
  - cbn [app apply_operations length].
    replace (i + S (length rest)) with (S i + length rest) by lia.
    destruct enabled; [|apply IH].
    rewrite !bind_run. destruct (func df w) as [[df1|e] w1]; [|done].
    rewrite !bind_run.
    destruct (match cb with
              | Some cb0 =>
                  let* p := lift (percent_complete i total_ops) in invoke cb0 p
              | None => ret ()
              end w1) as [[[]|e] w2]; [apply IH|done].
Qed.

Lemma enabled_operations_around_rows config :
  cfg_remove_empty_rows config = true ->
  enabled_operations config
  = filter (fun op : operation => op.2 = true)
      [ ("remove_duplicates", remove_duplicates, cfg_remove_duplicates config) ]
    ++ [ ("remove_empty_rows", remove_empty_rows, true) ]
    ++ filter (fun op : operation => op.2 = true)
         [ ("remove_empty_columns", remove_empty_columns,
              cfg_remove_empty_columns config);
           ("trim_spaces", trim_spaces, cfg_trim_spaces config);
           ("normalize_column_names", normalize_column_names,
              cfg_normalize_column_names config);
           ("title_case_cells", title_case_cells, cfg_title_case_cells config) ].
Proof.
  destruct config as [b1 b2 b3 b4 b5 b6]. simpl. intros ->.
  by destruct b1, b3, b4, b5, b6.
Qed.

Lemma enabled_operations_around_columns config :
  cfg_remove_empty_columns config = true ->
  enabled_operations config
  = filter (fun op : operation => op.2 = true)
      [ ("remove_duplicates", remove_duplicates, cfg_remove_duplicates config);
        ("remove_empty_rows", remove_empty_rows, cfg_remove_empty_rows config) ]
    ++ [ ("remove_empty_columns", remove_empty_columns, true) ]
    ++ filter (fun op : operation => op.2 = true)
         [ ("trim_spaces", trim_spaces, cfg_trim_spaces config);
           ("normalize_column_names", normalize_column_names,
              cfg_normalize_column_names config);
           ("title_case_cells", title_case_cells, cfg_title_case_cells config) ].
Proof.
  destruct config as [b1 b2 b3 b4 b5 b6]. simpl. intros ->.
  by destruct b1, b2, b4, b5, b6.
Qed.

Lemma later_operations_keep_rows b3 b4 b5 b6 :
  Forall (fun op : operation =>
            forall df w df' w', op.1.2 df w = (Ok df', w') ->
              no_empty_row df -> no_empty_row df')
    [ ("remove_empty_columns", remove_empty_columns, b3);
      ("trim_spaces", trim_spaces, b4);
      ("normalize_column_names", normalize_column_names, b5);
      ("title_case_cells", title_case_cells, b6) ].
Proof.
  repeat apply Forall_cons_2; try apply Forall_nil_2; cbn [fst snd].
  - intros df w df' w' [= <- _]. apply no_empty_row_dropna_columns.
  - intros df w df' w' [Hmap _]%text_operation_run.
    by apply (no_empty_row_map_text_columns Text.strip).
  - intros df w df' w' [= <- _]. apply no_empty_row_rename_normalized.
  - intros df w df' w' [Hmap _]%text_operation_run.
    by apply (no_empty_row_map_text_columns Text.title).
Qed.

Lemma later_operations_keep_columns b4 b5 b6 :
  Forall (fun op : operation =>
            forall df w df' w', op.1.2 df w = (Ok df', w') ->
              no_empty_column df -> no_empty_column df')
    [ ("trim_spaces", trim_spaces, b4);
      ("normalize_column_names", normalize_column_names, b5);
      ("title_case_cells", title_case_cells, b6) ].
Proof.
  repeat apply Forall_cons_2; try apply Forall_nil_2; cbn [fst snd].
  - intros df w df' w' [Hmap _]%text_operation_run.
    by apply (no_empty_column_map_text_columns Text.strip).
  - intros df w df' w' [= <- _]. apply no_empty_column_rename_normalized.
  - intros df w df' w' [Hmap _]%text_operation_run.
    by apply (no_empty_column_map_text_columns Text.title).
Qed.

(** The loop, once an operation in the middle has established what the
    later ones keep. *)
Lemma apply_operations_establishes (Q : DataFrame -> Prop) cb total_ops
    before (op : operation) after :
  Forall (fun op : operation =>
            forall df w df' w', op.1.2 df w = (Ok df', w') ->
              well_formed df -> well_formed df') (before ++ op :: after) ->
  op.2 = true ->
  (forall df w df' w', op.1.2 df w = (Ok df', w') -> well_formed df -> Q df') ->
  Forall (fun op : operation =>
            forall df w df' w', op.1.2 df w = (Ok df', w') -> Q df -> Q df')
         after ->
  forall df w df' w',
    well_formed df ->
    apply_operations cb total_ops 0 (before ++ op :: after) df w = (Ok df', w') ->
    Q df'.
Proof.
  intros Hwf Hen Hop Hafter df w df' w' Hdf.
  apply Forall_app in Hwf as [Hwf1 Hwf2].
  rewrite apply_operations_app.
  destruct (apply_operations cb total_ops 0 before df w) as [[df1|e] w1]
    eqn:Hbefore; [|done].
  assert (Hdf1 : well_formed df1).
  { eapply (apply_operations_related (fun a b => well_formed a -> well_formed b));
      [done | by auto | exact Hwf1 | exact Hbefore | exact Hdf]. }
  destruct op as [[nm func] enabled]. simpl in Hen, Hop. subst enabled.
  cbn [apply_operations]. rewrite bind_run.
  destruct (func df1 w1) as [[df2|e] w2] eqn:Hfunc; [|done].
  rewrite bind_run.
  destruct (match cb with
            | Some cb0 =>
                let* p := lift (percent_complete (0 + length before) total_ops)
                in invoke cb0 p
            | None => ret ()
            end w2) as [[[]|e] w3]; [|done].
  intros Hrest.
  eapply (apply_operations_related (fun a b => Q a -> Q b));
    [done | by auto | exact Hafter | exact Hrest | by eapply Hop].
Qed.

(** X13: When the reader returns frames whose columns all have one cell per
    row, the sheet a returning run writes to the cleaned path is the
    rendering of a frame that has no row of missing values only if
    "remove empty rows" was chosen, and no column of missing values only
    if "remove empty columns" was chosen: no later operation of the
    fixed order brings such a row or column back. *)
Theorem cleaned_sheet_is_free_of_what_was_removed (file_path : string)
    (config : CleaningConfig) (cb : option callback) (w : World) :
  (forall content df, parse_workbook content = inr df -> well_formed df) ->
  forall out,
    (clean_excel_file file_path config cb w).1 = Ok out ->
    exists df' saved,
      render_workbook df' = inr saved /\
      files (clean_excel_file file_path config cb w).2 !! out.1.2 = Some saved /\
      final out.2 = _get_dataframe_stats df' /\
      (cfg_remove_empty_rows config = true -> no_empty_row df') /\
      (cfg_remove_empty_columns config = true -> no_empty_column df').
Proof.
  intros Hparse out Hout.
  destruct (clean_excel_file_run file_path config cb w) as (evs & _ & Hres).
  rewrite Hout in Hres.
  destruct Hres as (_ & content & df & df' & saved & w2 & _ & _ & Hdf & Hloop
                    & Hrender & -> & Hfiles).
  exists df', saved. split; [done|]. split.
  { rewrite Hfiles. cbn [fst snd]. apply lookup_insert_eq. }
  split; [done|].
  pose proof (Hparse content df Hdf) as Hwf.
  pose proof (operations_shrink config) as Hshrink.
  assert (Hkeep : forall ops : list operation,
            ops ⊆ operations config ->
            Forall (fun op : operation =>
                      forall df w df' w', op.1.2 df w = (Ok df', w') ->
                        well_formed df -> well_formed df') ops).
  { intros ops Hsub. apply Forall_forall. intros op Hop df0 w0 df1 w1 Hrun.
    by apply (proj1 (Forall_forall _ _) Hshrink op (Hsub op Hop) df0 w0 df1 w1). }
  assert (Hsub : enabled_operations config ⊆ operations config)
    by (intros op [_ Hop]%list_elem_of_filter; exact Hop).
  split.
  - intros Hrows.
    pose proof (enabled_operations_around_rows config Hrows) as Hsplit.
    rewrite Hsplit in Hloop at 2.
    eapply (apply_operations_establishes no_empty_row);
      [ | | | | exact Hwf | exact Hloop].
    + pose proof (Hkeep _ Hsub) as Hall. rewrite Hsplit in Hall. exact Hall.
    + done.
    + intros df0 w0 df1 w1 [= <- _]. apply no_empty_row_dropna_rows.
    + apply Forall_forall. intros op [_ Hop]%list_elem_of_filter.
      by apply (proj1 (Forall_forall _ _)
                  (later_operations_keep_rows (cfg_remove_empty_columns config)
                     (cfg_trim_spaces config) (cfg_normalize_column_names config)
                     (cfg_title_case_cells config))).
  - intros Hcols.
    pose proof (enabled_operations_around_columns config Hcols) as Hsplit.
    rewrite Hsplit in Hloop at 2.
    eapply (apply_operations_establishes no_empty_column);
      [ | | | | exact Hwf | exact Hloop].
    + pose proof (Hkeep _ Hsub) as Hall. rewrite Hsplit in Hall. exact Hall.
    + done.
    + intros df0 w0 df1 w1 [= <- _] _. apply no_empty_column_dropna_columns.
    + apply Forall_forall. intros op [_ Hop]%list_elem_of_filter.
      by apply (proj1 (Forall_forall _ _)
                  (later_operations_keep_columns (cfg_trim_spaces config)
                     (cfg_normalize_column_names config)
                     (cfg_title_case_cells config))).
Qed.

End Free.

Lemma cleaned_sheet_is_free_of_what_was_removed_witness :
  let r := clean_excel_file (H := sample_collaborators) "data.xlsx"
             (mkConfig true true true true true true) None sample_world in
  exists out df',
    r.1 = Ok out /\
    final out.2 = _get_dataframe_stats df' /\
    no_empty_row df' /\ no_empty_column df'.
Proof.
  cbv zeta.
  destruct (clean_excel_file (H := sample_collaborators) "data.xlsx"
              (mkConfig true true true true true true) None sample_world).1
    as [out|e] eqn:Hrun; [|vm_compute in Hrun; discriminate Hrun].
  destruct (cleaned_sheet_is_free_of_what_was_removed
              (H := sample_collaborators) "data.xlsx"
              (mkConfig true true true true true true) None sample_world
              (fun content df Hdf =>
                 eq_ind sample_frame well_formed sample_frame_well_formed df
                        (f_equal (fun x => match x with
                                           | inr d => d
                                           | inl _ => sample_frame
                                           end) Hdf))
              out Hrun)
    as (df' & saved & _ & _ & Hstats & Hrows & Hcols).
  exists out, df'. split; [reflexivity|]. split; [exact Hstats|].
  split; [exact (Hrows eq_refl) | exact (Hcols eq_refl)].
Defined.

(** ** Empty rows and empty columns, in either order *)

Lemma filter_fmap_elementwise {A B} (P : B -> Prop) (Q : A -> Prop)
    `{forall y, Decision (P y)} `{forall x, Decision (Q x)}
    (g : A -> B) (l : list A) :
  (forall x, x ∈ l -> P (g x) <-> Q x) ->
  filter P (g <$> l) = g <$> filter Q l.
Proof.
  induction l as [|x l IH]; intros Hl; [done|].
  rewrite fmap_cons, !filter_cons.
  pose proof (Hl x ltac:(left)) as Hx.
  rewrite IH by (intros y Hy; apply Hl; by right).
  destruct (decide (P (g x))), (decide (Q x)); try tauto; done.
Qed.

Lemma keep_by_elem {A} mask (l : list A) i x :
  mask !! i = Some true -> l !! i = Some x -> x ∈ keep_by mask l.
Proof.
  revert l i. induction mask as [|b mask IH]; intros [|y l] [|i]; try done.
  - simpl. intros [= ->] [= ->]. left.
  - simpl. intros Hm Hl. destruct b; [right|]; by eapply IH.
Qed.

Lemma row_has_value_dropna_columns df i :
  row_has_value (dropna_columns df) i <-> row_has_value df i.
Proof.
  unfold row_has_value. rewrite columns_dropna_columns. split.
  - intros (c & [_ Hc]%list_elem_of_filter & Hv). by exists c.
  - intros (c & Hc & Hv). exists c. split; [|done].
    apply list_elem_of_filter. split; [|done].
    destruct (present_cell_lookup _ _ Hv) as (v & Hlook & Hnn).
    apply all_null_false. exists v. split; [|done].
    by apply list_elem_of_lookup_2 in Hlook.
Qed.

Lemma rows_mask_dropna_columns df :
  existsb notna <$> rows (dropna_columns df) = existsb notna <$> rows df.
Proof.
  unfold rows. cbn [nrows dropna_columns]. rewrite <- !list_fmap_compose.
  apply list_fmap_ext. intros _ i _. unfold compose.
  rewrite !existsb_notna. f_equal.
  pose proof (row_at_has_value df i) as Hdf.
  pose proof (row_at_has_value (dropna_columns df) i) as Hdc.
  pose proof (row_has_value_dropna_columns df i) as Hboth.
  destruct (all_null (row_at df i)),
    (all_null (row_at (dropna_columns df) i)); try done.
  - assert (Habs : true = false) by (apply Hdf, Hboth, Hdc; done). done.
  - assert (Habs : true = false) by (apply Hdc, Hboth, Hdf; done). done.
Qed.

Lemma dropna_rows_columns_commute df :
  well_formed df ->
  dropna_columns (dropna_rows df) = dropna_rows (dropna_columns df).
Proof.
  intros Hwf. unfold dropna_rows at 2. rewrite rows_mask_dropna_columns.
  unfold dropna_rows, dropna_columns, select_rows. cbn [nrows columns].
  f_equal.
  apply (filter_fmap_elementwise
           (fun c => existsb notna (values c) = true)
           (fun c => existsb notna (values c) = true)).
  intros c Hc. cbn [values].
  pose proof (proj1 (Forall_forall _ _) Hwf c Hc) as Hlen. cbv beta in Hlen.
  rewrite !existsb_notna, !negb_true_iff, !all_null_false. split.
  - intros (v & Hin & Hv). exists v. split; [|done].
    eapply elem_of_sublist; [exact Hin|apply keep_by_sublist].
  - intros (v & Hin & Hv). exists v. split; [|done].
    apply list_elem_of_lookup_1 in Hin as [i Hi].
    apply (keep_by_elem _ _ i); [|done].
    assert (Hlt : i < nrows df)
      by (rewrite <- Hlen; by eapply lookup_lt_Some).
    rewrite list_lookup_fmap.
    etrans; [exact (f_equal (fmap (existsb notna)) (lookup_rows df i Hlt))|].
    simpl. f_equal.
    rewrite existsb_notna, negb_true_iff. apply row_at_has_value.
    exists c. split; [done|]. by rewrite nth_lookup, Hi.
Qed.

Section EitherOrder.
Context `{Collaborators}.

(** X14: On a frame whose columns all have one cell per row,
    [remove_empty_rows] followed by [remove_empty_columns] returns the
    frame that [remove_empty_columns] followed by [remove_empty_rows]
    returns: removing the empty rows empties no column, and removing the
    empty columns empties no row. *)
Theorem empty_rows_and_columns_in_either_order (df : DataFrame) (w : World) :
  well_formed df ->
  exists df',
    ((let* rows_removed := remove_empty_rows df in
      remove_empty_columns rows_removed) w).1 = Ok df' /\
    ((let* columns_removed := remove_empty_columns df in
      remove_empty_rows columns_removed) w).1 = Ok df' /\
    no_empty_row df' /\ no_empty_column df'.
Proof.
  intros Hwf. exists (dropna_columns (dropna_rows df)).
  split; [done|]. split.
  - cbn. by rewrite dropna_rows_columns_commute.
  - split.
    + by apply no_empty_row_dropna_columns, no_empty_row_dropna_rows.
    + apply no_empty_column_dropna_columns.
Qed.

End EitherOrder.

Lemma empty_rows_and_columns_in_either_order_witness :
  exists df',
    ((let* rows_removed := remove_empty_rows sample_frame in
      remove_empty_columns rows_removed) sample_world).1 = Ok df' /\
    ((let* columns_removed := remove_empty_columns sample_frame in
      remove_empty_rows columns_removed) sample_world).1 = Ok df'.
Proof.
  destruct (empty_rows_and_columns_in_either_order (H := sample_collaborators)
              sample_frame sample_world sample_frame_well_formed)
    as (df' & Hrc & Hcr & _).
  by exists df'.
Defined.
